(** * iPixel-CLI command encoder: a shallow embedding of [commands.py]

    The functions of [commands.py] that build the byte commands of the LED
    matrix are embedded as functions over [Z], [string] and [list byte].
    A Python exception is an [Err] result; the helpers of [bit_tools] and
    [img_2_pix], which [commands.py] imports, are fields of a record of
    external collaborators.  A str is a [string] of code points below 256,
    an int is a [Z], a bytes object is a [list byte].  Line numbers are those
    of [commands.py]. *)

From Stdlib Require Import ZArith List String Ascii Bool Lia.
From Stdlib Require Import Strings.Byte DecimalString HexadecimalString.
From Stdlib Require Import DecimalPos DecimalZ.
Import ListNotations.

Local Open Scope string_scope.
Local Open Scope Z_scope.

(** ** Python values, exceptions and results *)

(** A loosely typed argument, as the command line hands it over. *)
Inductive value : Type :=
| VInt (z : Z)
| VStr (s : string)
| VBool (b : bool).

(** The exceptions the embedded code can raise.  The [ValueError]s are kept
    apart by their message. *)
Inductive exn : Type :=
| InvalidBoolean (v : value)            (* "Invalid boolean value: ..." *)
| InvalidInteger (name : string)        (* "Invalid integer value for ..." *)
| OutOfRange (name : string) (lo hi : Z) (* "... must be between lo and hi" *)
| NotInList (name : string)             (* "... must be one of ... not ..." *)
| InvalidDate                           (* "Invalid date format: ..." *)
| InvalidAnimation                      (* "Invalid animation for text display" *)
| NonHexadecimal                        (* bytes.fromhex on a malformed string *)
| ByteRange                             (* "byte must be in range(0, 256)" *)
| OverflowError                         (* int too big to convert *)
| KeyError
| TypeError
| EmbeddedNull                          (* "embedded null byte", from open *)
| ExternalError (msg : string).         (* raised inside a collaborator *)

Inductive outcome (A : Type) : Type :=
| Ok (a : A)
| Err (e : exn).
Arguments Ok {A} a.
Arguments Err {A} e.

Definition bind {A B : Type} (m : outcome A) (f : A -> outcome B) : outcome B :=
  match m with
  | Ok a => f a
  | Err e => Err e
  end.

Notation "x <- m ;; k" := (bind m (fun x => k))
  (at level 61, m at next level, right associativity).
Notation "' p <- m ;; k" := (bind m (fun x => let p := x in k))
  (at level 61, p pattern, m at next level, right associativity).
Notation "m ;;; k" := (bind m (fun _ => k))
  (at level 61, right associativity).

Definition bytes := list byte.

(** ** Python built-ins used by the module *)

Module Py.

(** [len] of a str or bytes object. *)
Definition len_str (s : string) : Z := Z.of_nat (String.length s).
Definition len_bytes (b : bytes) : Z := Z.of_nat (List.length b).

(** [str(n)] for an int. *)
Definition str_of_int (n : Z) : string :=
  DecimalString.NilZero.string_of_int (Z.to_int n).

(** The digits of [hex(n)] without sign and prefix. *)
Definition hex_digits (n : N) : string :=
  HexadecimalString.NilZero.string_of_uint (N.to_hex_uint n).

(** [hex(n)]: ["0x1d"], ["-0x5"]. *)
Definition hex (n : Z) : string :=
  if n <? 0 then "-0x" ++ hex_digits (Z.to_N (- n))
  else "0x" ++ hex_digits (Z.to_N n).

(** [s[k:]]. *)
Fixpoint drop (k : nat) (s : string) : string :=
  match k, s with
  | O, _ => s
  | S _, EmptyString => EmptyString
  | S k', String _ s' => drop k' s'
  end.

Fixpoint zeros (k : nat) : string :=
  match k with
  | O => EmptyString
  | S k' => String "0" (zeros k')
  end.

(** [s.zfill(width)]: zeros go after a leading sign. *)
Definition zfill (width : nat) (s : string) : string :=
  let pad := zeros (width - String.length s) in
  match s with
  | String c s' =>
      if (Ascii.eqb c "+" || Ascii.eqb c "-")%bool
      then String c (pad ++ s')
      else pad ++ s
  | EmptyString => pad
  end.

(** [f"{n:02x}"]. *)
Definition format_02x (n : Z) : string :=
  if n <? 0 then zfill 2 ("-" ++ hex_digits (Z.to_N (- n)))
  else zfill 2 (hex_digits (Z.to_N n)).

(** [f"{n:02}"]. *)
Definition format_02 (n : Z) : string := zfill 2 (str_of_int n).

(** Value of a hexadecimal digit, as [bytes.fromhex] reads it. *)
Definition hexval (c : ascii) : option N :=
  let n := N_of_ascii c in
  if ((48 <=? n) && (n <=? 57))%N then Some (n - 48)%N
  else if ((97 <=? n) && (n <=? 102))%N then Some (n - 87)%N
  else if ((65 <=? n) && (n <=? 70))%N then Some (n - 55)%N
  else None.

(** ASCII white space, skipped by [bytes.fromhex] between two bytes. *)
Definition is_space (c : ascii) : bool :=
  let n := N_of_ascii c in
  ((n =? 32) || ((9 <=? n) && (n <=? 13)))%N.

Definition byte_of_N (n : N) : byte :=
  match Byte.of_N n with
  | Some b => b
  | None => x00
  end.

(** [bytes.fromhex(s)]: two digits per byte, white space allowed between
    bytes only. *)
Fixpoint fromhex (s : string) : outcome bytes :=
  match s with
  | EmptyString => Ok []
  | String c s' =>
      if is_space c then fromhex s'
      else
        match hexval c, s' with
        | Some hi, String d s'' =>
            match hexval d with
            | Some lo =>
                rest <- fromhex s'' ;;
                Ok (byte_of_N (16 * hi + lo) :: rest)
            | None => Err NonHexadecimal
            end
        | _, _ => Err NonHexadecimal
        end
  end.

(** One element of [bytes([...])] or [bytearray([...])]. *)
Definition byte_of_int (n : Z) : outcome byte :=
  if ((0 <=? n) && (n <? 256))%bool then Ok (byte_of_N (Z.to_N n))
  else Err ByteRange.

Fixpoint bytearray (l : list Z) : outcome bytes :=
  match l with
  | [] => Ok []
  | n :: l' =>
      b <- byte_of_int n ;;
      rest <- bytearray l' ;;
      Ok (b :: rest)
  end.

(** The [k] low bytes of [n], least significant first. *)
Fixpoint le_bytes (k : nat) (n : Z) : bytes :=
  match k with
  | O => []
  | S k' => byte_of_N (Z.to_N (n mod 256)) :: le_bytes k' (n / 256)
  end.

(** [n.to_bytes(k, byteorder='little')]. *)
Definition to_bytes_le (k : nat) (n : Z) : outcome bytes :=
  if ((0 <=? n) && (n <? 256 ^ Z.of_nat k))%bool then Ok (le_bytes k n)
  else Err OverflowError.

(** [int.from_bytes(b, 'little')], to read a length field back. *)
Fixpoint from_bytes_le (b : bytes) : Z :=
  match b with
  | [] => 0
  | x :: b' => Z.of_N (Byte.to_N x) + 256 * from_bytes_le b'
  end.

(** [str.lower()] on code points below 256. *)
Definition lower_char (c : ascii) : ascii :=
  let n := N_of_ascii c in
  if ((65 <=? n) && (n <=? 90))%N then ascii_of_N (n + 32)
  else if ((192 <=? n) && (n <=? 222) && negb (n =? 215))%N
       then ascii_of_N (n + 32)
  else c.

Fixpoint lower (s : string) : string :=
  match s with
  | EmptyString => EmptyString
  | String c s' => String (lower_char c) (lower s')
  end.

(** [s.split(sep)] for a one-character separator. *)
Fixpoint split_on (sep : ascii) (s : string) : list string :=
  match s with
  | EmptyString => [EmptyString]
  | String c s' =>
      if Ascii.eqb c sep then EmptyString :: split_on sep s'
      else
        match split_on sep s' with
        | [] => [String c EmptyString]
        | w :: ws => String c w :: ws
        end
  end.

(** The white space [int] strips around a literal, on code points below
    256. *)
Definition is_str_space (c : ascii) : bool :=
  let n := N_of_ascii c in
  ((n =? 32) || ((9 <=? n) && (n <=? 13)) || (n =? 133) || (n =? 160))%N.

Fixpoint lstrip (s : string) : string :=
  match s with
  | String c s' => if is_str_space c then lstrip s' else s
  | EmptyString => EmptyString
  end.

(** Drops trailing white space: the result of [rstrip]. *)
Fixpoint rstrip (s : string) : string :=
  match s with
  | EmptyString => EmptyString
  | String c s' =>
      match rstrip s' with
      | EmptyString => if is_str_space c then EmptyString else String c EmptyString
      | r => String c r
      end
  end.

Definition digit_val (c : ascii) : option Z :=
  let n := N_of_ascii c in
  if ((48 <=? n) && (n <=? 57))%N then Some (Z.of_N n - 48) else None.

(** Digits of an int literal: single underscores between digits only.
    [acc] is the value read so far, [prev_digit] tells whether the previous
    character was a digit. *)
Fixpoint read_digits (s : string) (acc : Z) (prev_digit : bool) : option Z :=
  match s with
  | EmptyString => if prev_digit then Some acc else None
  | String c s' =>
      match digit_val c with
      | Some d => read_digits s' (10 * acc + d) true
      | None =>
          if (Ascii.eqb c "_" && prev_digit)%bool
          then read_digits s' acc false
          else None
      end
  end.

(** The number of digits of a literal, leading zeros included and
    underscores left out. *)
Fixpoint count_digits (s : string) : Z :=
  match s with
  | EmptyString => 0
  | String c s' =>
      match digit_val c with
      | Some _ => 1 + count_digits s'
      | None => count_digits s'
      end
  end.

(** [sys.get_int_max_str_digits()], which the module leaves at its default:
    a longer literal is a [ValueError]. *)
Definition int_max_str_digits : Z := 4300.

(** [int(s)] for a str, base 10; [None] is [ValueError]. *)
Definition int_of_str (s : string) : option Z :=
  match rstrip (lstrip s) with
  | String c s' =>
      let literal :=
        if (Ascii.eqb c "-" || Ascii.eqb c "+")%bool then s' else String c s' in
      if int_max_str_digits <? count_digits literal then None
      else if Ascii.eqb c "-" then option_map Z.opp (read_digits s' 0 false)
      else if Ascii.eqb c "+" then read_digits s' 0 false
      else read_digits (String c s') 0 false
  | EmptyString => None
  end.

(** [binascii.crc32]: the reflected CRC-32 of polynomial 0xEDB88320. *)
Definition crc32_bit (c : Z) : Z :=
  if Z.odd c then Z.lxor (Z.shiftr c 1) 0xEDB88320 else Z.shiftr c 1.

Definition crc32_byte (c : Z) (b : byte) : Z :=
  let c0 := Z.lxor c (Z.of_N (Byte.to_N b)) in
  crc32_bit (crc32_bit (crc32_bit (crc32_bit
    (crc32_bit (crc32_bit (crc32_bit (crc32_bit c0))))))).

Definition crc32 (data : bytes) : Z :=
  Z.lxor (fold_left crc32_byte data 0xFFFFFFFF) 0xFFFFFFFF.

(** The ASCII encoding of a str, to feed test vectors. *)
Definition encode_ascii (s : string) : bytes :=
  map byte_of_ascii (list_ascii_of_string s).

End Py.

(** ** [datetime.datetime(year, month, day).weekday()] *)

Module Datetime.

Definition is_leap (year : Z) : bool :=
  ((year mod 4 =? 0) && (negb (year mod 100 =? 0) || (year mod 400 =? 0)))%bool.

Definition days_before_year (year : Z) : Z :=
  let y := year - 1 in
  y * 365 + y / 4 - y / 100 + y / 400.

Definition days_in_month (year month : Z) : Z :=
  if ((month =? 2) && is_leap year)%bool then 29
  else nth (Z.to_nat month) [0; 31; 28; 31; 30; 31; 30; 31; 31; 30; 31; 30; 31] 0.

Definition days_before_month (year month : Z) : Z :=
  nth (Z.to_nat month) [0; 0; 31; 59; 90; 120; 151; 181; 212; 243; 273; 304; 334] 0
  + (if ((2 <? month) && is_leap year)%bool then 1 else 0).

Definition ymd2ord (year month day : Z) : Z :=
  days_before_year year + days_before_month year month + day.

(** The constructor takes C ints and checks the fields of the date. *)
Definition c_int (n : Z) : bool := ((- 2 ^ 31 <=? n) && (n <? 2 ^ 31))%bool.

Definition weekday (year month day : Z) : outcome Z :=
  if negb (c_int year && c_int month && c_int day) then Err OverflowError
  else if negb ((1 <=? year) && (year <=? 9999)) then Err InvalidDate
  else if negb ((1 <=? month) && (month <=? 12)) then Err InvalidDate
  else if negb ((1 <=? day) && (day <=? days_in_month year month)) then Err InvalidDate
  else Ok ((ymd2ord year month day + 6) mod 7).

(** What [datetime.datetime.now()] gives to the module. *)
Record now : Type := {
  now_day : Z;
  now_month : Z;
  now_year : Z;
  now_weekday : Z }.

End Datetime.

(** ** Utility functions *)

Definition str_in (s : string) (l : list string) : bool :=
  existsb (String.eqb s) l.

(** [to_bool], lines 11-19. *)
Definition to_bool (v : value) : outcome bool :=
  match v with
  | VBool b => Ok b
  | VStr s =>
      if str_in (Py.lower s) ["true"; "1"; "yes"] then Ok true
      else if str_in (Py.lower s) ["false"; "0"; "no"] then Ok false
      else Err (InvalidBoolean v)
  | _ => Err (InvalidBoolean v)
  end.

(** [to_int], lines 22-27: [int(value)], a [ValueError] re-raised with the
    name of the parameter. *)
Definition to_int (v : value) (name : string) : outcome Z :=
  match v with
  | VInt z => Ok z
  | VBool b => Ok (if b then 1 else 0)
  | VStr s =>
      match Py.int_of_str s with
      | Some z => Ok z
      | None => Err (InvalidInteger name)
      end
  end.

(** [int_to_hex], lines 30-32. *)
Definition int_to_hex (n : Z) : string := Py.format_02x n.

(** [validate_range], lines 35-38. *)
Definition validate_range (v lo hi : Z) (name : string) : outcome unit :=
  if negb ((lo <=? v) && (v <=? hi)) then Err (OutOfRange name lo hi)
  else Ok tt.

(** [validate_list], lines 40-43. *)
Definition validate_list {A : Type} (eqb : A -> A -> bool) (v : A)
    (valid_list : list A) (name : string) : outcome unit :=
  if negb (existsb (eqb v) valid_list) then Err (NotInList name)
  else Ok tt.

(** ** The collaborators imported from [bit_tools] and [img_2_pix] *)

Record collaborators : Type := {
  (** [char_to_hex(char, matrix_height, font, font_offset, font_size,
      minmax_width)]: the bitmap of a character as hexadecimal text and its
      width; [None] leaves [minmax_width] to the rasterizer's default.  The
      font is handed over as the caller got it, a str or not. *)
  char_to_hex :
    ascii -> Z -> value -> Z * Z -> Z -> option (Z * Z * Z) -> outcome (string * Z);
  switch_endian : string -> outcome string;
  invert_frames : string -> outcome string;
  logic_reverse_bits_order : string -> outcome string;
  CRC32_checksum : string -> outcome string }.

Section Commands.

Variable E : collaborators.

(** [logic_reverse_bits_order(switch_endian(invert_frames(char_hex)))], the
    three bit transforms of lines 53 and 322. *)
Definition convert_char_hex (char_hex : string) : outcome string :=
  inverted <- invert_frames E char_hex ;;
  switched <- switch_endian E inverted ;;
  logic_reverse_bits_order E switched.

(** The loop of [encode_text], lines 51-59, on the text read so far. *)
Fixpoint encode_text_loop (chars : list ascii) (matrix_height : Z)
    (color font : string) (font_offset : Z * Z) (font_size : Z)
    (matrix_height_hex result : string) : outcome string :=
  match chars with
  | [] => Ok result
  | char :: rest =>
      '(char_hex, char_width) <-
        char_to_hex E char matrix_height (VStr font) font_offset font_size None ;;
      char_hex_converted <- convert_char_hex char_hex ;;
      let char_width_hex := Py.format_02x char_width in
      let result' :=
        if negb (String.eqb char_hex "")
        then result ++ "80" ++ color ++ char_width_hex ++ matrix_height_hex
                    ++ char_hex_converted
        else result in
      encode_text_loop rest matrix_height color font font_offset font_size
        matrix_height_hex result'
  end.

(** [encode_text], lines 46-61. *)
Definition encode_text (text : string) (matrix_height : Z) (color font : string)
    (font_offset : Z * Z) (font_size : Z) : outcome string :=
  let matrix_height_hex := Py.format_02x matrix_height in
  result <- encode_text_loop (list_ascii_of_string text) matrix_height color
              font font_offset font_size matrix_height_hex "" ;;
  Ok (Py.lower result).

(** ** Commands *)

(** The [try] block of [set_clock_mode], lines 76-80: the three fields of
    the date and the day of the week.  A [ValueError] of [int], of the
    unpacking or of [datetime] becomes the invalid-date error. *)
Definition parse_date (date : string) : outcome (Z * Z * Z * Z) :=
  match map Py.int_of_str (Py.split_on "/" date) with
  | [Some day; Some month; Some year] =>
      match Datetime.weekday year month day with
      | Ok wd => Ok (day, month, year, wd + 1)
      | Err OverflowError => Err OverflowError
      | Err _ => Err InvalidDate
      end
  | _ => Err InvalidDate
  end.

(** [set_clock_mode], lines 64-94; [clock] is the system date, read when
    [date] is empty. *)
Definition set_clock_mode (clock : Datetime.now) (style : value) (date : string)
    (show_date format_24 : value) : outcome bytes :=
  style <- to_int style "style" ;;
  show_date <- to_bool show_date ;;
  format_24 <- to_bool format_24 ;;
  '(day, month, year, day_of_week) <-
    (if String.eqb date ""
     then Ok (Datetime.now_day clock, Datetime.now_month clock,
              Datetime.now_year clock mod 100, Datetime.now_weekday clock + 1)
     else parse_date date) ;;
  validate_range style 0 8 "Clock mode" ;;;
  validate_range day_of_week 1 7 "Day of week" ;;;
  validate_range month 1 12 "Month" ;;;
  validate_range day 1 31 "Day" ;;;
  validate_range year 0 99 "Year" ;;;
  header <- Py.fromhex "0b000601" ;;
  params <- Py.fromhex (int_to_hex style ++ (if format_24 then "01" else "00")
                        ++ (if show_date then "01" else "00")) ;;
  date_bytes <- Py.fromhex (int_to_hex year ++ int_to_hex month
                            ++ int_to_hex day ++ int_to_hex day_of_week) ;;
  Ok (header ++ params ++ date_bytes)%list.

(** The arguments of [send_text]. *)
Record send_text_args : Type := {
  st_text : string;
  st_rainbow_mode : value;
  st_animation : value;
  st_save_slot : value;
  st_speed : value;
  st_color : string;
  st_font : string;
  st_font_offset_x : value;
  st_font_offset_y : value;
  st_font_size : value;
  st_matrix_height : value }.

Definition send_text_defaults (text : string) : send_text_args :=
  {| st_text := text; st_rainbow_mode := VInt 0; st_animation := VInt 0;
     st_save_slot := VInt 1; st_speed := VInt 80; st_color := "ffffff";
     st_font := "default"; st_font_offset_x := VInt 0;
     st_font_offset_y := VInt 0; st_font_size := VInt 0;
     st_matrix_height := VInt 16 |}.

Definition HEADER_1_MG : Z := 0x1D.
Definition HEADER_3_MG : Z := 0xE.

(** [send_text], lines 217-269. *)
Definition send_text (a : send_text_args) : outcome bytes :=
  let text := st_text a in
  rainbow_mode <- to_int (st_rainbow_mode a) "rainbow mode" ;;
  animation <- to_int (st_animation a) "animation" ;;
  save_slot <- to_int (st_save_slot a) "save slot" ;;
  speed <- to_int (st_speed a) "speed" ;;
  font_offset_x <- to_int (st_font_offset_x a) "font offset x" ;;
  font_offset_y <- to_int (st_font_offset_y a) "font offset y" ;;
  font_size <- to_int (st_font_size a) "font size" ;;
  matrix_height <- to_int (st_matrix_height a) "matrix height" ;;
  validate_range rainbow_mode 0 9 "Rainbow mode" ;;;
  validate_range animation 0 7 "Animation" ;;;
  validate_range save_slot 1 10 "Save slot" ;;;
  validate_range speed 0 100 "Speed" ;;;
  validate_range (Py.len_str text) 1 100 "Text length" ;;;
  validate_range matrix_height 1 128 "Matrix height" ;;;
  let font_size := if font_size =? 0 then matrix_height else font_size in
  if ((animation =? 3) || (animation =? 4))%bool then Err InvalidAnimation
  else
    let header_gap := 0x06 + matrix_height * 0x2 in
    header_1 <- switch_endian E
      (Py.zfill 4 (Py.drop 2 (Py.hex (HEADER_1_MG + Py.len_str text * header_gap)))) ;;
    let header_2 := "000100" in
    header_3 <- switch_endian E
      (Py.zfill 4 (Py.drop 2 (Py.hex (HEADER_3_MG + Py.len_str text * header_gap)))) ;;
    let header_4 := "0000" in
    let header := header_1 ++ header_2 ++ header_3 ++ header_4 in
    let save_slot_hex := Py.zfill 4 (Py.drop 2 (Py.hex save_slot)) in
    let number_of_characters := int_to_hex (Py.len_str text) in
    let properties :=
      "000101" ++ int_to_hex animation ++ int_to_hex speed
               ++ int_to_hex rainbow_mode ++ "ffffff00000000" in
    characters <- encode_text text matrix_height (st_color a) (st_font a)
                    (font_offset_x, font_offset_y) font_size ;;
    checksum <- CRC32_checksum E (number_of_characters ++ properties ++ characters) ;;
    let total := header ++ checksum ++ save_slot_hex ++ number_of_characters
                        ++ properties ++ characters in
    Py.fromhex total.

(** ** The packet model of the new text command *)

(** [add_packet_size], lines 302-303. *)
Definition add_packet_size (b : bytes) : outcome bytes :=
  size <- Py.to_bytes_le 2 (Py.len_bytes b + 2) ;;
  Ok (size ++ b)%list.

(** [update_packet_size], lines 305-306. *)
Definition update_packet_size (b : bytes) : outcome bytes :=
  size <- Py.to_bytes_le 2 (Py.len_bytes b) ;;
  Ok (size ++ skipn 2 b)%list.

(** [binCRC32_checksum], lines 308-310. *)
Definition binCRC32_checksum (data : bytes) : Z :=
  Z.land (Py.crc32 data) 0xFFFFFFFF.

(** The keyword arguments handed to a renderer; [None] is an absent key. *)
Record render_kwargs : Type := {
  rk_font : option value;
  rk_font_offset : option (Z * Z);
  rk_font_size : option Z;
  rk_minmax_width : option (Z * Z * Z) }.

Definition no_kwargs : render_kwargs :=
  {| rk_font := None; rk_font_offset := None; rk_font_size := None;
     rk_minmax_width := None |}.

Definition has_kwargs (k : render_kwargs) : bool :=
  match rk_font k, rk_font_offset k, rk_font_size k, rk_minmax_width k with
  | None, None, None, None => false
  | _, _, _, _ => true
  end.

Definition or_default {A : Type} (o : option A) (d : A) : A :=
  match o with
  | Some a => a
  | None => d
  end.

(** [char2bytes], lines 318-323, called with the keywords [k]. *)
Definition char2bytes (k : render_kwargs) (char : ascii) (matrix_height : Z)
    : outcome (bytes * Z) :=
  let font := or_default (rk_font k) (VStr "default") in
  let font_offset := or_default (rk_font_offset k) (0, 0) in
  let minmax_width := or_default (rk_minmax_width k) (9, 16, 1) in
  let font_size :=
    match rk_font_size k with
    | None => matrix_height
    | Some n => if n =? 0 then matrix_height else n
    end in
  '(char_hex, char_width) <-
    char_to_hex E char matrix_height font font_offset font_size (Some minmax_width) ;;
  char_hex_converted <- convert_char_hex char_hex ;;
  b <- Py.fromhex char_hex_converted ;;
  Ok (b, char_width).

(** A [render_call]: keywords, character and size to bitmap and width. *)
Definition renderer : Type := render_kwargs -> ascii -> Z -> outcome (bytes * Z).

(** The fields of a [text_packet] object, lines 325-338. *)
Record text_packet : Type := {
  led_type : Z;
  animation : Z;
  speed : Z;
  halign : Z;
  valign : Z;
  color_mode : Z;
  color : string;
  bg_color_mode : Z;
  bg_color : string;
  char_frames : list bytes;
  render_call : option renderer;
  render_call_param : render_kwargs }.

(** [text_packet.__init__], lines 326-338.  The argument [bg_color] is never
    read, so it may be any object. *)
Definition text_packet_init {B : Type} (led_type animation speed color_mode : Z)
    (color : string) (bg_color_mode : Z) (bg_color : B)
    (halign valign : Z) : text_packet :=
  {| led_type := led_type;
     animation := animation;
     speed := speed;
     halign := halign;
     valign := valign;
     color_mode := color_mode;
     color := color;
     bg_color_mode := bg_color_mode;
     bg_color := color;
     char_frames := [];
     render_call := None;
     render_call_param := no_kwargs |}.

(** The builder with [char_frames] replaced. *)
Definition set_frames (pkt : text_packet) (frames : list bytes) : text_packet :=
  {| led_type := led_type pkt;
     animation := animation pkt;
     speed := speed pkt;
     halign := halign pkt;
     valign := valign pkt;
     color_mode := color_mode pkt;
     color := color pkt;
     bg_color_mode := bg_color_mode pkt;
     bg_color := bg_color pkt;
     char_frames := frames;
     render_call := render_call pkt;
     render_call_param := render_call_param pkt |}.

(** [text_packet.get_packet], lines 340-347. *)
Definition get_packet (pkt : text_packet) : outcome bytes :=
  count <- Py.to_bytes_le 2 (Z.of_nat (List.length (char_frames pkt))) ;;
  fields <- Py.bytearray [halign pkt; valign pkt; animation pkt; speed pkt;
                          color_mode pkt] ;;
  color_bytes <- Py.fromhex (color pkt) ;;
  bg_mode <- Py.bytearray [bg_color_mode pkt] ;;
  bg_bytes <- Py.fromhex (bg_color pkt) ;;
  let properties := (count ++ fields ++ color_bytes ++ bg_mode ++ bg_bytes)%list in
  Ok (properties ++ List.concat (char_frames pkt))%list.

(** [text_packet.set_renderer], lines 349-354. *)
Definition set_renderer (pkt : text_packet) (call : option renderer)
    (kwargs : render_kwargs) : text_packet :=
  {| led_type := led_type pkt;
     animation := animation pkt;
     speed := speed pkt;
     halign := halign pkt;
     valign := valign pkt;
     color_mode := color_mode pkt;
     color := color pkt;
     bg_color_mode := bg_color_mode pkt;
     bg_color := bg_color pkt;
     char_frames := char_frames pkt;
     render_call := call;
     render_call_param :=
       if has_kwargs kwargs then kwargs else render_call_param pkt |}.

(** ["".join(["%c%c"%(c,c) for c in list(color)])] *)
Fixpoint double_chars (s : string) : string :=
  match s with
  | EmptyString => EmptyString
  | String c s' => String c (String c (double_chars s'))
  end.

(** The colour normalisation shared by [add_text] and [add_bmp]. *)
Definition normalize_color (color : option string) : string :=
  let color := or_default color "ffffff" in
  if Py.len_str color =? 6 then color else double_chars color.

(** [d[k]] on a dict given as its items. *)
Fixpoint lookup {A B : Type} (eqb : A -> A -> bool) (k : A) (d : list (A * B))
    : outcome B :=
  match d with
  | [] => Err KeyError
  | (k', v) :: d' => if eqb k k' then Ok v else lookup eqb k d'
  end.

(** [text_img_frame], lines 388-394: only jpg. *)
Definition width2val : list (Z * Z) :=
  [(16, 0x08); (32, 0x09); (20, 0x0C); (24, 0x0B); (64, 0x0A)].

Definition text_img_frame (res : Z) (jpg_data : bytes) : outcome bytes :=
  validate_list Z.eqb res (map fst width2val) "width" ;;;
  code <- lookup Z.eqb res width2val ;;
  h <- Py.bytearray [code] ;;
  size <- Py.to_bytes_le 3 (Py.len_bytes jpg_data) ;;
  Ok (h ++ size ++ jpg_data)%list.

(** [text_bmp_frame], lines 396-413. *)
Definition res2val_size : list (string * (Z * Z)) :=
  [("16x08", (0x00, 16 * 8 / 8));
   ("16x16", (0x01, 16 * 16 / 8));
   ("32x16", (0x02, 32 * 16 / 8));
   ("32x32", (0x03, 32 * 32 / 8));
   ("48x24", (0x04, 48 * 24 / 8));
   ("48x48", (0x05, 48 * 48 / 8));
   ("64x32", (0x06, 64 * 32 / 8));
   ("64x64", (0x07, 64 * 64 / 8))].

Definition text_bmp_frame (height width : Z) (color_rgb : string)
    (bmp_data : bytes) : outcome bytes :=
  let res := Py.format_02 height ++ "x" ++ Py.format_02 width in
  validate_list String.eqb res (map fst res2val_size) "width" ;;;
  entry <- lookup String.eqb res res2val_size ;;
  validate_list Z.eqb (Py.len_bytes bmp_data) [snd entry] "bmp size" ;;;
  h <- Py.bytearray [fst entry] ;;
  color_bytes <- Py.fromhex color_rgb ;;
  Ok (h ++ color_bytes ++ bmp_data)%list.

(** [text_bmp_var_width_frame], lines 416-423. *)
Definition text_bmp_var_width_frame (height width : Z) (color_rgb : string)
    (bmp_data : bytes) : outcome bytes :=
  validate_list Z.eqb height [16; 32; 24; 20; 12] "bmp height" ;;;
  validate_list Z.eqb (Py.len_bytes bmp_data) [height * ((width + 7) / 8)]
    "bmp size" ;;;
  h <- Py.bytearray [0x80] ;;
  color_bytes <- Py.fromhex color_rgb ;;
  dims <- Py.bytearray [width; height] ;;
  Ok (h ++ color_bytes ++ dims ++ bmp_data)%list.

(** [text_packet.add_bmp], lines 375-384. *)
Definition add_bmp (pkt : text_packet) (height width : Z)
    (color : option string) (bmp : bytes) : outcome text_packet :=
  let color := normalize_color color in
  if led_type pkt =? 0 then
    let width := ((width + 7) / 8) * 8 in
    frame <- text_bmp_frame height width color bmp ;;
    Ok (set_frames pkt (char_frames pkt ++ [frame]))
  else if led_type pkt =? 1 then
    frame <- text_bmp_var_width_frame height width color bmp ;;
    Ok (set_frames pkt (char_frames pkt ++ [frame]))
  else Ok pkt.

(** The loop of [add_text], lines 363-365; calling an unset [render_call]
    is a [TypeError]. *)
Fixpoint add_text_loop (pkt : text_packet) (chars : list ascii) (size : Z)
    (color : string) : outcome text_packet :=
  match chars with
  | [] => Ok pkt
  | char :: rest =>
      match render_call pkt with
      | None => Err TypeError
      | Some render =>
          '(bmp, char_width) <- render (render_call_param pkt) char size ;;
          pkt' <- add_bmp pkt size char_width (Some color) bmp ;;
          add_text_loop pkt' rest size color
      end
  end.

(** [text_packet.add_text], lines 356-365. *)
Definition add_text (pkt : text_packet) (text : string) (size : Z)
    (color : option string) : outcome text_packet :=
  add_text_loop pkt (list_ascii_of_string text) size (normalize_color color).

(** A NUL character in a file name: [open] refuses such a name with a
    [ValueError] before it asks the operating system. *)
Fixpoint has_nul (s : string) : bool :=
  match s with
  | EmptyString => false
  | String c s' => (Ascii.eqb c Ascii.zero || has_nul s')%bool
  end.

(** [open(filename, "rb").read()] on a file name without NUL: the bytes read,
    or [None] when opening or reading raises [OSError] (no such file, no
    permission, a directory, a failing device). *)
Definition filesystem : Type := string -> option bytes.

(** [text_packet.add_img], lines 367-373: only [OSError] is caught. *)
Definition add_img (fs : filesystem) (pkt : text_packet) (size : Z)
    (filename : string) : outcome text_packet :=
  if has_nul filename then Err EmbeddedNull
  else
    match fs filename with
    | Some data =>
        frame <- text_img_frame size data ;;
        Ok (set_frames pkt (char_frames pkt ++ [frame]))
    | None => Ok pkt
    end.

(** The arguments of [send_text2_].  The integer parameters are integers:
    [send_text1] and [send_text2] convert them.  The colours and the font
    are what the caller gave, a str or not. *)
Record send_text2_args : Type := {
  t2_led_type : Z;
  t2_animation : Z;
  t2_save_slot : Z;
  t2_speed : Z;
  t2_halign : Z;
  t2_valign : Z;
  t2_rainbow_mode : Z;
  t2_color : value;
  t2_bg_color_mode : Z;
  t2_bg_color : value;
  t2_font : value;
  t2_font_offset_x : Z;
  t2_font_offset_y : Z;
  t2_font_size : Z;
  t2_matrix_height : Z }.

Definition send_text2_defaults : send_text2_args :=
  {| t2_led_type := 0; t2_animation := 0; t2_save_slot := 0x65;
     t2_speed := 80; t2_halign := 0; t2_valign := 0; t2_rainbow_mode := 0;
     t2_color := VStr "ffffff"; t2_bg_color_mode := 0;
     t2_bg_color := VStr "000000"; t2_font := VStr "default";
     t2_font_offset_x := 0; t2_font_offset_y := 0;
     t2_font_size := 0; t2_matrix_height := 16 |}.

(** A str argument read as a str: [len(color)] at line 361 is a [TypeError]
    for an int or a bool. *)
Definition str_of_value (v : value) : outcome string :=
  match v with
  | VStr s => Ok s
  | _ => Err TypeError
  end.

Definition minmax_width80 : list (Z * (Z * Z * Z)) :=
  [(16, (9, 16, 1)); (12, (9, 16, 1)); (20, (9, 16, 1)); (24, (9, 16, 1));
   (32, (17, 24, 1))].

Definition minmax_width00 : list (Z * (Z * Z * Z)) :=
  [(16, (8, 16, 8)); (32, (16, 32, 16)); (48, (24, 48, 24)); (64, (32, 64, 32))].

(** [send_text2_], lines 453-468.  The constructor of line 459 stores its
    arguments unread and cannot fail, so the builder is written down after
    the first two steps that can: the table lookup of line 460 and the
    [len(color)] of [add_text], reached at line 461. *)
Definition send_text2_ (text : string) (a : send_text2_args) : outcome bytes :=
  let minmax_width :=
    if t2_led_type a =? 0 then minmax_width00 else minmax_width80 in
  mm <- lookup Z.eqb (t2_matrix_height a) minmax_width ;;
  color <- str_of_value (t2_color a) ;;
  let pkt := text_packet_init (t2_led_type a) (t2_animation a) (t2_speed a)
               (t2_rainbow_mode a) color (t2_bg_color_mode a)
               (t2_bg_color a) (t2_halign a) (t2_valign a) in
  let pkt := set_renderer pkt (Some char2bytes)
               {| rk_font := Some (t2_font a); rk_font_offset := None;
                  rk_font_size := Some (t2_font_size a);
                  rk_minmax_width := Some mm |} in
  pkt <- add_text pkt text (t2_matrix_height a) (Some color) ;;
  prop_char <- get_packet pkt ;;
  checksum <- Py.to_bytes_le 4 (binCRC32_checksum prop_char) ;;
  let tsize := Py.len_bytes prop_char + 4 + 4 + 2 in
  slot <- Py.bytearray [0; t2_save_slot a] ;;
  marker <- Py.fromhex "ffff 0001 00" ;;
  tsize_bytes <- Py.to_bytes_le 4 tsize ;;
  let header := (marker ++ tsize_bytes ++ checksum ++ slot)%list in
  update_packet_size (header ++ prop_char)%list.

(** Keyword arguments of [send_text1] and [send_text2], in call order. *)
Definition kwargs : Type := list (string * value).

Definition intkeys : list string :=
  ["animation"; "save_slot"; "speed"; "halign"; "valign"; "rainbow_mode";
   "bg_color_mode"; "font_offset_x"; "font_offset_y"; "font_size";
   "matrix_height"].

(** The dict comprehension of lines 445 and 450. *)
Fixpoint convert_kwargs (kw : kwargs) : outcome kwargs :=
  match kw with
  | [] => Ok []
  | (k, v) :: kw' =>
      v' <- (if str_in k intkeys then z <- to_int v k ;; Ok (VInt z) else Ok v) ;;
      rest <- convert_kwargs kw' ;;
      Ok ((k, v') :: rest)
  end.

(** The value of an integer keyword after [convert_kwargs], which leaves an
    integer there whenever it succeeds. *)
Definition set_int (v : value) (f : Z -> send_text2_args) : outcome send_text2_args :=
  match v with
  | VInt z => Ok (f z)
  | _ => Err TypeError
  end.

(** Binding one keyword of the call [send_text2_(text, led_type=..., **kwargs)]:
    a keyword that is no parameter, or that repeats [text] or [led_type], is a
    [TypeError].  The colours and the font are bound to whatever was given. *)
Definition bind_kwarg (a : send_text2_args) (k : string) (v : value)
    : outcome send_text2_args :=
  let upd animation save_slot speed halign valign rainbow_mode color
          bg_color_mode bg_color font font_offset_x font_offset_y font_size
          matrix_height :=
    {| t2_led_type := t2_led_type a; t2_animation := animation;
       t2_save_slot := save_slot; t2_speed := speed; t2_halign := halign;
       t2_valign := valign; t2_rainbow_mode := rainbow_mode; t2_color := color;
       t2_bg_color_mode := bg_color_mode; t2_bg_color := bg_color;
       t2_font := font; t2_font_offset_x := font_offset_x;
       t2_font_offset_y := font_offset_y; t2_font_size := font_size;
       t2_matrix_height := matrix_height |} in
  let an := t2_animation a in let ss := t2_save_slot a in
  let sp := t2_speed a in let ha := t2_halign a in let va := t2_valign a in
  let rm := t2_rainbow_mode a in let co := t2_color a in
  let bm := t2_bg_color_mode a in let bc := t2_bg_color a in
  let fo := t2_font a in let fx := t2_font_offset_x a in
  let fy := t2_font_offset_y a in let fs := t2_font_size a in
  let mh := t2_matrix_height a in
  if String.eqb k "animation" then
    set_int v (fun z => upd z ss sp ha va rm co bm bc fo fx fy fs mh)
  else if String.eqb k "save_slot" then
    set_int v (fun z => upd an z sp ha va rm co bm bc fo fx fy fs mh)
  else if String.eqb k "speed" then
    set_int v (fun z => upd an ss z ha va rm co bm bc fo fx fy fs mh)
  else if String.eqb k "halign" then
    set_int v (fun z => upd an ss sp z va rm co bm bc fo fx fy fs mh)
  else if String.eqb k "valign" then
    set_int v (fun z => upd an ss sp ha z rm co bm bc fo fx fy fs mh)
  else if String.eqb k "rainbow_mode" then
    set_int v (fun z => upd an ss sp ha va z co bm bc fo fx fy fs mh)
  else if String.eqb k "color" then
    Ok (upd an ss sp ha va rm v bm bc fo fx fy fs mh)
  else if String.eqb k "bg_color_mode" then
    set_int v (fun z => upd an ss sp ha va rm co z bc fo fx fy fs mh)
  else if String.eqb k "bg_color" then
    Ok (upd an ss sp ha va rm co bm v fo fx fy fs mh)
  else if String.eqb k "font" then
    Ok (upd an ss sp ha va rm co bm bc v fx fy fs mh)
  else if String.eqb k "font_offset_x" then
    set_int v (fun z => upd an ss sp ha va rm co bm bc fo z fy fs mh)
  else if String.eqb k "font_offset_y" then
    set_int v (fun z => upd an ss sp ha va rm co bm bc fo fx z fs mh)
  else if String.eqb k "font_size" then
    set_int v (fun z => upd an ss sp ha va rm co bm bc fo fx fy z mh)
  else if String.eqb k "matrix_height" then
    set_int v (fun z => upd an ss sp ha va rm co bm bc fo fx fy fs z)
  else Err TypeError.

Fixpoint bind_kwargs (a : send_text2_args) (kw : kwargs) : outcome send_text2_args :=
  match kw with
  | [] => Ok a
  | (k, v) :: kw' =>
      a' <- bind_kwarg a k v ;;
      bind_kwargs a' kw'
  end.

Definition with_led_type (led : Z) (a : send_text2_args) : send_text2_args :=
  {| t2_led_type := led; t2_animation := t2_animation a;
     t2_save_slot := t2_save_slot a; t2_speed := t2_speed a;
     t2_halign := t2_halign a; t2_valign := t2_valign a;
     t2_rainbow_mode := t2_rainbow_mode a; t2_color := t2_color a;
     t2_bg_color_mode := t2_bg_color_mode a; t2_bg_color := t2_bg_color a;
     t2_font := t2_font a; t2_font_offset_x := t2_font_offset_x a;
     t2_font_offset_y := t2_font_offset_y a; t2_font_size := t2_font_size a;
     t2_matrix_height := t2_matrix_height a |}.

(** [send_text1], lines 443-446, and [send_text2], lines 448-451. *)
Definition send_text1 (text : string) (kw : kwargs) : outcome bytes :=
  kw' <- convert_kwargs kw ;;
  a <- bind_kwargs (with_led_type 1 send_text2_defaults) kw' ;;
  send_text2_ text a.

Definition send_text2 (text : string) (kw : kwargs) : outcome bytes :=
  kw' <- convert_kwargs kw ;;
  a <- bind_kwargs (with_led_type 0 send_text2_defaults) kw' ;;
  send_text2_ text a.

End Commands.

(** ** Stand-ins for the collaborators

    Simple implementations of the imported helpers, to run the commands on
    concrete inputs.  The rasterizer draws every character but the space as a
    filled block of the narrowest allowed width, and the space as an empty
    bitmap. *)

Module Double.

Definition hex_char (n : N) : ascii :=
  match Py.hex_digits n with
  | String c _ => c
  | EmptyString => "0"%char
  end.

Fixpoint map_pairs (f : ascii -> ascii -> string) (s : string) : outcome string :=
  match s with
  | EmptyString => Ok EmptyString
  | String c (String d s') =>
      rest <- map_pairs f s' ;;
      Ok (f c d ++ rest)
  | String _ EmptyString => Err (ExternalError "odd length")
  end.

Fixpoint rev_pairs (s acc : string) : outcome string :=
  match s with
  | EmptyString => Ok acc
  | String c (String d s') => rev_pairs s' (String c (String d acc))
  | String _ EmptyString => Err (ExternalError "odd length")
  end.

Definition switch_endian (s : string) : outcome string := rev_pairs s "".

Definition complement (c : ascii) : ascii :=
  match Py.hexval c with
  | Some v => hex_char (15 - v)
  | None => c
  end.

Definition invert_frames (s : string) : outcome string :=
  map_pairs (fun c d => String (complement c) (String (complement d) "")) s.

(** The four bits of a hexadecimal digit in reverse order. *)
Definition mirror (c : ascii) : ascii :=
  match Py.hexval c with
  | Some v =>
      hex_char ((if N.testbit v 0 then 8 else 0) + (if N.testbit v 1 then 4 else 0)
                + (if N.testbit v 2 then 2 else 0) + (if N.testbit v 3 then 1 else 0))
  | None => c
  end.

Definition logic_reverse_bits_order (s : string) : outcome string :=
  map_pairs (fun c d => String (mirror d) (String (mirror c) "")) s.

Definition CRC32_checksum (s : string) : outcome string :=
  match Py.fromhex s with
  | Ok b => Ok (Py.zfill 8 (Py.hex_digits (Z.to_N (Py.crc32 b))))
  | Err _ => Err (ExternalError "not hexadecimal")
  end.

Fixpoint repeat_str (s : string) (n : nat) : string :=
  match n with
  | O => EmptyString
  | S n' => s ++ repeat_str s n'
  end.

Definition char_to_hex (char : ascii) (matrix_height : Z) (font : value)
    (font_offset : Z * Z) (font_size : Z) (minmax_width : option (Z * Z * Z))
    : outcome (string * Z) :=
  if Ascii.eqb char " " then Ok ("", 0)
  else
    let '(wmin, _, _) := or_default minmax_width (9, 16, 1) in
    Ok (repeat_str "ff" (Z.to_nat (matrix_height * ((wmin + 7) / 8))), wmin).

Definition tools : collaborators :=
  Build_collaborators char_to_hex switch_endian invert_frames
    logic_reverse_bits_order CRC32_checksum.

(** A file system with one readable file. *)
Definition files : filesystem :=
  fun name => if String.eqb name "jpg16x16" then Some [xff; xd8; xff; xd9] else None.

End Double.

(** * Vocabulary of the properties *)

(** ** The new text command *)

(** The leading two-byte little-endian size field of a command, and the
    bytes that follow it. *)
Definition size_field (cmd : bytes) : Z := Py.from_bytes_le (firstn 2 cmd).
Definition after_size_field (cmd : bytes) : bytes := skipn 2 cmd.

(** The commands of the new text family. *)
Inductive new_text_command (E : collaborators) (cmd : bytes) : Prop :=
| by_send_text2_ (text : string) (a : send_text2_args) :
    send_text2_ E text a = Ok cmd -> new_text_command E cmd
| by_send_text1 (text : string) (kw : kwargs) :
    send_text1 E text kw = Ok cmd -> new_text_command E cmd
| by_send_text2 (text : string) (kw : kwargs) :
    send_text2 E text kw = Ok cmd -> new_text_command E cmd.

(** ** Fixed-resolution bitmap frames *)

(** The resolution table as the specification lists it:
    (height, width) to (discriminant, byte length of the bitmap). *)
Definition resolution_table : list ((Z * Z) * (Z * Z)) :=
  [((16, 8), (0x00, 16)); ((16, 16), (0x01, 32)); ((32, 16), (0x02, 64));
   ((32, 32), (0x03, 128)); ((48, 24), (0x04, 144)); ((48, 48), (0x05, 288));
   ((64, 32), (0x06, 256)); ((64, 64), (0x07, 512))].





(** A colour text that denotes the three bytes [r], [g], [b]. *)
Definition rgb (color_rgb : string) (r g b : byte) : Prop :=
  Py.fromhex color_rgb = Ok [r; g; b].

(** ** Hexadecimal text *)

(** Text made of pairs of hexadecimal digits only, and the bytes it denotes. *)
Fixpoint hex_pairs (s : string) : bool :=
  match s with
  | EmptyString => true
  | String c (String d s') =>
      match Py.hexval c, Py.hexval d with
      | Some _, Some _ => hex_pairs s'
      | _, _ => false
      end
  | String _ EmptyString => false
  end.

Fixpoint hex_bytes (s : string) : bytes :=
  match s with
  | String c (String d s') =>
      match Py.hexval c, Py.hexval d with
      | Some hi, Some lo => Py.byte_of_N (16 * hi + lo) :: hex_bytes s'
      | _, _ => []
      end
  | _ => []
  end.

(** Text of exactly [k] bytes in hexadecimal. *)
Definition hex_field (k : nat) (s : string) : Prop :=
  hex_pairs s = true /\ String.length s = (2 * k)%nat.

(** The integers [lo], [lo + 1], ... below [lo + n]. *)
Definition Z_range (lo n : Z) : list Z :=
  map (fun i => lo + Z.of_nat i) (seq 0 (Z.to_nat n)).

Definition as_byte (n : Z) : byte := Py.byte_of_N (Z.to_N n).

Definition bytes_eqb (a b : bytes) : bool :=
  if list_eq_dec Byte.byte_eq_dec a b then true else false.

(** ** The legacy text command *)

(** The integer parameters of [send_text] after conversion. *)
Record legacy_params : Type := {
  p_rainbow_mode : Z;
  p_animation : Z;
  p_save_slot : Z;
  p_speed : Z;
  p_font_offset_x : Z;
  p_font_offset_y : Z;
  p_font_size : Z;
  p_matrix_height : Z }.

Definition converted (a : send_text_args) (p : legacy_params) : Prop :=
  to_int (st_rainbow_mode a) "rainbow mode" = Ok (p_rainbow_mode p)
  /\ to_int (st_animation a) "animation" = Ok (p_animation p)
  /\ to_int (st_save_slot a) "save slot" = Ok (p_save_slot p)
  /\ to_int (st_speed a) "speed" = Ok (p_speed p)
  /\ to_int (st_font_offset_x a) "font offset x" = Ok (p_font_offset_x p)
  /\ to_int (st_font_offset_y a) "font offset y" = Ok (p_font_offset_y p)
  /\ to_int (st_font_size a) "font size" = Ok (p_font_size p)
  /\ to_int (st_matrix_height a) "matrix height" = Ok (p_matrix_height p).

(** The ranges [send_text] validates, the animation apart. *)
Definition in_ranges (text : string) (p : legacy_params) : Prop :=
  0 <= p_rainbow_mode p <= 9
  /\ 1 <= p_save_slot p <= 10
  /\ 0 <= p_speed p <= 100
  /\ 1 <= Py.len_str text <= 100
  /\ 1 <= p_matrix_height p <= 128.

(** The errors of the integer conversions and of the range checks of
    [send_text], those of the animation apart. *)
Definition conversion_or_range_error (e : exn) : Prop :=
  In e [InvalidInteger "rainbow mode"; InvalidInteger "save slot";
        InvalidInteger "speed"; InvalidInteger "font offset x";
        InvalidInteger "font offset y"; InvalidInteger "font size";
        InvalidInteger "matrix height";
        OutOfRange "Rainbow mode" 0 9; OutOfRange "Save slot" 1 10;
        OutOfRange "Speed" 0 100; OutOfRange "Text length" 1 100;
        OutOfRange "Matrix height" 1 128].

Definition effective_font_size (p : legacy_params) : Z :=
  if p_font_size p =? 0 then p_matrix_height p else p_font_size p.

(** The cost of a character in the two length fields, in the words of the
    specification. *)
Definition per_char_cost (matrix_height : Z) : Z := 6 + 2 * matrix_height.

Definition hex_digit (d : Z) : ascii :=
  nth (Z.to_nat d) (list_ascii_of_string "0123456789abcdef") "0"%char.

(** The rendering of a number on four hexadecimal digits. *)
Definition four_hex_digits (v : Z) : string :=
  String (hex_digit (v / 4096 mod 16))
    (String (hex_digit (v / 256 mod 16))
       (String (hex_digit (v / 16 mod 16))
          (String (hex_digit (v mod 16)) EmptyString))).

Definition properties_block (p : legacy_params) : string :=
  "000101" ++ int_to_hex (p_animation p) ++ int_to_hex (p_speed p)
           ++ int_to_hex (p_rainbow_mode p) ++ "ffffff00000000".

Definition save_slot_field (p : legacy_params) : string :=
  Py.zfill 4 (Py.drop 2 (Py.hex (p_save_slot p))).

(** What [send_text] does once its parameters are converted and validated. *)
Definition send_text_body (E : collaborators) (a : send_text_args)
    (p : legacy_params) : outcome bytes :=
  let n := Py.len_str (st_text a) in
  let cost := per_char_cost (p_matrix_height p) in
  header_1 <- switch_endian E (four_hex_digits (0x1D + n * cost)) ;;
  header_3 <- switch_endian E (four_hex_digits (0xE + n * cost)) ;;
  characters <- encode_text E (st_text a) (p_matrix_height p) (st_color a)
                  (st_font a) (p_font_offset_x p, p_font_offset_y p)
                  (effective_font_size p) ;;
  checksum <- CRC32_checksum E
                (int_to_hex n ++ properties_block p ++ characters) ;;
  Py.fromhex ((header_1 ++ "000100" ++ header_3 ++ "0000") ++ checksum
              ++ save_slot_field p ++ int_to_hex n ++ properties_block p
              ++ characters).

(** What the collaborators returned during a run of [send_text]. *)
Record legacy_run : Type := {
  r_params : legacy_params;
  r_header_1 : string;
  r_header_3 : string;
  r_characters : string;
  r_checksum : string }.

(** The hexadecimal text of the header: the two length fields around the
    constant 000100, then 0000. *)
Definition legacy_header (r : legacy_run) : string :=
  r_header_1 r ++ "000100" ++ r_header_3 r ++ "0000".

(** The text the checksum is computed over. *)
Definition checksum_scope (a : send_text_args) (r : legacy_run) : string :=
  int_to_hex (Py.len_str (st_text a)) ++ properties_block (r_params r)
    ++ r_characters r.

Definition legacy_total (a : send_text_args) (r : legacy_run) : string :=
  legacy_header r ++ r_checksum r ++ save_slot_field (r_params r)
    ++ checksum_scope a r.

(** [runs E a r cmd]: [send_text] on [a] passes its checks, gets the texts of
    [r] from the collaborators and returns [cmd]. *)
Definition runs (E : collaborators) (a : send_text_args) (r : legacy_run)
    (cmd : bytes) : Prop :=
  let p := r_params r in
  let n := Py.len_str (st_text a) in
  let cost := per_char_cost (p_matrix_height p) in
  converted a p
  /\ in_ranges (st_text a) p
  /\ (0 <= p_animation p <= 7 /\ p_animation p <> 3 /\ p_animation p <> 4)
  /\ switch_endian E (four_hex_digits (0x1D + n * cost)) = Ok (r_header_1 r)
  /\ switch_endian E (four_hex_digits (0xE + n * cost)) = Ok (r_header_3 r)
  /\ encode_text E (st_text a) (p_matrix_height p) (st_color a) (st_font a)
       (p_font_offset_x p, p_font_offset_y p) (effective_font_size p)
     = Ok (r_characters r)
  /\ CRC32_checksum E (checksum_scope a r) = Ok (r_checksum r)
  /\ Py.fromhex (legacy_total a r) = Ok cmd.

(** The bytes of the properties block. *)
Definition properties_bytes (p : legacy_params) : bytes :=
  [x00; x01; x01; as_byte (p_animation p); as_byte (p_speed p);
   as_byte (p_rainbow_mode p); xff; xff; xff; x00; x00; x00; x00].

(** ** Glyphs *)

(** What the rasterizer and the bit transforms return for one character. *)
Record glyph : Type := {
  g_hex : string;
  g_width : Z;
  g_converted : string }.

Definition rasterized (E : collaborators) (matrix_height : Z) (font : string)
    (font_offset : Z * Z) (font_size : Z) (char : ascii) (g : glyph) : Prop :=
  char_to_hex E char matrix_height (VStr font) font_offset font_size None
  = Ok (g_hex g, g_width g)
  /\ convert_char_hex E (g_hex g) = Ok (g_converted g).

Definition visible (g : glyph) : bool := negb (String.eqb (g_hex g) "").

(** The frame of one character in the stream. *)
Definition glyph_frame (color : string) (matrix_height : Z) (g : glyph) : string :=
  "80" ++ color ++ Py.format_02x (g_width g) ++ Py.format_02x matrix_height
       ++ g_converted g.

Fixpoint join (frames : list string) : string :=
  match frames with
  | [] => EmptyString
  | f :: frames' => f ++ join frames'
  end.

(** The frames of the characters whose bitmap is not empty. *)
Definition glyph_frames (color : string) (matrix_height : Z) (glyphs : list glyph)
    : list string :=
  map (glyph_frame color matrix_height) (filter visible glyphs).

(** ** Sample inputs *)

(** The command of the empty text with the default arguments. *)
Definition empty_text_command : bytes :=
  [x1d; x00; x00; x01; x00; x18; x00; x00; x00; xd3; x38; xc1; x1f; x00; x65;
   x00; x00; x00; x00; x00; x50; x00; xff; xff; xff; x00; xff; xff; xff].

(** A call with animation 3, given as a string. *)
Definition animation_3_args : send_text_args :=
  {| st_text := "Hi"; st_rainbow_mode := VInt 0; st_animation := VStr "3";
     st_save_slot := VInt 1; st_speed := VInt 80; st_color := "ffffff";
     st_font := "default"; st_font_offset_x := VInt 0;
     st_font_offset_y := VInt 0; st_font_size := VInt 0;
     st_matrix_height := VInt 16 |}.

(** The arguments of C6's counterexample: animation 3 and save slot 0. *)
Definition animation_3_slot_0_args : send_text_args :=
  {| st_text := "Hi"; st_rainbow_mode := VInt 0; st_animation := VInt 3;
     st_save_slot := VInt 0; st_speed := VInt 80; st_color := "ffffff";
     st_font := "default"; st_font_offset_x := VInt 0;
     st_font_offset_y := VInt 0; st_font_size := VInt 0;
     st_matrix_height := VInt 16 |}.

(** The default call on the text "Hi", run with the stand-ins. *)
Definition hi_command : bytes :=
  Eval vm_compute in
    match send_text Double.tools (send_text_defaults "Hi") with
    | Ok cmd => cmd
    | Err _ => []
    end.

(** The glyphs the stand-in rasterizer draws at height 16. *)
Definition block_glyph : glyph :=
  {| g_hex := Double.repeat_str "ff" 32; g_width := 9;
     g_converted := Double.repeat_str "00" 32 |}.

Definition blank_glyph : glyph :=
  {| g_hex := ""; g_width := 0; g_converted := "" |}.

(** * The other commands of the module *)

(** ** Built-ins they use *)

Module Py2.

(** [s.endswith(suffix)]. *)
Definition endswith (s suffix : string) : bool :=
  (String.length suffix <=? String.length s)%nat
  && String.eqb (Py.drop (String.length s - String.length suffix) s) suffix.

(** Two lower-case hexadecimal digits of a byte. *)
Definition hex_of_byte (b : byte) : string :=
  Py.format_02x (Z.of_N (Byte.to_N b)).

(** [b.hex()] of a bytes object. *)
Fixpoint hex_of_bytes (b : bytes) : string :=
  match b with
  | [] => EmptyString
  | x :: b' => hex_of_byte x ++ hex_of_bytes b'
  end.

End Py2.

(** The hour, minute and second of [datetime.datetime.now()]. *)
Record time_now : Type := {
  now_hour : Z;
  now_minute : Z;
  now_second : Z }.

(** ** Fixed commands *)

(** The first loop of [set_rhythm_mode], lines 122-125; its error message
    also carries the level. *)
Fixpoint check_levels (levels : list value) : outcome unit :=
  match levels with
  | [] => Ok tt
  | l :: rest =>
      l <- to_int l "level" ;;
      if negb ((0 <=? l) && (l <=? 15)) then Err (OutOfRange "Level" 0 15)
      else check_levels rest
  end.

(** The join of lines 128-130. *)
Fixpoint levels_hex (levels : list value) : outcome string :=
  match levels with
  | [] => Ok EmptyString
  | l :: rest =>
      n <- to_int l "parameter" ;;
      data <- levels_hex rest ;;
      Ok (int_to_hex n ++ data)
  end.

(** [set_rhythm_mode], lines 97-132. *)
Definition set_rhythm_mode (style l1 l2 l3 l4 l5 l6 l7 l8 l9 l10 l11 : value)
    : outcome bytes :=
  header <- Py.fromhex "10000102" ;;
  style <- to_int style "style" ;;
  validate_range style 0 4 "rhythm mode style" ;;;
  check_levels [l1; l2; l3; l4; l5; l6; l7; l8; l9; l10; l11] ;;;
  data <- levels_hex [l1; l2; l3; l4; l5; l6; l7; l8; l9; l10; l11] ;;
  style_byte <- Py.fromhex (int_to_hex style) ;;
  data_bytes <- Py.fromhex data ;;
  Ok (header ++ style_byte ++ data_bytes)%list.

(** [set_rhythm_mode_2], lines 135-149. *)
Definition set_rhythm_mode_2 (style t : value) : outcome bytes :=
  header <- Py.fromhex "06000002" ;;
  style <- to_int style "style" ;;
  validate_range style 0 1 "rhythm mode style" ;;;
  t <- to_int t "level" ;;
  validate_range t 0 7 "Level" ;;;
  t_byte <- Py.bytearray [t] ;;
  style_byte <- Py.fromhex (int_to_hex style) ;;
  Ok (header ++ t_byte ++ style_byte)%list.

(** [set_time], lines 152-167; [None] is an argument left out. *)
Definition set_time (clock : time_now) (hour minute second : option value)
    : outcome bytes :=
  let '(hour, minute, second) :=
    match hour, minute, second with
    | Some h, Some m, Some s => (h, m, s)
    | _, _, _ =>
        (VInt (now_hour clock), VInt (now_minute clock), VInt (now_second clock))
    end in
  hour <- to_int hour "hour" ;;
  minute <- to_int minute "minute" ;;
  second <- to_int second "second" ;;
  validate_range hour 0 23 "Hour" ;;;
  validate_range minute 0 59 "Minute" ;;;
  validate_range second 0 59 "Second" ;;;
  header <- Py.fromhex "08000180" ;;
  fields <- Py.bytearray [hour; minute; second] ;;
  tail <- Py.fromhex "00" ;;
  Ok (header ++ fields ++ tail)%list.

(** [set_fun_mode], lines 170-172. *)
Definition set_fun_mode (v : value) : outcome bytes :=
  header <- Py.fromhex "05000401" ;;
  b <- to_bool v ;;
  flag <- Py.fromhex (if b then "01" else "00") ;;
  Ok (header ++ flag)%list.

(** [set_orientation], lines 175-179. *)
Definition set_orientation (orientation : value) : outcome bytes :=
  orientation <- to_int orientation "orientation" ;;
  validate_range orientation 0 3 "Orientation" ;;;
  header <- Py.fromhex "05000680" ;;
  b <- Py.fromhex (int_to_hex orientation) ;;
  Ok (header ++ b)%list.

(** [clear], lines 182-184. *)
Definition clear : outcome bytes := Py.fromhex "04000380".

(** [set_brightness], lines 187-191. *)
Definition set_brightness (v : value) : outcome bytes :=
  v <- to_int v "brightness" ;;
  validate_range v 0 100 "Brightness" ;;;
  header <- Py.fromhex "05000480" ;;
  b <- Py.fromhex (int_to_hex v) ;;
  Ok (header ++ b)%list.

(** [set_speed], lines 194-198. *)
Definition set_speed (v : value) : outcome bytes :=
  v <- to_int v "speed" ;;
  validate_range v 0 100 "Speed" ;;;
  header <- Py.fromhex "050003" ;;
  b <- Py.fromhex (int_to_hex v) ;;
  Ok (header ++ b)%list.

(** [set_pixel], lines 201-204. *)
Definition set_pixel (x y : value) (color : string) : outcome bytes :=
  x <- to_int x "parameter" ;;
  y <- to_int y "parameter" ;;
  header <- Py.fromhex "0a00050100" ;;
  color_bytes <- Py.fromhex color ;;
  xy <- Py.fromhex (int_to_hex x ++ int_to_hex y) ;;
  Ok (header ++ color_bytes ++ xy)%list.

(** [led_off] and [led_on], lines 207-214. *)
Definition led_off : outcome bytes := Py.fromhex "0500070100".
Definition led_on : outcome bytes := Py.fromhex "0500070101".

(** [delete_screen], lines 296-298. *)
Definition delete_screen (n : value) : outcome bytes :=
  header <- Py.fromhex "070002010100" ;;
  n <- to_int n "screen index" ;;
  b <- Py.fromhex (int_to_hex n) ;;
  Ok (header ++ b)%list.

(** ** Media commands *)

(** What the media commands use besides [CRC32_checksum]:
    [get_frame_size(data, size)] of [bit_tools], and the reading of a file,
    whose exception, if any, is not caught. *)
Record media : Type := {
  get_frame_size : string -> Z -> outcome string;
  read_file : string -> outcome bytes }.

Section Media.

Variable E : collaborators.
Variable M : media.

(** The common shape of [send_png] and [send_animation]: [ext] is the file
    extension, [family] and [sub] the constants of the command. *)
Definition send_media (ext family sub path_or_hex : string) : outcome bytes :=
  payload_hex <-
    (if Py2.endswith path_or_hex ext
     then data <- read_file M path_or_hex ;; Ok (Py2.hex_of_bytes data)
     else Ok path_or_hex) ;;
  checksum <- CRC32_checksum E payload_hex ;;
  size <- get_frame_size M payload_hex 8 ;;
  outer <- get_frame_size M
             ("FFFF" ++ family ++ size ++ checksum ++ sub ++ payload_hex) 4 ;;
  Py.fromhex (outer ++ family ++ size ++ checksum ++ sub ++ payload_hex).

(** [send_png], lines 272-281. *)
Definition send_png (path_or_hex : string) : outcome bytes :=
  send_media ".png" "020000" "0065" path_or_hex.

(** [send_animation], lines 283-293. *)
Definition send_animation (path_or_hex : string) : outcome bytes :=
  send_media ".gif" "030000" "0201" path_or_hex.

(** [send_text_test], lines 426-441. *)
Definition send_text_test (fs : filesystem) : outcome bytes :=
  header <- Py.fromhex "7d00 0001 00 ff000000" ;;
  checksum <- Py.fromhex "f918c474" ;;
  save_slot <- Py.fromhex "0065" ;;
  let pkt := text_packet_init 0 1 100 0 "0000ff" 2 "8fff34" 1 1 in
  let pkt := set_renderer pkt (Some (char2bytes E))
               {| rk_font := Some (VStr "SourceCodePro-Black");
                  rk_font_offset := None;
                  rk_font_size := Some 14; rk_minmax_width := Some (8, 16, 8) |} in
  pkt <- add_text pkt "Hello world" 16 (Some "00ffff") ;;
  let pkt := set_renderer pkt (Some (char2bytes E))
               {| rk_font := Some (VStr "ArialNova-Bold"); rk_font_offset := None;
                  rk_font_size := Some 28; rk_minmax_width := Some (16, 32, 16) |} in
  pkt <- add_text pkt " world" 32 (Some "6f0f0f") ;;
  bmp <- Py.fromhex "0000001c225a55555555553a423c0000" ;;
  pkt <- add_bmp pkt 16 8 (Some "0000ff") bmp ;;
  pkt <- add_img fs pkt 16 "jpg16x16" ;;
  prop_char <- get_packet pkt ;;
  checksum <- Py.to_bytes_le 4 (binCRC32_checksum prop_char) ;;
  let tsize := Py.len_bytes (checksum ++ save_slot ++ prop_char)%list + 4 in
  tsize_bytes <- Py.to_bytes_le 4 tsize ;;
  let header := (firstn (List.length header - 4) header ++ tsize_bytes)%list in
  update_packet_size (header ++ checksum ++ save_slot ++ prop_char)%list.

End Media.

(** Stand-ins for the media collaborators: the frame size is the byte count
    of the hexadecimal text, on [size] digits, low byte first. *)
Module DoubleMedia.

Definition get_frame_size (data : string) (size : Z) : outcome string :=
  Double.switch_endian
    (Py.zfill (Z.to_nat size) (Py.hex_digits (N.of_nat (String.length data / 2)))).

Definition read_file (name : string) : outcome bytes :=
  if String.eqb name "dot.png" then Ok [x89; x50; x4e; x47]
  else Err (ExternalError "FileNotFoundError").

Definition tools : media := Build_media get_frame_size read_file.

End DoubleMedia.

(** ** Vocabulary of the further properties *)

(** A byte that holds a flag. *)
Definition flag_byte (b : bool) : byte := if b then x01 else x00.

(** The commands of fixed length whose parameters are all validated. *)
Inductive fixed_command (cmd : bytes) : Prop :=
| by_set_clock_mode clock style date show_date format_24 :
    set_clock_mode clock style date show_date format_24 = Ok cmd ->
    fixed_command cmd
| by_set_rhythm_mode style l1 l2 l3 l4 l5 l6 l7 l8 l9 l10 l11 :
    set_rhythm_mode style l1 l2 l3 l4 l5 l6 l7 l8 l9 l10 l11 = Ok cmd ->
    fixed_command cmd
| by_set_rhythm_mode_2 style t :
    set_rhythm_mode_2 style t = Ok cmd -> fixed_command cmd
| by_set_time clock hour minute second :
    set_time clock hour minute second = Ok cmd -> fixed_command cmd
| by_set_fun_mode v : set_fun_mode v = Ok cmd -> fixed_command cmd
| by_set_orientation v : set_orientation v = Ok cmd -> fixed_command cmd
| by_clear : clear = Ok cmd -> fixed_command cmd
| by_set_brightness v : set_brightness v = Ok cmd -> fixed_command cmd
| by_led_off : led_off = Ok cmd -> fixed_command cmd
| by_led_on : led_on = Ok cmd -> fixed_command cmd.

(** The builder whose packet [send_text2_] wraps, for a colour given as the
    str [color] and the widths [mm] of the table: the packet of the arguments
    with the renderer set, after [add_text]. *)
Definition text2_builder (E : collaborators) (text : string)
    (a : send_text2_args) (color : string) (mm : Z * Z * Z)
    : outcome text_packet :=
  add_text
    (set_renderer
       (text_packet_init (t2_led_type a) (t2_animation a) (t2_speed a)
          (t2_rainbow_mode a) color (t2_bg_color_mode a) (t2_bg_color a)
          (t2_halign a) (t2_valign a))
       (Some (char2bytes E))
       {| rk_font := Some (t2_font a); rk_font_offset := None;
          rk_font_size := Some (t2_font_size a); rk_minmax_width := Some mm |})
    text (t2_matrix_height a) (Some color).


(** The commands that wrap a serialized packet. *)
Inductive enveloped_command (E : collaborators) (cmd : bytes) : Prop :=
| wrapped_by_send_text2_ (text : string) (a : send_text2_args) :
    send_text2_ E text a = Ok cmd -> enveloped_command E cmd
| wrapped_by_send_text_test (fs : filesystem) :
    send_text_test E fs = Ok cmd -> enveloped_command E cmd.

(** A glyph with a bitmap of two bytes a row: not empty, a width that fits a
    byte, and [2 * matrix_height] bytes of converted hexadecimal text. *)
Definition two_byte_rows (matrix_height : Z) (g : glyph) : Prop :=
  g_hex g <> ""
  /\ 0 <= g_width g < 256
  /\ hex_field (Z.to_nat (2 * matrix_height)) (g_converted g).

(** * Properties *)

(** ** Results and byte strings *)

Lemma bind_ok {A B : Type} (m : outcome A) (f : A -> outcome B) (b : B) :
  bind m f = Ok b -> exists a, m = Ok a /\ f a = Ok b.
Proof.
  destruct m as [a | e]; simpl; intros H; [eauto | discriminate].
Qed.

(** Splits a successful sequence of steps into its steps. *)
Ltac bind_inv H :=
  let a := fresh "v" in
  let Ha := fresh "Hv" in
  apply bind_ok in H; destruct H as (a & Ha & H).

Lemma le_bytes_length (k : nat) (n : Z) : List.length (Py.le_bytes k n) = k.
Proof.
  revert n; induction k as [| k IH]; intros n; simpl; [reflexivity |].
  now rewrite IH.
Qed.

Lemma to_bytes_le_length (k : nat) (n : Z) (b : bytes) :
  Py.to_bytes_le k n = Ok b -> List.length b = k.
Proof.
  unfold Py.to_bytes_le.
  destruct ((0 <=? n) && (n <? 256 ^ Z.of_nat k))%bool; intros H; inversion H.
  apply le_bytes_length.
Qed.

Lemma bytearray_length (l : list Z) (b : bytes) :
  Py.bytearray l = Ok b -> List.length b = List.length l.
Proof.
  revert b; induction l as [| n l IH]; simpl; intros b H.
  - now inversion H.
  - do 2 bind_inv H. inversion H. simpl. f_equal. now apply IH.
Qed.

Lemma byte_of_N_to_N (n : N) : (n < 256)%N -> Byte.to_N (Py.byte_of_N n) = n.
Proof.
  intros Hn. unfold Py.byte_of_N.
  destruct (Byte.of_N n) as [b |] eqn:Hb.
  - now apply Byte.to_of_N.
  - apply Byte.of_N_None_iff in Hb. lia.
Qed.

Lemma from_bytes_le_2 (n : Z) :
  0 <= n < 65536 -> Py.from_bytes_le (Py.le_bytes 2 n) = n.
Proof.
  intros Hn. cbn [Py.from_bytes_le Py.le_bytes].
  assert (H0 : 0 <= n mod 256 < 256) by (apply Z.mod_pos_bound; lia).
  assert (H1 : 0 <= n / 256 < 256)
    by (split; [apply Z.div_pos; lia | apply Z.div_lt_upper_bound; lia]).
  assert (H2 : 0 <= (n / 256) mod 256 < 256) by (apply Z.mod_pos_bound; lia).
  rewrite !byte_of_N_to_N by lia.
  rewrite !Z2N.id by lia.
  rewrite (Z.mod_small (n / 256) 256) by lia.
  pose proof (Z.div_mod n 256 ltac:(lia)). lia.
Qed.

Lemma binCRC32_checksum_range (data : bytes) :
  0 <= binCRC32_checksum data < 2 ^ 32.
Proof.
  unfold binCRC32_checksum.
  change 0xFFFFFFFF with (Z.ones 32).
  rewrite Z.land_ones by lia.
  apply Z.mod_pos_bound. lia.
Qed.

(** ** The clock command *)

(** C7: [set_clock_mode] with style 0, date "15/6/24" and the default
    [show_date] and [format_24] returns the bytes
    0b 00 06 01 00 01 01 18 06 0f 06, whatever the system clock: the date
    parses as day 15, month 6, year 24 and the weekday byte is 6. *)
Theorem set_clock_mode_scenario (clock : Datetime.now) :
  parse_date "15/6/24" = Ok (15, 6, 24, 6)
  /\ set_clock_mode clock (VInt 0) "15/6/24" (VBool true) (VBool true)
     = Ok [x0b; x00; x06; x01; x00; x01; x01; x18; x06; x0f; x06].
Proof.
  split; reflexivity.
Qed.

(** ** The builder of the new text command *)

Lemma text_packet_init_bg_color {B : Type} led an sp cm col bm (bg : B) ha va :
  bg_color (text_packet_init led an sp cm col bm bg ha va) = col.
Proof. reflexivity. Qed.

Lemma get_packet_ignores_bg_color {B B' : Type} led an sp cm col bm
    (bg : B) (bg' : B') ha va :
  get_packet (text_packet_init led an sp cm col bm bg ha va)
  = get_packet (text_packet_init led an sp cm col bm bg' ha va).
Proof. reflexivity. Qed.

(** C2: the packet of the self-test, built with colour 0000ff and background
    colour 8fff34, serializes the colour 00 00 ff after the background mode
    byte 02, not the background colour 8f ff 34. *)
Theorem get_packet_bg_color_is_color :
  get_packet (text_packet_init 0 1 100 0 "0000ff" 2 "8fff34" 1 1)
  = Ok [x00; x00; x01; x01; x01; x64; x00; x00; x00; xff; x02; x00; x00; xff]
  /\ get_packet (text_packet_init 0 1 100 0 "0000ff" 2 "8fff34" 1 1)
     <> Ok [x00; x00; x01; x01; x01; x64; x00; x00; x00; xff; x02; x8f; xff; x34].
Proof.
  split; [reflexivity | discriminate].
Qed.

(** C8, as the code has it: when opening or reading the file fails with
    [OSError], [add_img] raises nothing and returns the builder as it was,
    frames included.  A file name that holds a NUL character makes [open]
    fail with [ValueError] instead, which [add_img] does not catch: the call
    raises it and returns no builder. *)
Theorem add_img_unreadable_file (fs : filesystem) (pkt : text_packet)
    (size : Z) (filename : string) :
  (has_nul filename = false ->
   fs filename = None ->
   add_img fs pkt size filename = Ok pkt
   /\ (forall pkt', add_img fs pkt size filename = Ok pkt' ->
         char_frames pkt' = char_frames pkt))
  /\ (has_nul filename = true ->
      add_img fs pkt size filename = Err EmbeddedNull
      /\ (forall pkt', add_img fs pkt size filename <> Ok pkt')).
Proof.
  unfold add_img. split.
  - intros Hnul Hfs. rewrite Hnul, Hfs.
    split; [reflexivity |].
    intros pkt' H. now inversion H.
  - intros Hnul. rewrite Hnul.
    split; [reflexivity | intros pkt'; discriminate].
Qed.

Lemma add_img_unreadable_file_witness :
  add_img Double.files (text_packet_init 0 1 100 0 "0000ff" 2 "8fff34" 1 1)
    16 "missing.jpg"
  = Ok (text_packet_init 0 1 100 0 "0000ff" 2 "8fff34" 1 1)
  /\ add_img Double.files (text_packet_init 0 1 100 0 "0000ff" 2 "8fff34" 1 1)
       16 (String Ascii.zero "jpg16x16")
     = Err EmbeddedNull.
Proof.
  split.
  - apply (add_img_unreadable_file Double.files
             (text_packet_init 0 1 100 0 "0000ff" 2 "8fff34" 1 1) 16 "missing.jpg");
      reflexivity.
  - apply (add_img_unreadable_file Double.files
             (text_packet_init 0 1 100 0 "0000ff" 2 "8fff34" 1 1) 16
             (String Ascii.zero "jpg16x16")).
    reflexivity.
Defined.

(** C8, as stated, fails: opening the name made of one NUL character fails,
    and [add_img] raises the error instead of skipping the frame. *)
Lemma add_img_nul_name_raises :
  Double.files (String Ascii.zero "") = None
  /\ add_img Double.files (text_packet_init 0 1 100 0 "0000ff" 2 "8fff34" 1 1)
       16 (String Ascii.zero "")
     = Err EmbeddedNull
  /\ add_img Double.files (text_packet_init 0 1 100 0 "0000ff" 2 "8fff34" 1 1)
       16 (String Ascii.zero "")
     <> Ok (text_packet_init 0 1 100 0 "0000ff" 2 "8fff34" 1 1).
Proof.
  split; [reflexivity |].
  split; [reflexivity | discriminate].
Qed.

Section OtherPanel.

Variable pkt : text_packet.
Hypothesis not_fixed : led_type pkt <> 0.
Hypothesis not_variable : led_type pkt <> 1.

Lemma add_bmp_other_panel (height width : Z) (col : option string) (bmp : bytes) :
  add_bmp pkt height width col bmp = Ok pkt.
Proof.
  unfold add_bmp.
  destruct (Z.eqb_spec (led_type pkt) 0) as [H0 | _]; [contradiction |].
  destruct (Z.eqb_spec (led_type pkt) 1) as [H1 | _]; [contradiction |].
  reflexivity.
Qed.

Lemma add_text_loop_other_panel (chars : list ascii) (size : Z) (col : string)
    (pkt' : text_packet) :
  add_text_loop pkt chars size col = Ok pkt' -> pkt' = pkt.
Proof.
  induction chars as [| c rest IH]; simpl; intros H.
  - now inversion H.
  - destruct (render_call pkt) as [r |]; [| discriminate].
    bind_inv H. destruct v as [bmp w]. simpl in H.
    rewrite add_bmp_other_panel in H. simpl in H. auto.
Qed.

Lemma add_text_loop_other_panel_ok (r : renderer) (chars : list ascii)
    (size : Z) (col : string) :
  render_call pkt = Some r ->
  (forall c, In c chars -> exists g, r (render_call_param pkt) c size = Ok g) ->
  add_text_loop pkt chars size col = Ok pkt.
Proof.
  intros Hr. induction chars as [| c rest IH]; simpl; intros Hall.
  - reflexivity.
  - rewrite Hr. destruct (Hall c (or_introl eq_refl)) as ([bmp w] & Hg).
    rewrite Hg. simpl. rewrite add_bmp_other_panel. simpl.
    apply IH. intros c' Hc'. apply Hall. now right.
Qed.

End OtherPanel.

(** C10: on a builder whose panel type is neither 0 nor 1, [add_bmp] raises
    nothing and returns the builder unchanged; [add_text], which calls it
    for each character, never changes the builder either, and returns it
    unchanged whenever the renderer succeeds on every character. *)
Theorem add_bmp_unknown_panel_drops (pkt : text_packet) :
  led_type pkt <> 0 ->
  led_type pkt <> 1 ->
  (forall height width col bmp, add_bmp pkt height width col bmp = Ok pkt)
  /\ (forall text size col pkt',
        add_text pkt text size col = Ok pkt' -> pkt' = pkt)
  /\ (forall r text size col,
        render_call pkt = Some r ->
        (forall c, In c (list_ascii_of_string text) ->
           exists g, r (render_call_param pkt) c size = Ok g) ->
        add_text pkt text size col = Ok pkt).
Proof.
  intros H0 H1. repeat split.
  - intros. now apply add_bmp_other_panel.
  - intros text size col pkt'. unfold add_text.
    now apply add_text_loop_other_panel.
  - intros r text size col Hr Hall. unfold add_text.
    now apply add_text_loop_other_panel_ok with (r := r).
Qed.

Lemma add_bmp_unknown_panel_drops_witness :
  add_bmp (text_packet_init 2 1 100 0 "0000ff" 2 "8fff34" 1 1) 16 8
    (Some "0000ff") [x00; x1c; x22]
  = Ok (text_packet_init 2 1 100 0 "0000ff" 2 "8fff34" 1 1).
Proof.
  apply (add_bmp_unknown_panel_drops
           (text_packet_init 2 1 100 0 "0000ff" 2 "8fff34" 1 1)).
  - simpl. lia.
  - simpl. lia.
Defined.

(** ** The size field of the new text command *)

Lemma update_packet_size_field (b cmd : bytes) :
  (2 <= List.length b)%nat ->
  update_packet_size b = Ok cmd ->
  size_field cmd = Py.len_bytes cmd
  /\ Py.len_bytes cmd = Py.len_bytes b
  /\ after_size_field cmd = skipn 2 b.
Proof.
  intros Hlen H. unfold update_packet_size in H. bind_inv H.
  assert (Hc : cmd = (v ++ skipn 2 b)%list) by congruence.
  subst cmd; clear H.
  unfold Py.to_bytes_le in Hv.
  destruct ((0 <=? Py.len_bytes b) && (Py.len_bytes b <? 256 ^ Z.of_nat 2))%bool
    eqn:Hrange; [| discriminate].
  assert (Hb : v = Py.le_bytes 2 (Py.len_bytes b)) by congruence.
  subst v; clear Hv.
  apply andb_prop in Hrange. destruct Hrange as [Hlo Hhi].
  apply Z.leb_le in Hlo. apply Z.ltb_lt in Hhi.
  change (256 ^ Z.of_nat 2) with 65536 in Hhi.
  assert (Hcmd : Py.len_bytes (Py.le_bytes 2 (Py.len_bytes b) ++ skipn 2 b)%list
                 = Py.len_bytes b).
  { unfold Py.len_bytes. rewrite length_app, le_bytes_length, length_skipn. lia. }
  split; [| split; [exact Hcmd | reflexivity]].
  rewrite Hcmd. unfold size_field.
  change (firstn 2 (Py.le_bytes 2 (Py.len_bytes b) ++ skipn 2 b)%list)
    with (Py.le_bytes 2 (Py.len_bytes b)).
  apply from_bytes_le_2. lia.
Qed.

(** The size field of the other commands counts itself too: the one
    [add_packet_size] prepends, and the constant first bytes of the fixed
    commands, here the clock command of 11 bytes. *)
Lemma add_packet_size_field (b cmd : bytes) :
  add_packet_size b = Ok cmd -> size_field cmd = Py.len_bytes cmd.
Proof.
  intros H. unfold add_packet_size in H. bind_inv H.
  assert (Hc : cmd = (v ++ b)%list) by congruence.
  subst cmd; clear H.
  unfold Py.to_bytes_le in Hv.
  destruct ((0 <=? Py.len_bytes b + 2)
            && (Py.len_bytes b + 2 <? 256 ^ Z.of_nat 2))%bool eqn:Hrange;
    [| discriminate].
  assert (Hb : v = Py.le_bytes 2 (Py.len_bytes b + 2)) by congruence.
  subst v; clear Hv.
  apply andb_prop in Hrange. destruct Hrange as [Hlo Hhi].
  apply Z.leb_le in Hlo. apply Z.ltb_lt in Hhi.
  change (256 ^ Z.of_nat 2) with 65536 in Hhi.
  unfold size_field.
  change (firstn 2 (Py.le_bytes 2 (Py.len_bytes b + 2) ++ b)%list)
    with (Py.le_bytes 2 (Py.len_bytes b + 2)).
  rewrite from_bytes_le_2 by lia.
  unfold Py.len_bytes. rewrite length_app, le_bytes_length. lia.
Qed.

Lemma clock_command_size_field :
  size_field [x0b; x00; x06; x01; x00; x01; x01; x18; x06; x0f; x06] = 11.
Proof. reflexivity. Qed.

Lemma send_text2__size_field (E : collaborators) (text : string)
    (a : send_text2_args) (cmd : bytes) :
  send_text2_ E text a = Ok cmd ->
  size_field cmd = Py.len_bytes cmd /\ 15 <= Py.len_bytes cmd.
Proof.
  intros H. unfold send_text2_ in H.
  do 8 bind_inv H.
  match goal with
  | Hm : Py.fromhex "ffff 0001 00" = Ok ?m |- _ =>
      assert (Hmarker : List.length m = 5%nat) by (inversion Hm; reflexivity)
  end.
  repeat match goal with
  | Ht : Py.to_bytes_le 4 _ = Ok _ |- _ => apply to_bytes_le_length in Ht
  | Hs : Py.bytearray _ = Ok _ |- _ => apply bytearray_length in Hs
  end.
  apply update_packet_size_field in H;
    [destruct H as (Hf & Hl & _); split; [exact Hf |]; rewrite Hl |];
    unfold Py.len_bytes; rewrite !length_app; simpl in *; lia.
Qed.

(** C1, as the code has it: the size field of a command of [send_text2_],
    [send_text1] or [send_text2] is the byte count of the whole command, the
    two bytes of the field included: two more than the count of the bytes
    that follow it. *)
Theorem new_text_size_field_counts_itself (E : collaborators) (cmd : bytes) :
  new_text_command E cmd ->
  size_field cmd = Py.len_bytes cmd
  /\ size_field cmd = Py.len_bytes (after_size_field cmd) + 2.
Proof.
  intros H.
  assert (Hsize : size_field cmd = Py.len_bytes cmd /\ 15 <= Py.len_bytes cmd).
  { destruct H as [text a H | text kw H | text kw H].
    - now apply send_text2__size_field in H.
    - unfold send_text1 in H. do 2 bind_inv H.
      now apply send_text2__size_field in H.
    - unfold send_text2 in H. do 2 bind_inv H.
      now apply send_text2__size_field in H. }
  destruct Hsize as [Hsize Hlen].
  split; [exact Hsize |].
  rewrite Hsize. unfold after_size_field, Py.len_bytes in *.
  rewrite length_skipn. lia.
Qed.

Lemma new_text_size_field_counts_itself_witness :
  size_field empty_text_command = 29
  /\ size_field empty_text_command
     = Py.len_bytes (after_size_field empty_text_command) + 2.
Proof.
  apply (new_text_size_field_counts_itself Double.tools empty_text_command).
  apply by_send_text2 with (text := "") (kw := []).
  vm_compute. reflexivity.
Defined.

(** C1, as stated, fails: [send_text2] on the empty text returns 29 bytes; the
    size field holds 29 and 27 bytes follow it. *)
Lemma new_text_size_field_not_remaining_length :
  send_text2 Double.tools "" [] = Ok empty_text_command
  /\ size_field empty_text_command = 29
  /\ Py.len_bytes (after_size_field empty_text_command) = 27
  /\ size_field empty_text_command
     <> Py.len_bytes (after_size_field empty_text_command).
Proof.
  split; [reflexivity |].
  split; [reflexivity |].
  split; [reflexivity | discriminate].
Qed.

(** ** Fixed-resolution bitmap frames *)














Lemma text_bmp_frame_listed (height width d n : Z) (color_rgb : string)
    (bmp : bytes) :
  In ((height, width), (d, n)) resolution_table ->
  text_bmp_frame height width color_rgb bmp
  = (if Py.len_bytes bmp =? n
     then color_bytes <- Py.fromhex color_rgb ;;
          Ok (Py.byte_of_N (Z.to_N d) :: color_bytes ++ bmp)%list
     else Err (NotInList "bmp size")).
Proof.
  intros Hin. simpl in Hin.
  repeat (destruct Hin as [Hin | Hin];
          [injection Hin as <- <- <- <-; unfold text_bmp_frame, validate_list;
           simpl;
           match goal with
           | |- context [negb ((Py.len_bytes bmp =? ?e) || false)] =>
               let v := eval vm_compute in e in change e with v
           end;
           destruct (Py.len_bytes bmp =? _); simpl;
           [destruct (Py.fromhex color_rgb); reflexivity | reflexivity] |]).
  contradiction.
Qed.




(** ** Hexadecimal text *)

Lemma hexval_not_space (c : ascii) (v : N) :
  Py.hexval c = Some v -> Py.is_space c = false.
Proof.
  destruct c as [[] [] [] [] [] [] [] []]; vm_compute; intros H;
    first [reflexivity | discriminate].
Qed.

(** Induction on a string two characters at a time. *)
Lemma string_pair_ind (P : string -> Prop) :
  P EmptyString ->
  (forall c, P (String c EmptyString)) ->
  (forall c d s, P s -> P (String c (String d s))) ->
  forall s, P s.
Proof.
  intros H0 H1 H2.
  fix IH 1. intros [| c [| d s]]; [exact H0 | apply H1 | apply H2, IH].
Qed.

Lemma fromhex_app (a b : string) :
  hex_pairs a = true ->
  Py.fromhex (a ++ b) = (tail <- Py.fromhex b ;; Ok (hex_bytes a ++ tail)%list).
Proof.
  induction a as [| c | c d a IH] using string_pair_ind; intros H.
  - simpl. now destruct (Py.fromhex b).
  - discriminate.
  - cbn [hex_pairs] in H. cbn [append Py.fromhex hex_bytes].
    destruct (Py.hexval c) as [hi |] eqn:Hc; [| discriminate].
    destruct (Py.hexval d) as [lo |] eqn:Hd; [| discriminate].
    rewrite (hexval_not_space c hi Hc), (IH H).
    now destruct (Py.fromhex b).
Qed.

Lemma fromhex_hex_pairs (a : string) :
  hex_pairs a = true -> Py.fromhex a = Ok (hex_bytes a).
Proof.
  intros H. pose proof (fromhex_app a "" H) as Happ.
  assert (Ha : a ++ "" = a) by (clear; induction a; simpl; congruence).
  rewrite Ha in Happ. rewrite Happ. simpl. now rewrite app_nil_r.
Qed.

Lemma hex_pairs_app (a b : string) :
  hex_pairs a = true -> hex_pairs b = true -> hex_pairs (a ++ b) = true.
Proof.
  induction a as [| c | c d a IH] using string_pair_ind; intros Ha Hb.
  - exact Hb.
  - discriminate.
  - cbn [hex_pairs append] in *.
    destruct (Py.hexval c); [| discriminate].
    destruct (Py.hexval d); [| discriminate]. auto.
Qed.

Lemma hex_bytes_app (a b : string) :
  hex_pairs a = true -> hex_bytes (a ++ b) = (hex_bytes a ++ hex_bytes b)%list.
Proof.
  induction a as [| c | c d a IH] using string_pair_ind; intros Ha.
  - reflexivity.
  - discriminate.
  - cbn [hex_pairs append hex_bytes] in *.
    destruct (Py.hexval c); [| discriminate].
    destruct (Py.hexval d); [| discriminate].
    simpl. now rewrite IH.
Qed.

Lemma hex_bytes_length (a : string) :
  hex_pairs a = true -> (2 * List.length (hex_bytes a))%nat = String.length a.
Proof.
  induction a as [| c | c d a IH] using string_pair_ind; intros Ha.
  - reflexivity.
  - discriminate.
  - cbn [hex_pairs hex_bytes String.length] in *.
    destruct (Py.hexval c); [| discriminate].
    destruct (Py.hexval d); [| discriminate].
    simpl. rewrite <- (IH Ha). lia.
Qed.

Lemma hex_field_length (k : nat) (s : string) :
  hex_field k s -> List.length (hex_bytes s) = k.
Proof.
  intros [Hp Hl]. pose proof (hex_bytes_length s Hp). lia.
Qed.

Lemma forallb_Z_range (P : Z -> bool) (lo n : Z) :
  forallb P (Z_range lo n) = true ->
  forall z, lo <= z < lo + n -> P z = true.
Proof.
  intros Hall z Hz. rewrite forallb_forall in Hall. apply Hall.
  unfold Z_range. apply in_map_iff. exists (Z.to_nat (z - lo)). split.
  - lia.
  - apply in_seq. lia.
Qed.

Lemma int_to_hex_byte (n : Z) :
  0 <= n < 256 ->
  hex_pairs (int_to_hex n) = true /\ hex_bytes (int_to_hex n) = [as_byte n].
Proof.
  intros Hn.
  pose proof (forallb_Z_range
    (fun z => (hex_pairs (int_to_hex z)
               && bytes_eqb (hex_bytes (int_to_hex z)) [as_byte z])%bool)
    0 256 eq_refl n ltac:(lia)) as H.
  cbv beta in H. apply andb_prop in H. destruct H as [H1 H2].
  split; [exact H1 |].
  unfold bytes_eqb in H2.
  now destruct (list_eq_dec Byte.byte_eq_dec (hex_bytes (int_to_hex n)) [as_byte n]).
Qed.

(** ** The legacy text command *)

Lemma to_int_error (v : value) (name : string) (e : exn) :
  to_int v name = Err e -> e = InvalidInteger name.
Proof.
  destruct v as [n | s | b]; simpl; try discriminate.
  destruct (Py.int_of_str s); [discriminate | congruence].
Qed.

Lemma validate_range_ok (v lo hi : Z) (name : string) (u : unit) :
  validate_range v lo hi name = Ok u -> lo <= v <= hi.
Proof.
  unfold validate_range.
  destruct (Z.leb_spec lo v); destruct (Z.leb_spec v hi); simpl;
    intros Hok; first [discriminate | lia].
Qed.

Lemma validate_range_in (v lo hi : Z) (name : string) :
  lo <= v <= hi -> validate_range v lo hi name = Ok tt.
Proof.
  intros Hin. unfold validate_range.
  destruct (Z.leb_spec lo v); destruct (Z.leb_spec v hi); simpl;
    first [reflexivity | lia].
Qed.

Lemma hex_4_digits (v : Z) :
  0 <= v < 65536 -> Py.zfill 4 (Py.drop 2 (Py.hex v)) = four_hex_digits v.
Proof.
  intros Hv.
  pose proof (forallb_Z_range
    (fun hi => forallb
       (fun lo => String.eqb (Py.zfill 4 (Py.drop 2 (Py.hex (256 * hi + lo))))
                    (four_hex_digits (256 * hi + lo)))
       (Z_range 0 256))
    0 256) as H.
  cbv beta in H.
  assert (Hhi : 0 <= v / 256 < 0 + 256)
    by (split; [apply Z.div_pos; lia | apply Z.div_lt_upper_bound; lia]).
  assert (Hlo : 0 <= v mod 256 < 0 + 256) by (apply Z.mod_pos_bound; lia).
  specialize (H ltac:(vm_compute; reflexivity) (v / 256) Hhi).
  apply forallb_Z_range with (z := v mod 256) in H; [| exact Hlo].
  rewrite <- Z.div_mod in H by lia.
  now apply String.eqb_eq.
Qed.

Lemma length_field_range (text : string) (p : legacy_params) (magic : Z) :
  in_ranges text p -> 0 <= magic <= 29 ->
  0 <= magic + Py.len_str text * per_char_cost (p_matrix_height p) < 65536.
Proof.
  unfold in_ranges, per_char_cost. intros (_ & _ & _ & Hn & Hm) Hmagic. nia.
Qed.

(** With converted, validated parameters [send_text] runs its body. *)
Lemma send_text_valid (E : collaborators) (a : send_text_args)
    (p : legacy_params) :
  converted a p -> in_ranges (st_text a) p ->
  send_text E a
  = (if ((p_animation p <? 0) || (7 <? p_animation p))%bool
     then Err (OutOfRange "Animation" 0 7)
     else if ((p_animation p =? 3) || (p_animation p =? 4))%bool
          then Err InvalidAnimation
          else send_text_body E a p).
Proof.
  intros (Hrm & Han & Hss & Hsp & Hfx & Hfy & Hfs & Hmh) Hr.
  pose proof (length_field_range _ _ 0x1D Hr ltac:(lia)) as H1.
  pose proof (length_field_range _ _ 0xE Hr ltac:(lia)) as H3.
  destruct Hr as (Rrm & Rss & Rsp & Rn & Rmh).
  unfold send_text.
  rewrite Hrm, Han, Hss, Hsp, Hfx, Hfy, Hfs, Hmh. cbn [bind].
  rewrite (validate_range_in _ 0 9) by assumption. cbn [bind].
  unfold validate_range at 1.
  destruct (Z.ltb_spec (p_animation p) 0) as [Hlo | Hlo].
  { destruct (Z.leb_spec 0 (p_animation p)); [lia | reflexivity]. }
  destruct (Z.ltb_spec 7 (p_animation p)) as [Hhi | Hhi].
  { destruct (Z.leb_spec 0 (p_animation p)); [| lia].
    destruct (Z.leb_spec (p_animation p) 7); [lia | reflexivity]. }
  destruct (Z.leb_spec 0 (p_animation p)); [| lia].
  destruct (Z.leb_spec (p_animation p) 7); [| lia].
  cbn [andb negb orb bind].
  rewrite (validate_range_in _ 1 10) by assumption. cbn [bind].
  rewrite (validate_range_in _ 0 100) by assumption. cbn [bind].
  rewrite (validate_range_in _ 1 100) by assumption. cbn [bind].
  rewrite (validate_range_in _ 1 128) by assumption. cbn [bind].
  destruct ((p_animation p =? 3) || (p_animation p =? 4))%bool; [reflexivity |].
  unfold send_text_body, HEADER_1_MG, HEADER_3_MG.
  unfold per_char_cost in *.
  replace (6 + p_matrix_height p * 2) with (6 + 2 * p_matrix_height p) by lia.
  rewrite !hex_4_digits by assumption.
  reflexivity.
Qed.

(** A successful [send_text] had convertible parameters in their ranges. *)
Lemma send_text_ok_valid (E : collaborators) (a : send_text_args) (cmd : bytes) :
  send_text E a = Ok cmd ->
  exists p, converted a p /\ in_ranges (st_text a) p
            /\ 0 <= p_animation p <= 7.
Proof.
  intros H. unfold send_text in H.
  do 8 bind_inv H.
  repeat match goal with
  | Hr : validate_range _ _ _ _ = Ok _ |- _ => apply validate_range_ok in Hr
  | _ => bind_inv H
  end.
  exists {| p_rainbow_mode := v; p_animation := v0; p_save_slot := v1;
            p_speed := v2; p_font_offset_x := v3; p_font_offset_y := v4;
            p_font_size := v5; p_matrix_height := v6 |}.
  unfold converted, in_ranges. simpl. tauto.
Qed.

(** A successful [send_text] ran its body on parameters in their ranges, with
    an animation other than 3 and 4. *)
Lemma send_text_ok_body (E : collaborators) (a : send_text_args) (cmd : bytes) :
  send_text E a = Ok cmd ->
  exists p, converted a p /\ in_ranges (st_text a) p
            /\ 0 <= p_animation p <= 7
            /\ p_animation p <> 3 /\ p_animation p <> 4
            /\ send_text_body E a p = Ok cmd.
Proof.
  intros H.
  destruct (send_text_ok_valid E a cmd H) as (p & Hc & Hr & Ha).
  exists p. rewrite (send_text_valid E a p Hc Hr) in H.
  destruct (Z.ltb_spec (p_animation p) 0); [discriminate |].
  destruct (Z.ltb_spec 7 (p_animation p)); [discriminate |].
  cbn [orb] in H.
  destruct (Z.eqb_spec (p_animation p) 3); [discriminate |].
  destruct (Z.eqb_spec (p_animation p) 4); [discriminate |].
  cbn [orb] in H. tauto.
Qed.

(** Closes the case of a conversion or range check that fails. *)
Ltac fails_with :=
  right; eexists;
  split;
  [ reflexivity
  | unfold conversion_or_range_error; cbn [In];
    solve [repeat first [left; reflexivity | right]] ].

(** With an animation that converts into its range, either all parameters
    convert into their ranges, or [send_text] fails with the error of the
    first conversion or range check that fails. *)
Lemma send_text_checks (E : collaborators) (a : send_text_args) (animation : Z) :
  to_int (st_animation a) "animation" = Ok animation ->
  0 <= animation <= 7 ->
  (exists p, converted a p /\ in_ranges (st_text a) p)
  \/ (exists e, send_text E a = Err e /\ conversion_or_range_error e).
Proof.
  intros Han Hrange. unfold send_text. cbv zeta. rewrite Han.
  destruct (to_int (st_rainbow_mode a) "rainbow mode") as [rm | e] eqn:Hrm;
    [| apply to_int_error in Hrm; subst e; fails_with].
  cbn [bind].
  destruct (to_int (st_save_slot a) "save slot") as [ss | e] eqn:Hss;
    [| apply to_int_error in Hss; subst e; fails_with].
  cbn [bind].
  destruct (to_int (st_speed a) "speed") as [sp | e] eqn:Hsp;
    [| apply to_int_error in Hsp; subst e; fails_with].
  cbn [bind].
  destruct (to_int (st_font_offset_x a) "font offset x") as [fx | e] eqn:Hfx;
    [| apply to_int_error in Hfx; subst e; fails_with].
  cbn [bind].
  destruct (to_int (st_font_offset_y a) "font offset y") as [fy | e] eqn:Hfy;
    [| apply to_int_error in Hfy; subst e; fails_with].
  cbn [bind].
  destruct (to_int (st_font_size a) "font size") as [fs | e] eqn:Hfs;
    [| apply to_int_error in Hfs; subst e; fails_with].
  cbn [bind].
  destruct (to_int (st_matrix_height a) "matrix height") as [mh | e] eqn:Hmh;
    [| apply to_int_error in Hmh; subst e; fails_with].
  cbn [bind].
  rewrite (validate_range_in animation 0 7) by exact Hrange.
  unfold validate_range.
  destruct (Z.leb_spec 0 rm); destruct (Z.leb_spec rm 9);
    cbn [andb negb bind]; try fails_with.
  destruct (Z.leb_spec 1 ss); destruct (Z.leb_spec ss 10);
    cbn [andb negb bind]; try fails_with.
  destruct (Z.leb_spec 0 sp); destruct (Z.leb_spec sp 100);
    cbn [andb negb bind]; try fails_with.
  destruct (Z.leb_spec 1 (Py.len_str (st_text a)));
    destruct (Z.leb_spec (Py.len_str (st_text a)) 100);
    cbn [andb negb bind]; try fails_with.
  destruct (Z.leb_spec 1 mh); destruct (Z.leb_spec mh 128);
    cbn [andb negb bind]; try fails_with.
  left.
  exists {| p_rainbow_mode := rm; p_animation := animation; p_save_slot := ss;
            p_speed := sp; p_font_offset_x := fx; p_font_offset_y := fy;
            p_font_size := fs; p_matrix_height := mh |}.
  unfold converted, in_ranges. cbn. repeat split; assumption.
Qed.

(** C6, as the code has it: with animation 3 or 4 [send_text] never returns a
    command; it fails with the unsupported-animation error when the other
    parameters convert to integers inside their ranges, and otherwise with
    the error of one of the integer conversions or range checks, which run
    first. *)
Theorem send_text_animation_3_4_fails (E : collaborators) (a : send_text_args)
    (animation : Z) :
  to_int (st_animation a) "animation" = Ok animation ->
  animation = 3 \/ animation = 4 ->
  (exists e, send_text E a = Err e
             /\ (e = InvalidAnimation \/ conversion_or_range_error e))
  /\ (forall p, converted a p -> in_ranges (st_text a) p ->
        send_text E a = Err InvalidAnimation)
  /\ ((~ exists p, converted a p /\ in_ranges (st_text a) p) ->
      exists e, send_text E a = Err e /\ conversion_or_range_error e).
Proof.
  intros Han H34.
  assert (Hvalid : forall p, converted a p -> in_ranges (st_text a) p ->
                     send_text E a = Err InvalidAnimation).
  { intros p Hc Hr. rewrite (send_text_valid E a p Hc Hr).
    destruct Hc as (_ & Han' & _).
    rewrite Han in Han'. injection Han' as <-.
    destruct H34 as [-> | ->]; reflexivity. }
  assert (Hrange : 0 <= animation <= 7) by lia.
  destruct (send_text_checks E a animation Han Hrange)
    as [(p & Hc & Hr) | (e & He & Hk)].
  - split; [exists InvalidAnimation; split; [exact (Hvalid p Hc Hr) | now left] |].
    split; [exact Hvalid |].
    intros Hn. exfalso. apply Hn. now exists p.
  - split; [exists e; split; [exact He | now right] |].
    split; [exact Hvalid |].
    intros _. now exists e.
Qed.

Lemma send_text_animation_3_4_fails_witness :
  send_text Double.tools animation_3_args = Err InvalidAnimation.
Proof.
  destruct (send_text_animation_3_4_fails Double.tools animation_3_args 3
              eq_refl (or_introl eq_refl)) as (_ & Hvalid & _).
  apply (Hvalid {| p_rainbow_mode := 0; p_animation := 3; p_save_slot := 1;
                   p_speed := 80; p_font_offset_x := 0; p_font_offset_y := 0;
                   p_font_size := 0; p_matrix_height := 16 |}).
  - unfold converted. simpl. repeat split; reflexivity.
  - unfold in_ranges. simpl. repeat split; apply Z.leb_le; reflexivity.
Defined.

(** C6, as stated, fails: with animation 3 and save slot 0 the call fails with
    the range error of the save slot, not with the unsupported-animation
    error. *)
Lemma send_text_animation_3_range_error_first :
  send_text Double.tools animation_3_slot_0_args = Err (OutOfRange "Save slot" 1 10)
  /\ send_text Double.tools animation_3_slot_0_args <> Err InvalidAnimation.
Proof.
  split; [reflexivity | discriminate].
Qed.

(** *** The layout of the command *)

Lemma send_text_runs (E : collaborators) (a : send_text_args) (cmd : bytes) :
  send_text E a = Ok cmd <-> exists r, runs E a r cmd.
Proof.
  split.
  - intros H. apply send_text_ok_body in H.
    destruct H as (p & Hc & Hr & Ha & H3 & H4 & H).
    unfold send_text_body in H. do 4 bind_inv H.
    exists {| r_params := p; r_header_1 := v; r_header_3 := v0;
              r_characters := v1; r_checksum := v2 |}.
    unfold runs, checksum_scope, legacy_total, legacy_header, checksum_scope.
    simpl. tauto.
  - intros (r & Hc & Hr & (Ha & H3 & H4) & Hh1 & Hh3 & Hch & Hcrc & Hhex).
    rewrite (send_text_valid E a _ Hc Hr).
    destruct (Z.ltb_spec (p_animation (r_params r)) 0); [lia |].
    destruct (Z.ltb_spec 7 (p_animation (r_params r))); [lia |].
    destruct (Z.eqb_spec (p_animation (r_params r)) 3); [contradiction |].
    destruct (Z.eqb_spec (p_animation (r_params r)) 4); [contradiction |].
    cbn [orb]. unfold send_text_body.
    rewrite Hh1, Hh3, Hch. cbn [bind].
    unfold checksum_scope in Hcrc. rewrite Hcrc. cbn [bind].
    exact Hhex.
Qed.

Lemma save_slot_field_bytes (p : legacy_params) :
  1 <= p_save_slot p <= 10 ->
  hex_pairs (save_slot_field p) = true
  /\ hex_bytes (save_slot_field p) = [x00; as_byte (p_save_slot p)].
Proof.
  intros Hs. unfold save_slot_field.
  pose proof (forallb_Z_range
    (fun z => (hex_pairs (Py.zfill 4 (Py.drop 2 (Py.hex z)))
               && bytes_eqb (hex_bytes (Py.zfill 4 (Py.drop 2 (Py.hex z))))
                    [x00; as_byte z])%bool)
    1 10 eq_refl (p_save_slot p) ltac:(lia)) as H.
  cbv beta in H. apply andb_prop in H. destruct H as [H1 H2].
  split; [exact H1 |].
  unfold bytes_eqb in H2.
  now destruct (list_eq_dec Byte.byte_eq_dec _ _).
Qed.

Lemma properties_block_bytes (text : string) (p : legacy_params) :
  in_ranges text p -> 0 <= p_animation p <= 7 ->
  hex_pairs (properties_block p) = true
  /\ hex_bytes (properties_block p) = properties_bytes p.
Proof.
  intros (Hrm & _ & Hsp & _) Han. unfold properties_block.
  destruct (int_to_hex_byte (p_animation p) ltac:(lia)) as [Pa Ba].
  destruct (int_to_hex_byte (p_speed p) ltac:(lia)) as [Ps Bs].
  destruct (int_to_hex_byte (p_rainbow_mode p) ltac:(lia)) as [Pr Br].
  split.
  - repeat (apply hex_pairs_app; [first [assumption | reflexivity] |]).
    reflexivity.
  - rewrite (hex_bytes_app "000101") by reflexivity.
    rewrite (hex_bytes_app (int_to_hex (p_animation p))) by assumption.
    rewrite (hex_bytes_app (int_to_hex (p_speed p))) by assumption.
    rewrite (hex_bytes_app (int_to_hex (p_rainbow_mode p))) by assumption.
    rewrite Ba, Bs, Br. reflexivity.
Qed.

Lemma legacy_header_bytes (r : legacy_run) :
  hex_field 2 (r_header_1 r) -> hex_field 2 (r_header_3 r) ->
  hex_pairs (legacy_header r) = true
  /\ hex_bytes (legacy_header r)
     = (hex_bytes (r_header_1 r) ++ [x00; x01; x00]
        ++ hex_bytes (r_header_3 r) ++ [x00; x00])%list.
Proof.
  intros [P1 _] [P3 _]. unfold legacy_header. split.
  - repeat (apply hex_pairs_app; [first [assumption | reflexivity] |]).
    reflexivity.
  - rewrite (hex_bytes_app (r_header_1 r)) by assumption.
    rewrite (hex_bytes_app "000100") by reflexivity.
    rewrite (hex_bytes_app (r_header_3 r)) by assumption.
    reflexivity.
Qed.

(** The bytes of a command whose length fields and checksum came back from
    the collaborators as hexadecimal text of 2, 2 and 4 bytes. *)
Lemma legacy_layout (a : send_text_args) (r : legacy_run) :
  in_ranges (st_text a) (r_params r) ->
  0 <= p_animation (r_params r) <= 7 ->
  hex_field 2 (r_header_1 r) -> hex_field 2 (r_header_3 r) ->
  hex_field 4 (r_checksum r) ->
  Py.fromhex (legacy_total a r)
  = (stream <- Py.fromhex (r_characters r) ;;
     Ok ((hex_bytes (r_header_1 r) ++ [x00; x01; x00]
          ++ hex_bytes (r_header_3 r) ++ [x00; x00])
         ++ hex_bytes (r_checksum r)
         ++ [x00; as_byte (p_save_slot (r_params r))]
         ++ [as_byte (Py.len_str (st_text a))]
         ++ properties_bytes (r_params r)
         ++ stream)%list).
Proof.
  intros Hr Han H1 H3 Hcrc.
  destruct (legacy_header_bytes r H1 H3) as [Ph Bh].
  destruct (properties_block_bytes _ _ Hr Han) as [Pp Bp].
  destruct Hr as (_ & Hss & _ & Hn & _).
  destruct (save_slot_field_bytes _ Hss) as [Ps Bs].
  destruct (int_to_hex_byte (Py.len_str (st_text a)) ltac:(lia)) as [Pn Bn].
  destruct Hcrc as [Pc _].
  unfold legacy_total, checksum_scope.
  rewrite (fromhex_app (legacy_header r)) by assumption.
  rewrite (fromhex_app (r_checksum r)) by assumption.
  rewrite (fromhex_app (save_slot_field (r_params r))) by assumption.
  rewrite (fromhex_app (int_to_hex _)) by assumption.
  rewrite (fromhex_app (properties_block _)) by assumption.
  rewrite Bh, Bp, Bs, Bn.
  destruct (Py.fromhex (r_characters r)); reflexivity.
Qed.

(** Names the bytes of a hexadecimal field. *)
Ltac name_field H :=
  let L := fresh "L" in
  pose proof (hex_field_length _ _ H) as L;
  match type of L with
  | List.length ?l = _ =>
      let b := fresh "b" in
      let Hb := fresh "Hb" in
      remember l as b eqn:Hb;
      repeat (let x := fresh "x" in destruct b as [| x b]; [discriminate L |]);
      destruct b; [| discriminate L];
      clear L
  end.

(** C4: in a command returned by [send_text], the two length fields of the
    header are what [switch_endian] returns on the four-hexadecimal-digit
    rendering of 0x1D + textLength * perCharCost and of
    0xE + textLength * perCharCost, with perCharCost = 6 + 2 * matrixHeight;
    both numbers fit four digits.  When the two fields come back as two
    bytes of hexadecimal text they are bytes 0-1 and 5-6 of the command. *)
Theorem legacy_text_length_fields (E : collaborators) (a : send_text_args)
    (cmd : bytes) :
  send_text E a = Ok cmd ->
  exists matrix_height header_1 header_3 rest,
    let n := Py.len_str (st_text a) in
    to_int (st_matrix_height a) "matrix height" = Ok matrix_height
    /\ per_char_cost matrix_height = 6 + 2 * matrix_height
    /\ 0 <= 0xE + n * per_char_cost matrix_height < 65536
    /\ 0 <= 0x1D + n * per_char_cost matrix_height < 65536
    /\ switch_endian E (four_hex_digits (0x1D + n * per_char_cost matrix_height))
       = Ok header_1
    /\ switch_endian E (four_hex_digits (0xE + n * per_char_cost matrix_height))
       = Ok header_3
    /\ Py.fromhex ((header_1 ++ "000100" ++ header_3 ++ "0000") ++ rest) = Ok cmd
    /\ (hex_field 2 header_1 -> hex_field 2 header_3 ->
        firstn 2 cmd = hex_bytes header_1
        /\ firstn 2 (skipn 5 cmd) = hex_bytes header_3).
Proof.
  intros H. apply send_text_runs in H.
  destruct H as (r & Hc & Hr & _ & Hh1 & Hh3 & _ & _ & Hhex).
  exists (p_matrix_height (r_params r)), (r_header_1 r), (r_header_3 r),
    (r_checksum r ++ save_slot_field (r_params r) ++ checksum_scope a r).
  cbv zeta.
  pose proof (length_field_range _ _ 0x1D Hr ltac:(lia)) as R1.
  pose proof (length_field_range _ _ 0xE Hr ltac:(lia)) as R3.
  destruct Hc as (_ & _ & _ & _ & _ & _ & _ & Hmh).
  split; [exact Hmh |].
  split; [reflexivity |].
  split; [exact R3 |].
  split; [exact R1 |].
  split; [exact Hh1 |].
  split; [exact Hh3 |].
  split; [exact Hhex |].
  intros F1 F3.
  unfold legacy_total in Hhex.
  destruct (legacy_header_bytes r F1 F3) as [Ph Bh].
  rewrite (fromhex_app _ _ Ph), Bh in Hhex. bind_inv Hhex.
  injection Hhex as <-.
  name_field F1. name_field F3. split; reflexivity.
Qed.

(** C3: in a command returned by [send_text], the checksum is what
    [CRC32_checksum] returns on the hexadecimal text of the character count,
    the properties block and the encoded glyph stream, in this order: the
    header and the save slot are not part of that text.  When the length
    fields and the checksum come back as hexadecimal text of 2, 2 and 4
    bytes, the checksum is bytes 9-12 of the command. *)
Theorem legacy_text_checksum_scope (E : collaborators) (a : send_text_args)
    (cmd : bytes) :
  send_text E a = Ok cmd ->
  exists r characters checksum,
    runs E a r cmd
    /\ encode_text E (st_text a) (p_matrix_height (r_params r)) (st_color a)
         (st_font a)
         (p_font_offset_x (r_params r), p_font_offset_y (r_params r))
         (effective_font_size (r_params r))
       = Ok characters
    /\ CRC32_checksum E
         (int_to_hex (Py.len_str (st_text a)) ++ properties_block (r_params r)
          ++ characters)
       = Ok checksum
    /\ Py.fromhex (legacy_header r ++ checksum ++ save_slot_field (r_params r)
                   ++ int_to_hex (Py.len_str (st_text a))
                   ++ properties_block (r_params r) ++ characters)
       = Ok cmd
    /\ (hex_field 2 (r_header_1 r) -> hex_field 2 (r_header_3 r) ->
        hex_field 4 checksum ->
        firstn 4 (skipn 9 cmd) = hex_bytes checksum).
Proof.
  intros H. apply send_text_runs in H. destruct H as (r & Hrun).
  exists r, (r_characters r), (r_checksum r).
  split; [exact Hrun |].
  destruct Hrun as (Hc & Hr & (Ha & _) & Hh1 & Hh3 & Hch & Hcrc & Hhex).
  repeat split; try assumption.
  intros H1 H3 H4.
  rewrite (legacy_layout a r Hr Ha H1 H3 H4) in Hhex. bind_inv Hhex.
  injection Hhex as <-.
  name_field H1. name_field H3. name_field H4. reflexivity.
Qed.

Lemma send_text_hi : send_text Double.tools (send_text_defaults "Hi") = Ok hi_command.
Proof. vm_compute. reflexivity. Qed.

Lemma legacy_text_length_fields_witness :
  send_text Double.tools (send_text_defaults "Hi") = Ok hi_command
  /\ firstn 2 hi_command = [x69; x00]
  /\ firstn 2 (skipn 5 hi_command) = [x5a; x00].
Proof.
  split; [exact send_text_hi |].
  destruct (legacy_text_length_fields Double.tools (send_text_defaults "Hi")
              hi_command send_text_hi)
    as (mh & h1 & h3 & rest & Hmh & _ & _ & _ & H1 & H3 & _ & Hbytes).
  injection Hmh as <-.
  vm_compute in H1, H3. injection H1 as <-. injection H3 as <-.
  apply Hbytes; split; reflexivity.
Defined.

Lemma legacy_text_checksum_scope_witness :
  send_text Double.tools (send_text_defaults "Hi") = Ok hi_command
  /\ exists characters,
       encode_text Double.tools "Hi" 16 "ffffff" "default" (0, 0) 16 = Ok characters
       /\ CRC32_checksum Double.tools
            ("02" ++ "000101005000ffffff00000000" ++ characters)
          = Ok "c4593306"
       /\ firstn 4 (skipn 9 hi_command) = [xc4; x59; x33; x06].
Proof.
  split; [exact send_text_hi |].
  destruct (legacy_text_checksum_scope Double.tools (send_text_defaults "Hi")
              hi_command send_text_hi)
    as (r & characters & checksum & Hrun & Hch & Hcrc & _ & Hbytes).
  destruct Hrun as (Hc & _ & _ & H1 & H3 & _).
  destruct r as [[rm an ss sp fx fy fs mh] h1 h3 chars crc].
  destruct Hc as (Hrm & Han & Hss & Hsp & Hfx & Hfy & Hfs & Hmh).
  simpl in *.
  injection Hrm as <-. injection Han as <-. injection Hss as <-.
  injection Hsp as <-. injection Hfx as <-. injection Hfy as <-.
  injection Hfs as <-. injection Hmh as <-.
  vm_compute in H1, H3. injection H1 as <-. injection H3 as <-.
  vm_compute in Hch. injection Hch as <-.
  vm_compute in Hcrc. injection Hcrc as <-.
  eexists. split; [vm_compute; reflexivity |].
  split; [vm_compute; reflexivity |].
  apply Hbytes; split; reflexivity.
Defined.

(** *** Characters with an empty bitmap *)

Lemma append_assoc (a b c : string) : (a ++ b) ++ c = a ++ b ++ c.
Proof. induction a as [| x a IH]; simpl; congruence. Qed.

Lemma append_empty_r (a : string) : a ++ "" = a.
Proof. induction a as [| x a IH]; simpl; congruence. Qed.

Section EncodeText.

Variable E : collaborators.
Variables (matrix_height : Z) (color font : string) (font_offset : Z * Z)
  (font_size : Z).

Lemma encode_text_loop_glyphs (chars : list ascii) (glyphs : list glyph) :
  Forall2 (rasterized E matrix_height font font_offset font_size) chars glyphs ->
  forall acc,
    encode_text_loop E chars matrix_height color font font_offset font_size
      (Py.format_02x matrix_height) acc
    = Ok (acc ++ join (glyph_frames color matrix_height glyphs)).
Proof.
  induction 1 as [| c g chars glyphs [Hraster Hconv] _ IH]; intros acc.
  - simpl. now rewrite append_empty_r.
  - cbn [encode_text_loop]. rewrite Hraster. cbn [bind]. rewrite Hconv.
    cbn [bind]. rewrite IH.
    unfold glyph_frames. cbn [filter]. unfold visible at 2.
    destruct (negb (g_hex g =? "")%string).
    + cbn [map join]. unfold glyph_frame.
      now rewrite !append_assoc.
    + reflexivity.
Qed.

Lemma encode_text_loop_ok (chars : list ascii) :
  forall acc out,
    encode_text_loop E chars matrix_height color font font_offset font_size
      (Py.format_02x matrix_height) acc
    = Ok out ->
    exists glyphs,
      Forall2 (rasterized E matrix_height font font_offset font_size) chars glyphs.
Proof.
  induction chars as [| c chars IH]; intros acc out H.
  - exists []. constructor.
  - cbn [encode_text_loop] in H. bind_inv H. destruct v as [char_hex w].
    cbn beta iota in H. bind_inv H.
    apply IH in H. destruct H as (glyphs & Hall).
    exists ({| g_hex := char_hex; g_width := w; g_converted := v |} :: glyphs).
    constructor; [split; assumption | exact Hall].
Qed.

Lemma encode_text_glyphs (text : string) (glyphs : list glyph) :
  Forall2 (rasterized E matrix_height font font_offset font_size)
    (list_ascii_of_string text) glyphs ->
  encode_text E text matrix_height color font font_offset font_size
  = Ok (Py.lower (join (glyph_frames color matrix_height glyphs))).
Proof.
  intros H. unfold encode_text.
  now rewrite (encode_text_loop_glyphs _ _ H).
Qed.

Lemma encode_text_ok (text out : string) :
  encode_text E text matrix_height color font font_offset font_size = Ok out ->
  exists glyphs,
    Forall2 (rasterized E matrix_height font font_offset font_size)
      (list_ascii_of_string text) glyphs
    /\ out = Py.lower (join (glyph_frames color matrix_height glyphs)).
Proof.
  intros H.
  assert (Hrun : exists res,
             encode_text_loop E (list_ascii_of_string text) matrix_height color
               font font_offset font_size (Py.format_02x matrix_height) ""
             = Ok res).
  { unfold encode_text in H.
    destruct (encode_text_loop _ _ _ _ _ _ _ _ _) as [res | e];
      [now exists res | discriminate]. }
  destruct Hrun as (res & Hres).
  destruct (encode_text_loop_ok _ _ _ Hres) as (glyphs & Hall).
  exists glyphs. split; [exact Hall |].
  rewrite (encode_text_glyphs _ _ Hall) in H. congruence.
Qed.

End EncodeText.

Lemma glyph_frames_count (color : string) (matrix_height : Z)
    (glyphs : list glyph) :
  (List.length (glyph_frames color matrix_height glyphs) <= List.length glyphs)%nat
  /\ (Exists (fun g => g_hex g = "") glyphs ->
      (List.length (glyph_frames color matrix_height glyphs)
       < List.length glyphs)%nat).
Proof.
  unfold glyph_frames. rewrite length_map. split.
  - apply filter_length_le.
  - induction 1 as [g glyphs Hg | g glyphs _ IH]; cbn [filter List.length].
    + assert (Hv : visible g = false) by (unfold visible; now rewrite Hg).
      rewrite Hv.
      pose proof (filter_length_le visible glyphs). lia.
    + destruct (visible g); simpl; lia.
Qed.

Lemma length_list_ascii_of_string (s : string) :
  List.length (list_ascii_of_string s) = String.length s.
Proof. induction s as [| c s IH]; simpl; congruence. Qed.

(** C9: [send_text] writes the length of the text as the character count,
    byte 15 of the command when the length fields and the checksum come back
    as hexadecimal text of 2, 2 and 4 bytes, while the glyph stream holds one
    frame for each character whose bitmap is not empty and none for the
    others.  When the collaborators succeed on every character the command
    is returned, also when some bitmaps are empty and the count is larger
    than the number of frames. *)
Theorem legacy_text_count_ignores_empty_glyphs (E : collaborators)
    (a : send_text_args) :
  (forall cmd,
     send_text E a = Ok cmd ->
     exists r glyphs,
       runs E a r cmd
       /\ Forall2
            (rasterized E (p_matrix_height (r_params r)) (st_font a)
               (p_font_offset_x (r_params r), p_font_offset_y (r_params r))
               (effective_font_size (r_params r)))
            (list_ascii_of_string (st_text a)) glyphs
       /\ r_characters r
          = Py.lower (join (glyph_frames (st_color a)
                              (p_matrix_height (r_params r)) glyphs))
       /\ Z.of_nat (List.length glyphs) = Py.len_str (st_text a)
       /\ (List.length (glyph_frames (st_color a)
                          (p_matrix_height (r_params r)) glyphs)
           <= List.length glyphs)%nat
       /\ (Exists (fun g => g_hex g = "") glyphs ->
           (List.length (glyph_frames (st_color a)
                           (p_matrix_height (r_params r)) glyphs)
            < List.length glyphs)%nat)
       /\ (hex_field 2 (r_header_1 r) -> hex_field 2 (r_header_3 r) ->
           hex_field 4 (r_checksum r) ->
           nth_error cmd 15 = Some (as_byte (Py.len_str (st_text a)))))
  /\ (forall p glyphs header_1 header_3 checksum stream,
        let n := Py.len_str (st_text a) in
        let cost := per_char_cost (p_matrix_height p) in
        let characters :=
          Py.lower (join (glyph_frames (st_color a) (p_matrix_height p) glyphs)) in
        converted a p ->
        in_ranges (st_text a) p ->
        0 <= p_animation p <= 7 /\ p_animation p <> 3 /\ p_animation p <> 4 ->
        Forall2
          (rasterized E (p_matrix_height p) (st_font a)
             (p_font_offset_x p, p_font_offset_y p) (effective_font_size p))
          (list_ascii_of_string (st_text a)) glyphs ->
        switch_endian E (four_hex_digits (0x1D + n * cost)) = Ok header_1 ->
        switch_endian E (four_hex_digits (0xE + n * cost)) = Ok header_3 ->
        CRC32_checksum E (int_to_hex n ++ properties_block p ++ characters)
        = Ok checksum ->
        hex_field 2 header_1 -> hex_field 2 header_3 -> hex_field 4 checksum ->
        Py.fromhex characters = Ok stream ->
        exists cmd,
          send_text E a = Ok cmd
          /\ nth_error cmd 15 = Some (as_byte n)
          /\ skipn 29 cmd = stream).
Proof.
  split.
  - intros cmd H. apply send_text_runs in H. destruct H as (r & Hrun).
    pose proof Hrun as (Hc & Hr & (Ha & _) & Hh1 & Hh3 & Hch & Hcrc & Hhex).
    apply encode_text_ok in Hch. destruct Hch as (glyphs & Hall & Hchars).
    exists r, glyphs.
    split; [exact Hrun |].
    split; [exact Hall |].
    split; [exact Hchars |].
    split.
    { apply Forall2_length in Hall.
      rewrite <- Hall, length_list_ascii_of_string. reflexivity. }
    split; [apply glyph_frames_count |].
    split; [apply glyph_frames_count |].
    intros F1 F3 F4.
    rewrite (legacy_layout a r Hr Ha F1 F3 F4) in Hhex. bind_inv Hhex.
    injection Hhex as <-.
    name_field F1. name_field F3. name_field F4. reflexivity.
  - intros p glyphs header_1 header_3 checksum stream n cost characters
      Hc Hr Ha Hall Hh1 Hh3 Hcrc F1 F3 F4 Hstream.
    pose proof (legacy_layout a
                  {| r_params := p; r_header_1 := header_1;
                     r_header_3 := header_3; r_characters := characters;
                     r_checksum := checksum |}
                  Hr (proj1 Ha) F1 F3 F4) as Hlayout.
    cbn [r_params r_header_1 r_header_3 r_characters r_checksum] in Hlayout.
    rewrite Hstream in Hlayout. cbn [bind] in Hlayout.
    eexists. split; [| split].
    + apply send_text_runs.
      exists {| r_params := p; r_header_1 := header_1;
                r_header_3 := header_3; r_characters := characters;
                r_checksum := checksum |}.
      unfold runs. cbn [r_params r_header_1 r_header_3 r_characters r_checksum].
      split; [exact Hc |].
      split; [exact Hr |].
      split; [exact Ha |].
      split; [exact Hh1 |].
      split; [exact Hh3 |].
      split; [now apply encode_text_glyphs |].
      split; [exact Hcrc |].
      exact Hlayout.
    + name_field F1. name_field F3. name_field F4. reflexivity.
    + name_field F1. name_field F3. name_field F4. reflexivity.
Qed.

Lemma legacy_text_count_ignores_empty_glyphs_witness :
  exists cmd,
    send_text Double.tools (send_text_defaults "A b") = Ok cmd
    /\ nth_error cmd 15 = Some x03
    /\ List.length (skipn 29 cmd) = (2 * 38)%nat.
Proof.
  destruct (legacy_text_count_ignores_empty_glyphs Double.tools
              (send_text_defaults "A b")) as [_ Hprod].
  edestruct (Hprod
               {| p_rainbow_mode := 0; p_animation := 0; p_save_slot := 1;
                  p_speed := 80; p_font_offset_x := 0; p_font_offset_y := 0;
                  p_font_size := 0; p_matrix_height := 16 |}
               [block_glyph; blank_glyph; block_glyph])
    as (cmd & Hsend & Hcount & Hstream).
  - unfold converted. simpl. repeat split; reflexivity.
  - unfold in_ranges. simpl. repeat split; apply Z.leb_le; reflexivity.
  - simpl. repeat split; first [apply Z.leb_le; reflexivity | discriminate].
  - repeat constructor.
  - vm_compute. reflexivity.
  - vm_compute. reflexivity.
  - vm_compute. reflexivity.
  - split; reflexivity.
  - split; reflexivity.
  - split; reflexivity.
  - vm_compute. reflexivity.
  - exists cmd. split; [exact Hsend |]. split; [exact Hcount |].
    rewrite Hstream. reflexivity.
Defined.

(** * Further properties *)

(** ** Bytes in hexadecimal *)

Lemma fromhex_int_to_hex (n : Z) :
  0 <= n < 256 -> Py.fromhex (int_to_hex n) = Ok [as_byte n].
Proof.
  intros Hn. destruct (int_to_hex_byte n Hn) as [Hp Hb].
  now rewrite (fromhex_hex_pairs _ Hp), Hb.
Qed.

Lemma fromhex_int_to_hex_app (n : Z) (rest : string) :
  0 <= n < 256 ->
  Py.fromhex (int_to_hex n ++ rest)
  = (tail <- Py.fromhex rest ;; Ok (as_byte n :: tail)).
Proof.
  intros Hn. destruct (int_to_hex_byte n Hn) as [Hp Hb].
  now rewrite (fromhex_app _ _ Hp), Hb.
Qed.

Lemma as_byte_value (n : Z) :
  0 <= n < 256 -> Z.of_N (Byte.to_N (as_byte n)) = n.
Proof.
  intros Hn. unfold as_byte. rewrite byte_of_N_to_N by lia. lia.
Qed.

Lemma int_to_hex_negative (n : Z) :
  n < 0 -> Py.fromhex (int_to_hex n) = Err NonHexadecimal.
Proof.
  intros Hn. unfold int_to_hex, Py.format_02x.
  destruct (Z.ltb_spec n 0) as [_ | Hge]; [| lia].
  unfold Py.zfill. reflexivity.
Qed.

Lemma int_to_hex_three_digits (n : Z) :
  256 <= n < 4096 -> Py.fromhex (int_to_hex n) = Err NonHexadecimal.
Proof.
  intros Hn.
  pose proof (forallb_Z_range
    (fun z => match Py.fromhex (int_to_hex z) with
              | Err NonHexadecimal => true
              | _ => false
              end)
    256 3840 eq_refl n ltac:(lia)) as H.
  cbv beta in H.
  destruct (Py.fromhex (int_to_hex n)) as [b | e]; [discriminate |].
  destruct e; first [discriminate | reflexivity].
Qed.

(** X1: [int_to_hex] followed by [bytes.fromhex] gives back the one byte [n]
    for 0 <= n <= 255; for a negative [n] and for 256 <= n <= 4095 the text
    is no hexadecimal text of whole bytes and [bytes.fromhex] fails. *)
Theorem int_to_hex_round_trip (n : Z) :
  (0 <= n < 256 ->
   Py.fromhex (int_to_hex n) = Ok [as_byte n]
   /\ Z.of_N (Byte.to_N (as_byte n)) = n)
  /\ (n < 0 \/ 256 <= n < 4096 ->
      Py.fromhex (int_to_hex n) = Err NonHexadecimal).
Proof.
  split.
  - intros Hn. split; [now apply fromhex_int_to_hex | now apply as_byte_value].
  - intros [Hn | Hn];
      [now apply int_to_hex_negative | now apply int_to_hex_three_digits].
Qed.

Lemma int_to_hex_round_trip_witness :
  Py.fromhex (int_to_hex 100) = Ok [x64]
  /\ Py.fromhex (int_to_hex (-1)) = Err NonHexadecimal
  /\ Py.fromhex (int_to_hex 256) = Err NonHexadecimal.
Proof.
  split; [| split].
  - apply (int_to_hex_round_trip 100). lia.
  - apply (int_to_hex_round_trip (-1)). left. lia.
  - apply (int_to_hex_round_trip 256). right. lia.
Defined.

(** ** Fixed commands *)

(** Splits a successful command into the results of its steps. *)
Ltac steps H :=
  repeat first
    [ match goal with
      | Hr : validate_range _ _ _ _ = Ok _ |- _ => apply validate_range_ok in Hr
      end
    | bind_inv H ].

Lemma bytearray_bytes (l : list Z) :
  Forall (fun n => 0 <= n < 256) l -> Py.bytearray l = Ok (map as_byte l).
Proof.
  induction 1 as [| n l Hn _ IH]; [reflexivity |].
  cbn [Py.bytearray map]. unfold Py.byte_of_int.
  destruct (Z.leb_spec 0 n); [| lia]. destruct (Z.ltb_spec n 256); [| lia].
  cbn [andb bind]. now rewrite IH.
Qed.

(** Reads the bytes of the hexadecimal texts and byte lists of the context. *)
Ltac read_bytes :=
  repeat match goal with
  | Hx : context [Py.fromhex (int_to_hex ?n ++ ?r)] |- _ =>
      rewrite (fromhex_int_to_hex_app n r) in Hx by lia
  | Hx : context [Py.fromhex (int_to_hex ?n)] |- _ =>
      rewrite (fromhex_int_to_hex n) in Hx by lia
  | Hx : context [Py.fromhex ?s] |- _ =>
      lazymatch s with
      | context [int_to_hex] => fail
      | _ => idtac
      end;
      let v := eval vm_compute in (Py.fromhex s) in
      match v with
      | Ok _ => progress change (Py.fromhex s) with v in Hx
      end
  | Hx : Py.bytearray ?l = Ok _ |- _ =>
      rewrite (bytearray_bytes l) in Hx by (repeat constructor; lia)
  | Hx : context [bind (Ok _) _] |- _ => progress cbn [bind] in Hx
  | Hx : Ok _ = Ok _ |- _ => injection Hx as Hx; try subst
  end.

(** Runs a command whose steps are known to succeed. *)
Ltac run :=
  repeat first
    [ progress cbn [bind]
    | rewrite validate_range_in by lia
    | rewrite fromhex_int_to_hex_app by lia
    | rewrite fromhex_int_to_hex by lia
    | rewrite bytearray_bytes by (repeat constructor; lia)
    | match goal with
      | Hx : ?t = Ok _ |- context [?t] => rewrite Hx
      end ].

(** Closes what is left of a shape. *)
Ltac finish := repeat split; first [eassumption | lia | reflexivity].

Lemma set_brightness_shape (v : value) (cmd : bytes) :
  set_brightness v = Ok cmd <->
  exists n, to_int v "brightness" = Ok n /\ 0 <= n <= 100
            /\ cmd = [x05; x00; x04; x80; as_byte n].
Proof.
  unfold set_brightness. split.
  - intros H. steps H. read_bytes. eexists. finish.
  - intros (n & Hn & Hr & ->). run. reflexivity.
Qed.

Lemma set_orientation_shape (v : value) (cmd : bytes) :
  set_orientation v = Ok cmd <->
  exists n, to_int v "orientation" = Ok n /\ 0 <= n <= 3
            /\ cmd = [x05; x00; x06; x80; as_byte n].
Proof.
  unfold set_orientation. split.
  - intros H. steps H. read_bytes. eexists. finish.
  - intros (n & Hn & Hr & ->). run. reflexivity.
Qed.

Lemma set_speed_shape (v : value) (cmd : bytes) :
  set_speed v = Ok cmd <->
  exists n, to_int v "speed" = Ok n /\ 0 <= n <= 100
            /\ cmd = [x05; x00; x03; as_byte n].
Proof.
  unfold set_speed. split.
  - intros H. steps H. read_bytes. eexists. finish.
  - intros (n & Hn & Hr & ->). run. reflexivity.
Qed.

Lemma set_fun_mode_shape (v : value) (cmd : bytes) :
  set_fun_mode v = Ok cmd <->
  exists b, to_bool v = Ok b /\ cmd = [x05; x00; x04; x01; flag_byte b].
Proof.
  unfold set_fun_mode. split.
  - intros H. steps H.
    match goal with
    | Hb : to_bool v = Ok ?b |- _ => exists b; destruct b
    end; read_bytes; finish.
  - intros (b & Hb & ->). run. destruct b; reflexivity.
Qed.

Lemma set_rhythm_mode_2_shape (style t : value) (cmd : bytes) :
  set_rhythm_mode_2 style t = Ok cmd <->
  exists s n, to_int style "style" = Ok s /\ 0 <= s <= 1
              /\ to_int t "level" = Ok n /\ 0 <= n <= 7
              /\ cmd = [x06; x00; x00; x02; as_byte n; as_byte s].
Proof.
  unfold set_rhythm_mode_2. split.
  - intros H. steps H. read_bytes. do 2 eexists. finish.
  - intros (s & n & Hs & Rs & Hn & Rn & ->). run. reflexivity.
Qed.

Lemma to_int_name (v : value) (name name' : string) (z : Z) :
  to_int v name = Ok z -> to_int v name' = Ok z.
Proof.
  destruct v as [n | s | b]; simpl; try tauto.
  destruct (Py.int_of_str s); [tauto | discriminate].
Qed.

Lemma set_time_explicit (clock : time_now) (hour minute second : value)
    (cmd : bytes) :
  set_time clock (Some hour) (Some minute) (Some second) = Ok cmd <->
  exists h m s,
    to_int hour "hour" = Ok h /\ to_int minute "minute" = Ok m
    /\ to_int second "second" = Ok s
    /\ 0 <= h <= 23 /\ 0 <= m <= 59 /\ 0 <= s <= 59
    /\ cmd = [x08; x00; x01; x80; as_byte h; as_byte m; as_byte s; x00].
Proof.
  unfold set_time. split.
  - intros H. steps H. read_bytes. do 3 eexists. finish.
  - intros (h & m & s & Hh & Hm & Hs & Rh & Rm & Rs & ->). run. reflexivity.
Qed.

Lemma set_time_from_clock (clock : time_now) (hour minute second : option value) :
  hour = None \/ minute = None \/ second = None ->
  set_time clock hour minute second
  = set_time clock (Some (VInt (now_hour clock))) (Some (VInt (now_minute clock)))
      (Some (VInt (now_second clock))).
Proof.
  intros H. unfold set_time.
  destruct hour, minute, second; try reflexivity.
  destruct H as [H | [H | H]]; discriminate.
Qed.

Lemma set_time_length (clock : time_now) (hour minute second : option value)
    (cmd : bytes) :
  set_time clock hour minute second = Ok cmd ->
  exists h m s, cmd = [x08; x00; x01; x80; h; m; s; x00].
Proof.
  intros H.
  assert (Hex : exists a b c, set_time clock (Some a) (Some b) (Some c) = Ok cmd).
  { destruct hour as [a |] eqn:Eh; [destruct minute as [b |] eqn:Em;
      [destruct second as [c |] eqn:Es |] |];
      try (now exists a, b, c);
      rewrite set_time_from_clock in H by auto; eauto. }
  destruct Hex as (a & b & c & Hex).
  apply set_time_explicit in Hex.
  destruct Hex as (h & m & s & _ & _ & _ & _ & _ & _ & ->). eauto.
Qed.

(** The levels of [set_rhythm_mode] and their integers. *)
Lemma check_levels_ok (levels : list value) :
  check_levels levels = Ok tt <->
  exists ns, Forall2 (fun v n => to_int v "level" = Ok n /\ 0 <= n <= 15) levels ns.
Proof.
  induction levels as [| l levels IH]; cbn [check_levels].
  - split; [exists []; constructor | reflexivity].
  - split.
    + intros H. bind_inv H.
      destruct (Z.leb_spec 0 v); [| discriminate].
      destruct (Z.leb_spec v 15); [| discriminate].
      cbn [andb negb] in H. apply IH in H. destruct H as (ns & Hns).
      exists (v :: ns). constructor; [split; [assumption | lia] | assumption].
    + intros (ns & Hns). inversion Hns as [| v n vs ns' [Hn Hr] Hrest]; subst.
      rewrite Hn. cbn [bind].
      destruct (Z.leb_spec 0 n); [| lia]. destruct (Z.leb_spec n 15); [| lia].
      cbn [andb negb]. apply IH. now exists ns'.
Qed.

Lemma levels_hex_ok (levels : list value) (ns : list Z) :
  Forall2 (fun v n => to_int v "level" = Ok n /\ 0 <= n <= 15) levels ns ->
  levels_hex levels = Ok (join (map int_to_hex ns)).
Proof.
  induction 1 as [| v n vs ns' [Hn _] _ IH]; [reflexivity |].
  cbn [levels_hex map join].
  rewrite (to_int_name _ _ "parameter" _ Hn). cbn [bind]. now rewrite IH.
Qed.

Lemma fromhex_join_int_to_hex (ns : list Z) :
  Forall (fun n => 0 <= n < 256) ns ->
  Py.fromhex (join (map int_to_hex ns)) = Ok (map as_byte ns).
Proof.
  induction 1 as [| n ns' Hn _ IH]; [reflexivity |].
  cbn [map join]. rewrite fromhex_int_to_hex_app by lia. now rewrite IH.
Qed.

Lemma levels_are_bytes (levels : list value) (ns : list Z) :
  Forall2 (fun v n => to_int v "level" = Ok n /\ 0 <= n <= 15) levels ns ->
  Forall (fun n => 0 <= n < 256) ns.
Proof.
  induction 1 as [| v n vs ns' [_ Hr] _ IH]; constructor; [lia | assumption].
Qed.

Lemma set_rhythm_mode_shape (style l1 l2 l3 l4 l5 l6 l7 l8 l9 l10 l11 : value)
    (cmd : bytes) :
  set_rhythm_mode style l1 l2 l3 l4 l5 l6 l7 l8 l9 l10 l11 = Ok cmd <->
  exists s ns,
    to_int style "style" = Ok s /\ 0 <= s <= 4
    /\ Forall2 (fun v n => to_int v "level" = Ok n /\ 0 <= n <= 15)
         [l1; l2; l3; l4; l5; l6; l7; l8; l9; l10; l11] ns
    /\ cmd = ([x10; x00; x01; x02] ++ as_byte s :: map as_byte ns)%list.
Proof.
  unfold set_rhythm_mode. split.
  - intros H. do 4 bind_inv H.
    match goal with
    | Hc : check_levels _ = Ok ?u |- _ =>
        destruct u; apply check_levels_ok in Hc; destruct Hc as (ns & Hns)
    end.
    rewrite (levels_hex_ok _ _ Hns) in H. cbn [bind] in H.
    rewrite (fromhex_join_int_to_hex ns (levels_are_bytes _ _ Hns)) in H.
    steps H. read_bytes. exists v0, ns. finish.
  - intros (s & ns & Hs & Rs & Hns & ->).
    cbn [Py.fromhex bind]. cbv beta iota. rewrite Hs. cbn [bind].
    rewrite validate_range_in by lia. cbn [bind].
    rewrite (proj2 (check_levels_ok _)) by (now exists ns). cbn [bind].
    rewrite (levels_hex_ok _ _ Hns). cbn [bind].
    rewrite fromhex_int_to_hex by lia. cbn [bind].
    rewrite (fromhex_join_int_to_hex ns (levels_are_bytes _ _ Hns)).
    reflexivity.
Qed.

Lemma weekday_range (year month day wd : Z) :
  Datetime.weekday year month day = Ok wd -> 0 <= wd <= 6.
Proof.
  unfold Datetime.weekday.
  repeat match goal with
  | |- context [if ?c then _ else _] => destruct c; [discriminate |]
  end.
  intros H. injection H as <-.
  pose proof (Z.mod_pos_bound (Datetime.ymd2ord year month day + 6) 7). lia.
Qed.

Lemma parse_date_ok (date : string) (day month year dow : Z) :
  parse_date date = Ok (day, month, year, dow) ->
  map Py.int_of_str (Py.split_on "/" date) = [Some day; Some month; Some year]
  /\ Datetime.weekday year month day = Ok (dow - 1).
Proof.
  unfold parse_date.
  destruct (map Py.int_of_str (Py.split_on "/" date))
    as [| [d |] [| [m |] [| [y |] [|]]]]; try discriminate.
  destruct (Datetime.weekday y m d) as [wd | e] eqn:Hwd;
    [| destruct e; discriminate].
  intros H. injection H as <- <- <- <-.
  split; [reflexivity |]. rewrite Hwd. f_equal. lia.
Qed.

Lemma set_clock_mode_shape (clock : Datetime.now) (style : value) (date : string)
    (show_date format_24 : value) (cmd : bytes) :
  set_clock_mode clock style date show_date format_24 = Ok cmd ->
  exists s sd f24 day month year dow,
    to_int style "style" = Ok s /\ to_bool show_date = Ok sd
    /\ to_bool format_24 = Ok f24
    /\ 0 <= s <= 8 /\ 1 <= dow <= 7 /\ 1 <= month <= 12 /\ 1 <= day <= 31
    /\ 0 <= year <= 99
    /\ (date <> "" -> parse_date date = Ok (day, month, year, dow))
    /\ (date = "" ->
        day = Datetime.now_day clock /\ month = Datetime.now_month clock
        /\ year = Datetime.now_year clock mod 100
        /\ dow = Datetime.now_weekday clock + 1)
    /\ cmd = [x0b; x00; x06; x01; as_byte s; flag_byte f24; flag_byte sd;
              as_byte year; as_byte month; as_byte day; as_byte dow].
Proof.
  unfold set_clock_mode. intros H. do 4 bind_inv H.
  destruct v2 as [[[day month] year] dow]. cbv beta iota in H.
  steps H.
  exists v, v0, v1, day, month, year, dow.
  repeat (split; [first [assumption | lia] |]).
  split; [| split].
  - intros Hne. destruct (String.eqb_spec date ""); [contradiction | assumption].
  - intros ->. cbn in Hv2. injection Hv2 as <- <- <- <-. tauto.
  - destruct v0, v1; read_bytes; reflexivity.
Qed.

(** X2: every command returned by [set_clock_mode], [set_rhythm_mode],
    [set_rhythm_mode_2], [set_time], [set_fun_mode], [set_orientation],
    [clear], [set_brightness], [led_off] or [led_on] starts with its own
    length: its two-byte little-endian size field is the byte count of the
    whole command, between 4 and 16. *)
Theorem fixed_command_size_field (cmd : bytes) :
  fixed_command cmd ->
  size_field cmd = Py.len_bytes cmd /\ 4 <= Py.len_bytes cmd <= 16.
Proof.
  intros [clock style date sd f24 H | style l1 l2 l3 l4 l5 l6 l7 l8 l9 l10 l11 H
          | style t H | clock hour minute second H | v H | v H | H | v H | H | H].
  - apply set_clock_mode_shape in H.
    destruct H as (s & b1 & b2 & d & m & y & w & H). decompose [and] H. subst cmd.
    split; [reflexivity | cbn; lia].
  - apply set_rhythm_mode_shape in H.
    destruct H as (s & ns & _ & _ & Hns & ->).
    apply Forall2_length in Hns. cbn [List.length] in Hns.
    do 11 (destruct ns as [| ? ns]; [discriminate Hns | cbn [List.length] in Hns]).
    destruct ns; [| discriminate Hns].
    split; [reflexivity | cbn; lia].
  - apply set_rhythm_mode_2_shape in H.
    destruct H as (s & n & _ & _ & _ & _ & ->). split; [reflexivity | cbn; lia].
  - apply set_time_length in H. destruct H as (h & m & s & ->).
    split; [reflexivity | cbn; lia].
  - apply set_fun_mode_shape in H. destruct H as (b & _ & ->).
    split; [reflexivity | cbn; lia].
  - apply set_orientation_shape in H. destruct H as (n & _ & _ & ->).
    split; [reflexivity | cbn; lia].
  - injection H as <-. split; [reflexivity | cbn; lia].
  - apply set_brightness_shape in H. destruct H as (n & _ & _ & ->).
    split; [reflexivity | cbn; lia].
  - injection H as <-. split; [reflexivity | cbn; lia].
  - injection H as <-. split; [reflexivity | cbn; lia].
Qed.

Lemma fixed_command_size_field_witness :
  size_field [x05; x00; x04; x80; x32] = 5.
Proof.
  apply (fixed_command_size_field [x05; x00; x04; x80; x32]).
  apply by_set_brightness with (v := VStr "50"). reflexivity.
Defined.

(** X3: a command returned by [set_speed] has 4 bytes although its size field
    says 5, so it is one byte short of what it announces; it is returned
    only for a value that converts to an integer from 0 to 100. *)
Theorem set_speed_one_byte_short (v : value) (cmd : bytes) :
  set_speed v = Ok cmd ->
  Py.len_bytes cmd = 4 /\ size_field cmd = 5
  /\ exists n, to_int v "speed" = Ok n /\ 0 <= n <= 100
               /\ cmd = [x05; x00; x03; as_byte n].
Proof.
  intros H. apply set_speed_shape in H. destruct H as (n & Hn & Hr & ->).
  split; [reflexivity |]. split; [reflexivity |]. now exists n.
Qed.

Lemma set_speed_one_byte_short_witness :
  Py.len_bytes [x05; x00; x03; x50] = 4 /\ size_field [x05; x00; x03; x50] = 5.
Proof.
  destruct (set_speed_one_byte_short (VInt 80) [x05; x00; x03; x50] eq_refl)
    as (Hl & Hs & _).
  split; assumption.
Defined.

(** X4: when one of the hour, the minute and the second is left out,
    [set_time] takes all three from the system clock and ignores the ones
    that were given; with a clock in range the command is
    08 00 01 80, hour, minute, second, 00. *)
Theorem set_time_partial_arguments (clock : time_now)
    (hour minute second : option value) :
  hour = None \/ minute = None \/ second = None ->
  set_time clock hour minute second = set_time clock None None None
  /\ (0 <= now_hour clock <= 23 -> 0 <= now_minute clock <= 59 ->
      0 <= now_second clock <= 59 ->
      set_time clock hour minute second
      = Ok [x08; x00; x01; x80; as_byte (now_hour clock);
            as_byte (now_minute clock); as_byte (now_second clock); x00]).
Proof.
  intros H. rewrite (set_time_from_clock clock hour minute second H).
  split.
  - symmetry. apply set_time_from_clock. now left.
  - intros Rh Rm Rs. apply set_time_explicit.
    exists (now_hour clock), (now_minute clock), (now_second clock).
    repeat split; solve [reflexivity | lia].
Qed.

Lemma set_time_partial_arguments_witness :
  set_time {| now_hour := 9; now_minute := 30; now_second := 0 |}
    (Some (VInt 23)) None (Some (VInt 59))
  = Ok [x08; x00; x01; x80; x09; x1e; x00; x00].
Proof.
  apply (set_time_partial_arguments
           {| now_hour := 9; now_minute := 30; now_second := 0 |}
           (Some (VInt 23)) None (Some (VInt 59))).
  - right. left. reflexivity.
  - simpl. lia.
  - simpl. lia.
  - simpl. lia.
Defined.

(** X5: [set_time] with the three arguments given returns a command exactly
    when they convert to an hour from 0 to 23 and a minute and a second from
    0 to 59; the command is 08 00 01 80, hour, minute, second, 00, whatever
    the clock. *)
Theorem set_time_given (clock : time_now) (hour minute second : value)
    (cmd : bytes) :
  set_time clock (Some hour) (Some minute) (Some second) = Ok cmd <->
  exists h m s,
    to_int hour "hour" = Ok h /\ to_int minute "minute" = Ok m
    /\ to_int second "second" = Ok s
    /\ 0 <= h <= 23 /\ 0 <= m <= 59 /\ 0 <= s <= 59
    /\ cmd = [x08; x00; x01; x80; as_byte h; as_byte m; as_byte s; x00].
Proof. apply set_time_explicit. Qed.

(** X6: [set_rhythm_mode] returns a command exactly when the style converts
    to an integer from 0 to 4 and each of the eleven levels to an integer
    from 0 to 15; the command is 10 00 01 02, the style, and the eleven
    levels in order, 16 bytes. *)
Theorem set_rhythm_mode_levels
    (style l1 l2 l3 l4 l5 l6 l7 l8 l9 l10 l11 : value) (cmd : bytes) :
  set_rhythm_mode style l1 l2 l3 l4 l5 l6 l7 l8 l9 l10 l11 = Ok cmd <->
  exists s ns,
    to_int style "style" = Ok s /\ 0 <= s <= 4
    /\ Forall2 (fun v n => to_int v "level" = Ok n /\ 0 <= n <= 15)
         [l1; l2; l3; l4; l5; l6; l7; l8; l9; l10; l11] ns
    /\ cmd = ([x10; x00; x01; x02] ++ as_byte s :: map as_byte ns)%list
    /\ List.length cmd = 16%nat.
Proof.
  split.
  - intros H. apply set_rhythm_mode_shape in H.
    destruct H as (s & ns & Hs & Rs & Hns & ->).
    exists s, ns. repeat (split; [assumption |]). split; [reflexivity |].
    apply Forall2_length in Hns. cbn [List.length] in Hns.
    rewrite length_app. cbn [List.length]. rewrite length_map. lia.
  - intros (s & ns & Hs & Rs & Hns & -> & _).
    apply set_rhythm_mode_shape. now exists s, ns.
Qed.

Lemma set_time_given_witness :
  set_time {| now_hour := 9; now_minute := 30; now_second := 0 |}
    (Some (VStr "23")) (Some (VInt 59)) (Some (VInt 1))
  = Ok [x08; x00; x01; x80; x17; x3b; x01; x00].
Proof.
  apply (set_time_given {| now_hour := 9; now_minute := 30; now_second := 0 |}
           (VStr "23") (VInt 59) (VInt 1)).
  exists 23, 59, 1. repeat split; solve [reflexivity | lia].
Defined.

Lemma set_rhythm_mode_levels_witness :
  set_rhythm_mode (VInt 2) (VStr "0") (VStr "15") (VInt 1) (VInt 2) (VInt 3)
    (VInt 4) (VInt 5) (VInt 6) (VInt 7) (VInt 8) (VInt 9)
  = Ok [x10; x00; x01; x02; x02; x00; x0f; x01; x02; x03; x04; x05; x06; x07;
        x08; x09].
Proof.
  apply (set_rhythm_mode_levels (VInt 2) (VStr "0") (VStr "15") (VInt 1)
           (VInt 2) (VInt 3) (VInt 4) (VInt 5) (VInt 6) (VInt 7) (VInt 8)
           (VInt 9)).
  exists 2, [0; 15; 1; 2; 3; 4; 5; 6; 7; 8; 9].
  split; [reflexivity |]. split; [lia |].
  split; [repeat constructor; lia |].
  split; reflexivity.
Defined.

Lemma fromhex_error (s : string) (e : exn) :
  Py.fromhex s = Err e -> e = NonHexadecimal.
Proof.
  remember (String.length s) as n eqn:Hn. revert s Hn e.
  induction n as [n IH] using lt_wf_ind. intros [| c s] Hn e.
  - discriminate.
  - cbn [Py.fromhex String.length] in *.
    destruct (Py.is_space c).
    + apply (IH (String.length s)); [lia | reflexivity].
    + destruct (Py.hexval c); [| congruence].
      destruct s as [| d s']; [congruence |].
      destruct (Py.hexval d); [| congruence].
      destruct (Py.fromhex s') as [b | e'] eqn:Hs'; cbn [bind]; [discriminate |].
      intros H. injection H as <-.
      apply (IH (String.length s')) with (s := s');
        [cbn [String.length] in Hn; lia | reflexivity | exact Hs'].
Qed.

(** Names the error of the step that made a command fail. *)
Ltac blame H :=
  repeat match type of H with
  | bind ?m _ = Err _ =>
      let E := fresh "E" in
      destruct m eqn:E; cbn [bind] in H;
      [| injection H as <-;
         first [ apply to_int_error in E | apply fromhex_error in E ] ]
  end.

(** X7: [set_pixel] checks no range.  With coordinates from 0 to 255 and a
    colour of three bytes it returns the 10 bytes 0a 00 05 01 00, colour, x,
    y, whose size field is 10; and it never fails with a range error: its
    only errors are the ones of the integer conversion and of
    [bytes.fromhex]. *)
Theorem set_pixel_unchecked (x y : value) (color : string) :
  (forall nx ny r g b,
     to_int x "parameter" = Ok nx -> to_int y "parameter" = Ok ny ->
     0 <= nx < 256 -> 0 <= ny < 256 -> rgb color r g b ->
     set_pixel x y color
     = Ok [x0a; x00; x05; x01; x00; r; g; b; as_byte nx; as_byte ny]
     /\ size_field [x0a; x00; x05; x01; x00; r; g; b; as_byte nx; as_byte ny]
        = 10)
  /\ (forall e, set_pixel x y color = Err e ->
        e = InvalidInteger "parameter" \/ e = NonHexadecimal).
Proof.
  split.
  - intros nx ny r g b Hx Hy Rx Ry Hc. unfold rgb in Hc.
    split; [| reflexivity].
    unfold set_pixel. run. reflexivity.
  - intros e H. unfold set_pixel in H.
    blame H; auto. discriminate.
Qed.

Lemma set_pixel_unchecked_witness :
  set_pixel (VInt 3) (VStr "200") "ff8000"
  = Ok [x0a; x00; x05; x01; x00; xff; x80; x00; x03; xc8].
Proof.
  destruct (set_pixel_unchecked (VInt 3) (VStr "200") "ff8000") as [Hok _].
  apply (Hok 3 200 xff x80 x00); solve [reflexivity | lia].
Defined.

(** X8: [delete_screen] checks no range either.  For an index from 0 to 255
    it returns 07 00 02 01 01 00 and the index, 7 bytes with size field 7;
    for a negative index and for an index from 256 to 4095 it fails in
    [bytes.fromhex], not in a range check. *)
Theorem delete_screen_index (v : value) (n : Z) :
  to_int v "screen index" = Ok n ->
  (0 <= n < 256 ->
   delete_screen v = Ok [x07; x00; x02; x01; x01; x00; as_byte n]
   /\ size_field [x07; x00; x02; x01; x01; x00; as_byte n] = 7)
  /\ (n < 0 \/ 256 <= n < 4096 -> delete_screen v = Err NonHexadecimal).
Proof.
  intros Hn. unfold delete_screen. split.
  - intros Rn. split; [| reflexivity]. run. reflexivity.
  - intros Rn. cbn [Py.fromhex bind]. cbv beta iota. rewrite Hn. cbn [bind].
    destruct Rn as [Rn | Rn];
      [rewrite int_to_hex_negative by lia | rewrite int_to_hex_three_digits by lia];
      reflexivity.
Qed.

Lemma delete_screen_index_witness :
  delete_screen (VInt 3) = Ok [x07; x00; x02; x01; x01; x00; x03]
  /\ delete_screen (VInt 300) = Err NonHexadecimal.
Proof.
  split.
  - apply (delete_screen_index (VInt 3) 3 eq_refl). lia.
  - apply (delete_screen_index (VInt 300) 300 eq_refl). right. lia.
Defined.

(** ** The clock command and the two-digit year *)

Lemma is_leap_2000 (year : Z) :
  Datetime.is_leap (year + 2000) = Datetime.is_leap year.
Proof.
  unfold Datetime.is_leap.
  replace (year + 2000) with (year + 500 * 4) at 1 by lia.
  replace (year + 2000) with (year + 20 * 100) at 1 by lia.
  replace (year + 2000) with (year + 5 * 400) by lia.
  now rewrite !Z_mod_plus_full.
Qed.

Lemma days_before_year_2000 (year : Z) :
  Datetime.days_before_year (year + 2000)
  = Datetime.days_before_year year + 7 * 104355.
Proof.
  unfold Datetime.days_before_year. cbv zeta.
  replace (year + 2000 - 1) with (year - 1 + 2000) by lia.
  replace ((year - 1 + 2000) / 4) with ((year - 1) / 4 + 500)
    by (replace (year - 1 + 2000) with (year - 1 + 500 * 4) by lia;
        now rewrite Z.div_add by lia).
  replace ((year - 1 + 2000) / 100) with ((year - 1) / 100 + 20)
    by (replace (year - 1 + 2000) with (year - 1 + 20 * 100) by lia;
        now rewrite Z.div_add by lia).
  replace ((year - 1 + 2000) / 400) with ((year - 1) / 400 + 5)
    by (replace (year - 1 + 2000) with (year - 1 + 5 * 400) by lia;
        now rewrite Z.div_add by lia).
  lia.
Qed.

Lemma weekday_2000 (year month day wd : Z) :
  year <= 7999 ->
  Datetime.weekday year month day = Ok wd ->
  Datetime.weekday (year + 2000) month day = Ok wd.
Proof.
  intros Hy. unfold Datetime.weekday.
  destruct (Datetime.c_int year && Datetime.c_int month && Datetime.c_int day)%bool
    eqn:Hc; [| discriminate].
  cbn [negb].
  destruct (Z.leb_spec 1 year); [| discriminate].
  destruct (Z.leb_spec year 9999); [| discriminate].
  cbn [andb negb].
  destruct ((1 <=? month) && (month <=? 12))%bool; [| discriminate].
  cbn [negb].
  unfold Datetime.days_in_month, Datetime.ymd2ord, Datetime.days_before_month.
  rewrite is_leap_2000, days_before_year_2000.
  destruct ((1 <=? day) && _)%bool; [| discriminate].
  cbn [negb]. intros Hok. injection Hok as <-.
  assert (Hc' : (Datetime.c_int (year + 2000) && Datetime.c_int month
                 && Datetime.c_int day)%bool = true).
  { apply andb_prop in Hc. destruct Hc as [Hc Hd].
    apply andb_prop in Hc. destruct Hc as [_ Hm].
    rewrite Hm, Hd, !andb_true_r. unfold Datetime.c_int.
    apply andb_true_intro. split; [apply Z.leb_le | apply Z.ltb_lt]; lia. }
  rewrite Hc'. cbn [negb].
  destruct (Z.leb_spec 1 (year + 2000)); [| lia].
  destruct (Z.leb_spec (year + 2000) 9999); [| lia].
  cbn [andb negb]. f_equal.
  match goal with
  | |- (?a + 7 * 104355 + ?b + ?c + 6) mod 7 = _ =>
      replace (a + 7 * 104355 + b + c + 6) with (a + b + c + 6 + 104355 * 7) by lia
  end.
  apply Z_mod_plus_full.
Qed.

(** X9: for a date given as text, [set_clock_mode] returns a command only if
    the text is day/month/year with a year from 1 to 99 that names a real
    date; the last four bytes are year, month, day and a day of the week from
    1 to 7, which is the day of the week of that date in the year 2000 +
    year (Monday is 1); the system clock is not used. *)
Theorem set_clock_mode_explicit_date (clock : Datetime.now) (style : value)
    (date : string) (show_date format_24 : value) (cmd : bytes) :
  date <> "" ->
  set_clock_mode clock style date show_date format_24 = Ok cmd ->
  exists day month year dow,
    map Py.int_of_str (Py.split_on "/" date) = [Some day; Some month; Some year]
    /\ 1 <= year <= 99 /\ 1 <= month <= 12
    /\ 1 <= day <= Datetime.days_in_month year month
    /\ Datetime.weekday (year + 2000) month day = Ok (dow - 1)
    /\ 1 <= dow <= 7
    /\ skipn 7 cmd = [as_byte year; as_byte month; as_byte day; as_byte dow]
    /\ (forall clock',
          set_clock_mode clock' style date show_date format_24 = Ok cmd).
Proof.
  intros Hne H. pose proof H as Hrun.
  apply set_clock_mode_shape in H.
  destruct H as (s & sd & f24 & day & month & year & dow & Hs & Hsd & Hf & Rs
                 & Rw & Rm & Rd & Ry & Hdate & _ & ->).
  specialize (Hdate Hne). apply parse_date_ok in Hdate.
  destruct Hdate as [Hsplit Hwd].
  exists day, month, year, dow.
  assert (Hvalid : 1 <= year /\ 1 <= day <= Datetime.days_in_month year month).
  { unfold Datetime.weekday in Hwd.
    destruct (negb _); [discriminate |].
    destruct (Z.leb_spec 1 year); [| discriminate].
    destruct (year <=? 9999); [| discriminate]. cbn [andb negb] in Hwd.
    destruct (negb _); [discriminate |].
    destruct (Z.leb_spec 1 day); [| discriminate].
    destruct (Z.leb_spec day (Datetime.days_in_month year month));
      [| discriminate].
    lia. }
  split; [exact Hsplit |]. split; [lia |]. split; [lia |]. split; [lia |].
  split; [apply weekday_2000; [lia | exact Hwd] |].
  split; [lia |]. split; [reflexivity |].
  intros clock'. unfold set_clock_mode in *.
  destruct (String.eqb_spec date ""); [contradiction | exact Hrun].
Qed.

Lemma set_clock_mode_explicit_date_witness :
  exists dow,
    Datetime.weekday 2024 6 15 = Ok (dow - 1)
    /\ skipn 7 [x0b; x00; x06; x01; x00; x01; x01; x18; x06; x0f; x06]
       = [x18; x06; x0f; as_byte dow].
Proof.
  destruct (set_clock_mode_explicit_date
              {| Datetime.now_day := 1; Datetime.now_month := 1;
                 Datetime.now_year := 2000; Datetime.now_weekday := 5 |}
              (VInt 0) "15/6/24" (VBool true) (VBool true)
              [x0b; x00; x06; x01; x00; x01; x01; x18; x06; x0f; x06])
    as (day & month & year & dow & Hsplit & _ & _ & _ & Hwd & _ & Hbytes & _).
  - discriminate.
  - reflexivity.
  - injection Hsplit as <- <- <-. exists dow. split; [exact Hwd | exact Hbytes].
Defined.

(** ** Frames of the packet model *)

Lemma from_bytes_le_bytes (k : nat) (n : Z) :
  0 <= n < 256 ^ Z.of_nat k -> Py.from_bytes_le (Py.le_bytes k n) = n.
Proof.
  revert n. induction k as [| k IH]; intros n Hn.
  - cbn in *. lia.
  - cbn [Py.le_bytes Py.from_bytes_le].
    rewrite Nat2Z.inj_succ, Z.pow_succ_r in Hn by lia.
    assert (H0 : 0 <= n mod 256 < 256) by (apply Z.mod_pos_bound; lia).
    assert (H1 : 0 <= n / 256 < 256 ^ Z.of_nat k)
      by (split; [apply Z.div_pos; lia | apply Z.div_lt_upper_bound; lia]).
    rewrite byte_of_N_to_N by lia. rewrite Z2N.id by lia. rewrite IH by exact H1.
    pose proof (Z.div_mod n 256 ltac:(lia)). lia.
Qed.

Lemma to_bytes_le_ok (k : nat) (n : Z) (b : bytes) :
  Py.to_bytes_le k n = Ok b <-> 0 <= n < 256 ^ Z.of_nat k /\ b = Py.le_bytes k n.
Proof.
  unfold Py.to_bytes_le.
  destruct (Z.leb_spec 0 n); destruct (Z.ltb_spec n (256 ^ Z.of_nat k));
    cbn [andb]; split; intros H';
    first [ injection H' as <-; split; [lia | reflexivity]
          | discriminate
          | destruct H' as [? ->]; first [reflexivity | lia] ].
Qed.







(** ** The builder *)

Lemma normalize_color_six (color : string) :
  String.length color = 6%nat -> normalize_color (Some color) = color.
Proof.
  intros H. unfold normalize_color, or_default, Py.len_str. now rewrite H.
Qed.

Lemma round_up_8 (width k : Z) :
  8 * k - 8 < width <= 8 * k -> (width + 7) / 8 * 8 = 8 * k.
Proof.
  intros H.
  assert (Hq : (width + 7) / 8 = k).
  { symmetry. apply Z.div_unique with (r := width + 7 - 8 * k); lia. }
  lia.
Qed.

(** X12: on a panel of type 0 [add_bmp] rounds the width up to a multiple of
    8 before the table lookup: for a (height, width8) of the resolution table
    and any width above width8 - 8 and up to width8, a bitmap of the table's
    length and a colour of six hexadecimal digits, it appends the frame of
    discriminant, colour and bitmap and changes nothing else. *)
Theorem add_bmp_rounds_width_up (pkt : text_packet) (height width8 d n width : Z)
    (color : string) (bmp : bytes) :
  led_type pkt = 0 ->
  In ((height, width8), (d, n)) resolution_table ->
  width8 - 8 < width <= width8 ->
  hex_field 3 color ->
  Py.len_bytes bmp = n ->
  add_bmp pkt height width (Some color) bmp
  = Ok (set_frames pkt
          (char_frames pkt ++ [(as_byte d :: hex_bytes color ++ bmp)%list])).
Proof.
  intros Hled Hin Hw [Hp Hl] Hlen. unfold add_bmp. rewrite Hled. cbn [Z.eqb].
  rewrite normalize_color_six by exact Hl.
  assert (Hround : (width + 7) / 8 * 8 = width8).
  { cbn in Hin.
    repeat (destruct Hin as [Hin | Hin];
            [injection Hin as <- <- <- <-;
             first [ apply (round_up_8 width 1); lia
                   | apply (round_up_8 width 2); lia
                   | apply (round_up_8 width 3); lia
                   | apply (round_up_8 width 4); lia
                   | apply (round_up_8 width 6); lia
                   | apply (round_up_8 width 8); lia ] |]).
    contradiction. }
  rewrite Hround.
  rewrite (text_bmp_frame_listed _ _ _ _ color bmp Hin).
  apply Z.eqb_eq in Hlen. rewrite Hlen.
  rewrite (fromhex_hex_pairs _ Hp). reflexivity.
Qed.

Lemma add_bmp_rounds_width_up_witness :
  add_bmp (text_packet_init 0 0 80 0 "ffffff" 0 "000000" 0 0) 16 5
    (Some "00ff00") (repeat x3c 16)
  = Ok (set_frames (text_packet_init 0 0 80 0 "ffffff" 0 "000000" 0 0)
          [x00 :: x00 :: xff :: x00 :: repeat x3c 16]).
Proof.
  apply (add_bmp_rounds_width_up
           (text_packet_init 0 0 80 0 "ffffff" 0 "000000" 0 0) 16 8 0 16 5
           "00ff00" (repeat x3c 16)).
  - reflexivity.
  - cbn. auto.
  - lia.
  - split; reflexivity.
  - reflexivity.
Defined.

Lemma set_frames_same (pkt : text_packet) :
  set_frames pkt (char_frames pkt ++ []) = pkt.
Proof. destruct pkt. unfold set_frames. cbn. now rewrite app_nil_r. Qed.

Lemma set_frames_twice (pkt : text_packet) (a b : list bytes) :
  set_frames (set_frames pkt (char_frames pkt ++ a))
    (char_frames (set_frames pkt (char_frames pkt ++ a)) ++ b)
  = set_frames pkt (char_frames pkt ++ a ++ b).
Proof. unfold set_frames. cbn. now rewrite app_assoc. Qed.

Lemma add_bmp_appends (pkt pkt' : text_packet) (height width : Z)
    (color : option string) (bmp : bytes) :
  add_bmp pkt height width color bmp = Ok pkt' ->
  exists new,
    pkt' = set_frames pkt (char_frames pkt ++ new)
    /\ (led_type pkt = 0 \/ led_type pkt = 1 -> List.length new = 1%nat).
Proof.
  unfold add_bmp. intros H.
  destruct (Z.eqb_spec (led_type pkt) 0) as [H0 | H0];
    [| destruct (Z.eqb_spec (led_type pkt) 1) as [H1 | H1]].
  - bind_inv H. injection H as <-. exists [v]. split; reflexivity.
  - bind_inv H. injection H as <-. exists [v]. split; reflexivity.
  - injection H as <-. exists []. split; [now rewrite set_frames_same | lia].
Qed.

Lemma add_text_loop_appends (chars : list ascii) :
  forall (pkt pkt' : text_packet) (size : Z) (color : string),
    add_text_loop pkt chars size color = Ok pkt' ->
    exists new,
      pkt' = set_frames pkt (char_frames pkt ++ new)
      /\ (led_type pkt = 0 \/ led_type pkt = 1 ->
          List.length new = List.length chars).
Proof.
  induction chars as [| c chars IH]; intros pkt pkt' size color H.
  - injection H as <-. exists []. split; [now rewrite set_frames_same | reflexivity].
  - cbn [add_text_loop] in H.
    destruct (render_call pkt) as [render |]; [| discriminate].
    bind_inv H. destruct v as [bmp w]. cbv beta iota in H. bind_inv H.
    apply add_bmp_appends in Hv0. destruct Hv0 as (new1 & -> & Hlen1).
    apply IH in H. destruct H as (new2 & -> & Hlen2).
    exists (new1 ++ new2)%list. split; [apply set_frames_twice |].
    intros Hled. rewrite length_app, Hlen1, Hlen2 by exact Hled. reflexivity.
Qed.

(** X13: the builder only grows.  A successful [add_bmp], [add_text] or
    [add_img] returns the builder with new frames after the old ones and every
    other field unchanged; on a panel of type 0 or 1, [add_bmp] adds exactly
    one frame and [add_text] one frame for each character of the text; an
    [add_img] that reads its file adds exactly one. *)
Theorem builder_appends_frames (pkt pkt' : text_packet) :
  (forall height width color bmp,
     add_bmp pkt height width color bmp = Ok pkt' ->
     exists new,
       pkt' = set_frames pkt (char_frames pkt ++ new)
       /\ (led_type pkt = 0 \/ led_type pkt = 1 -> List.length new = 1%nat))
  /\ (forall text size color,
        add_text pkt text size color = Ok pkt' ->
        exists new,
          pkt' = set_frames pkt (char_frames pkt ++ new)
          /\ (led_type pkt = 0 \/ led_type pkt = 1 ->
              List.length new = String.length text))
  /\ (forall fs size filename,
        add_img fs pkt size filename = Ok pkt' ->
        exists new,
          pkt' = set_frames pkt (char_frames pkt ++ new)
          /\ (forall data, fs filename = Some data -> List.length new = 1%nat)).
Proof.
  split; [| split].
  - intros height width color bmp. apply add_bmp_appends.
  - intros text size color H. unfold add_text in H.
    apply add_text_loop_appends in H. destruct H as (new & Hnew & Hlen).
    exists new. split; [exact Hnew |].
    intros Hled. rewrite (Hlen Hled). apply length_list_ascii_of_string.
  - intros fs size filename H. unfold add_img in H.
    destruct (has_nul filename); [discriminate |].
    destruct (fs filename) as [data |].
    + bind_inv H. injection H as <-. exists [v]. split; reflexivity.
    + injection H as <-. exists []. split; [now rewrite set_frames_same |].
      discriminate.
Qed.

Lemma builder_appends_frames_witness :
  exists new,
    set_frames (text_packet_init 0 0 80 0 "ffffff" 0 "000000" 0 0)
      [x00 :: x00 :: xff :: x00 :: repeat x3c 16]
    = set_frames (text_packet_init 0 0 80 0 "ffffff" 0 "000000" 0 0)
        (char_frames (text_packet_init 0 0 80 0 "ffffff" 0 "000000" 0 0) ++ new)
    /\ List.length new = 1%nat.
Proof.
  destruct (builder_appends_frames
              (text_packet_init 0 0 80 0 "ffffff" 0 "000000" 0 0)
              (set_frames (text_packet_init 0 0 80 0 "ffffff" 0 "000000" 0 0)
                 [x00 :: x00 :: xff :: x00 :: repeat x3c 16]))
    as [Hbmp _].
  destruct (Hbmp 16 8 (Some "00ff00") (repeat x3c 16) eq_refl)
    as (new & Hnew & Hlen).
  exists new. split; [exact Hnew | apply Hlen; now left].
Defined.

Lemma bytearray_ok (l : list Z) (b : bytes) :
  Py.bytearray l = Ok b ->
  Forall (fun n => 0 <= n < 256) l /\ b = map as_byte l.
Proof.
  revert b. induction l as [| n l IH]; intros b H.
  - injection H as <-. split; [constructor | reflexivity].
  - cbn [Py.bytearray] in H. do 2 bind_inv H. injection H as <-.
    unfold Py.byte_of_int in Hv.
    destruct (Z.leb_spec 0 n); destruct (Z.ltb_spec n 256); try discriminate.
    injection Hv as <-. destruct (IH _ Hv0) as [Hall ->].
    split; [constructor; [lia | assumption] | reflexivity].
Qed.

(** X14: what [get_packet] returns starts with the number of frames on two
    bytes, low byte first, then halign, valign, animation, speed and colour
    mode, the bytes of the colour, the background mode and the bytes of the
    background colour field, and ends with the frames in insertion order.
    It is returned only if there are fewer than 65536 frames and the six
    numeric fields are between 0 and 255: out-of-range fields, which the
    builder accepted, fail here. *)
Theorem get_packet_layout (pkt : text_packet) (out : bytes) :
  get_packet pkt = Ok out ->
  exists color_bytes bg_bytes,
    Py.fromhex (color pkt) = Ok color_bytes
    /\ Py.fromhex (bg_color pkt) = Ok bg_bytes
    /\ out = (Py.le_bytes 2 (Z.of_nat (List.length (char_frames pkt)))
              ++ map as_byte [halign pkt; valign pkt; animation pkt; speed pkt;
                              color_mode pkt]
              ++ color_bytes ++ [as_byte (bg_color_mode pkt)] ++ bg_bytes
              ++ List.concat (char_frames pkt))%list
    /\ size_field out = Z.of_nat (List.length (char_frames pkt))
    /\ Z.of_nat (List.length (char_frames pkt)) < 65536
    /\ Forall (fun n => 0 <= n < 256)
         [halign pkt; valign pkt; animation pkt; speed pkt; color_mode pkt;
          bg_color_mode pkt].
Proof.
  unfold get_packet. intros H. do 5 bind_inv H. injection H as <-.
  apply to_bytes_le_ok in Hv. destruct Hv as [Rc ->].
  apply bytearray_ok in Hv0. destruct Hv0 as [Rf ->].
  apply bytearray_ok in Hv2. destruct Hv2 as [Rb ->].
  exists v1, v3. split; [assumption |]. split; [assumption |].
  split; [now rewrite <- !app_assoc |].
  split; [| split].
  - unfold size_field. rewrite <- !app_assoc.
    change (firstn 2 (Py.le_bytes 2 ?n ++ ?r)%list) with (Py.le_bytes 2 n).
    exact (from_bytes_le_bytes 2 _ Rc).
  - exact (proj2 Rc).
  - inversion Rb; subst.
    repeat match goal with
    | Hf : Forall _ (_ :: _) |- _ => inversion Hf; subst; clear Hf
    end.
    repeat (apply Forall_cons; [assumption |]). apply Forall_nil.
Qed.

Lemma get_packet_layout_witness :
  get_packet (set_frames (text_packet_init 0 1 100 0 "0000ff" 2 "8fff34" 1 1)
                [[x01; x02]; [x03]])
  = Ok [x02; x00; x01; x01; x01; x64; x00; x00; x00; xff; x02; x00; x00; xff;
        x01; x02; x03].
Proof.
  destruct (get_packet_layout
              (set_frames (text_packet_init 0 1 100 0 "0000ff" 2 "8fff34" 1 1)
                 [[x01; x02]; [x03]])
              [x02; x00; x01; x01; x01; x64; x00; x00; x00; xff; x02; x00; x00;
               xff; x01; x02; x03] eq_refl)
    as (cb & bb & Hc & Hb & Hout & _).
  reflexivity.
Defined.

(** ** The envelope of the new text command *)

(** The envelope [send_text2_] and [send_text_test] put around a body. *)
Lemma envelope_fields (marker tsize checksum slot body cmd : bytes) :
  List.length marker = 5%nat ->
  Py.to_bytes_le 4 (Py.len_bytes body + 10) = Ok tsize ->
  Py.to_bytes_le 4 (binCRC32_checksum body) = Ok checksum ->
  List.length slot = 2%nat ->
  update_packet_size ((marker ++ tsize ++ checksum ++ slot) ++ body)%list = Ok cmd ->
  Py.len_bytes cmd = Py.len_bytes body + 15
  /\ size_field cmd = Py.len_bytes cmd
  /\ firstn 3 (skipn 2 cmd) = skipn 2 marker
  /\ Py.from_bytes_le (firstn 4 (skipn 5 cmd)) = Py.len_bytes cmd - 5
  /\ Py.from_bytes_le (firstn 4 (skipn 9 cmd)) = binCRC32_checksum (skipn 15 cmd)
  /\ firstn 2 (skipn 13 cmd) = slot
  /\ skipn 15 cmd = body.
Proof.
  intros Hm Ht Hc Hs H.
  apply to_bytes_le_ok in Ht. destruct Ht as [Rt ->].
  apply to_bytes_le_ok in Hc. destruct Hc as [Rc ->].
  destruct marker as [| m0 [| m1 [| m2 [| m3 [| m4 [|]]]]]]; try discriminate Hm.
  destruct slot as [| s0 [| s1 [|]]]; try discriminate Hs.
  pose proof H as Hu. apply update_packet_size_field in Hu; [| cbn; lia].
  destruct Hu as (Hsize & Hlen & Hafter).
  unfold update_packet_size in H. bind_inv H.
  apply to_bytes_le_ok in Hv. destruct Hv as [_ ->]. injection H as <-.
  assert (Hl : Py.len_bytes
                 (([m0; m1; m2; m3; m4] ++ Py.le_bytes 4 (Py.len_bytes body + 10)
                   ++ Py.le_bytes 4 (binCRC32_checksum body) ++ [s0; s1])
                  ++ body)%list
               = Py.len_bytes body + 15).
  { unfold Py.len_bytes. rewrite !length_app, !le_bytes_length. cbn. lia. }
  rewrite Hl in *.
  split; [exact Hlen |]. split; [exact Hsize |]. split; [reflexivity |].
  split; [| split; [| split; reflexivity]].
  - rewrite Hlen.
    replace (Py.len_bytes body + 15 - 5) with (Py.len_bytes body + 10) by lia.
    exact (from_bytes_le_bytes 4 _ Rt).
  - exact (from_bytes_le_bytes 4 _ Rc).
Qed.


Lemma slot_bytes (cmd : bytes) (x y : byte) :
  firstn 2 (skipn 13 cmd) = [x; y] ->
  nth_error cmd 13 = Some x /\ nth_error cmd 14 = Some y.
Proof.
  intros Hslot.
  destruct cmd as [| c0 [| c1 [| c2 [| c3 [| c4 [| c5 [| c6 [| c7 [| c8
    [| c9 [| c10 [| c11 [| c12 [| c13 [| c14 rest]]]]]]]]]]]]]]];
    try discriminate Hslot.
  cbn in Hslot. injection Hslot as -> ->. split; reflexivity.
Qed.

(** The fields of a serialized packet, read off [get_packet]. *)
Lemma get_packet_bytes (pkt : text_packet) (out : bytes) :
  get_packet pkt = Ok out ->
  exists color_bytes bg_bytes,
    Py.fromhex (color pkt) = Ok color_bytes
    /\ Py.fromhex (bg_color pkt) = Ok bg_bytes
    /\ Forall (fun n => 0 <= n < 256)
         [halign pkt; valign pkt; animation pkt; speed pkt; color_mode pkt;
          bg_color_mode pkt]
    /\ out = (Py.le_bytes 2 (Z.of_nat (List.length (char_frames pkt)))
              ++ map as_byte [halign pkt; valign pkt; animation pkt; speed pkt;
                              color_mode pkt]
              ++ color_bytes ++ [as_byte (bg_color_mode pkt)] ++ bg_bytes
              ++ List.concat (char_frames pkt))%list.
Proof.
  unfold get_packet. intros H. do 5 bind_inv H. injection H as <-.
  apply to_bytes_le_ok in Hv. destruct Hv as [_ ->].
  apply bytearray_ok in Hv0. destruct Hv0 as [Rf ->].
  apply bytearray_ok in Hv2. destruct Hv2 as [Rb ->].
  exists v1, v3. split; [assumption |]. split; [assumption |].
  split; [| now rewrite <- !app_assoc].
  apply Forall_inv in Rb.
  repeat match goal with
  | Hf : Forall _ (_ :: _) |- _ =>
      let Hh := fresh "Rh" in
      pose proof (Forall_inv Hf) as Hh; apply Forall_inv_tail in Hf
  end.
  repeat (apply Forall_cons; [assumption |]). apply Forall_nil.
Qed.

Lemma add_img_appends (fs : filesystem) (pkt pkt' : text_packet) (size : Z)
    (filename : string) :
  add_img fs pkt size filename = Ok pkt' ->
  exists new, pkt' = set_frames pkt (char_frames pkt ++ new).
Proof.
  unfold add_img. intros H.
  destruct (has_nul filename); [discriminate |].
  destruct (fs filename) as [data |].
  - bind_inv H. injection H as <-. now exists [v].
  - injection H as <-. exists []. now rewrite set_frames_same.
Qed.

(** What [send_text2_] went through when it returns a command. *)
Lemma send_text2__envelope (E : collaborators) (text : string)
    (a : send_text2_args) (cmd : bytes) :
  send_text2_ E text a = Ok cmd ->
  exists col mm pkt body,
    t2_color a = VStr col
    /\ lookup Z.eqb (t2_matrix_height a)
         (if t2_led_type a =? 0 then minmax_width00 else minmax_width80) = Ok mm
    /\ text2_builder E text a col mm = Ok pkt
    /\ get_packet pkt = Ok body
    /\ 0 <= t2_save_slot a < 256
    /\ Py.len_bytes cmd = Py.len_bytes body + 15
    /\ size_field cmd = Py.len_bytes cmd
    /\ firstn 3 (skipn 2 cmd) = [x00; x01; x00]
    /\ Py.from_bytes_le (firstn 4 (skipn 5 cmd)) = Py.len_bytes cmd - 5
    /\ Py.from_bytes_le (firstn 4 (skipn 9 cmd)) = binCRC32_checksum (skipn 15 cmd)
    /\ firstn 2 (skipn 13 cmd) = [x00; as_byte (t2_save_slot a)]
    /\ skipn 15 cmd = body.
Proof.
  intros H. unfold send_text2_ in H. do 8 bind_inv H.
  destruct (t2_color a) as [z | col | b] eqn:Hcol;
    cbn [str_of_value] in Hv0; try discriminate Hv0.
  injection Hv0 as <-.
  replace (Py.len_bytes v2 + 4 + 4 + 2) with (Py.len_bytes v2 + 10) in Hv6 by lia.
  apply bytearray_ok in Hv4. destruct Hv4 as [Rs ->].
  injection Hv5 as <-.
  pose proof (fun Hm Hs => envelope_fields _ _ _ _ _ _ Hm Hv6 Hv3 Hs H) as Hf.
  destruct (Hf eq_refl eq_refl)
    as (Hlen & Hsize & Hmark & Hts & Hcrc & Hslot & Hbody).
  exists col, v, v1, v2.
  split; [reflexivity |]. split; [exact Hv |]. split; [exact Hv1 |].
  split; [exact Hv2 |].
  split; [exact (Forall_inv (Forall_inv_tail Rs)) |].
  split; [exact Hlen |]. split; [exact Hsize |]. split; [exact Hmark |].
  split; [exact Hts |]. split; [exact Hcrc |]. split; [exact Hslot |].
  exact Hbody.
Qed.

(** What [send_text_test] went through when it returns a command. *)
Lemma send_text_test_envelope (E : collaborators) (fs : filesystem)
    (cmd : bytes) :
  send_text_test E fs = Ok cmd ->
  exists pkt body,
    get_packet pkt = Ok body
    /\ (halign pkt = 1 /\ valign pkt = 1 /\ animation pkt = 1 /\ speed pkt = 100
        /\ color_mode pkt = 0 /\ color pkt = "0000ff" /\ bg_color_mode pkt = 2
        /\ bg_color pkt = "0000ff")
    /\ Py.len_bytes cmd = Py.len_bytes body + 15
    /\ size_field cmd = Py.len_bytes cmd
    /\ firstn 3 (skipn 2 cmd) = [x00; x01; x00]
    /\ Py.from_bytes_le (firstn 4 (skipn 5 cmd)) = Py.len_bytes cmd - 5
    /\ Py.from_bytes_le (firstn 4 (skipn 9 cmd)) = binCRC32_checksum (skipn 15 cmd)
    /\ firstn 2 (skipn 13 cmd) = [x00; x65]
    /\ skipn 15 cmd = body.
Proof.
  intros H. unfold send_text_test in H. do 11 bind_inv H.
  injection Hv as <-. injection Hv1 as <-.
  pose proof (to_bytes_le_length _ _ _ Hv8) as Lc.
  match type of Hv9 with
  | Py.to_bytes_le 4 ?t = _ =>
      replace t with (Py.len_bytes v7 + 10) in Hv9
        by (unfold Py.len_bytes; rewrite !length_app, Lc; cbn; lia)
  end.
  assert (H' : update_packet_size
                 (([x7d; x00; x00; x01; x00] ++ v9 ++ v8 ++ [x00; x65]) ++ v7)%list
               = Ok cmd).
  { rewrite <- H. f_equal. rewrite <- !app_assoc. reflexivity. }
  pose proof (fun Hm Hs => envelope_fields _ _ _ _ _ _ Hm Hv9 Hv8 Hs H') as Hf.
  destruct (Hf eq_refl eq_refl)
    as (Hlen & Hsize & Hmark & Hts & Hcrc & Hslot & Hbody).
  unfold add_text in Hv2, Hv3.
  apply add_text_loop_appends in Hv2. destruct Hv2 as (n1 & -> & _).
  apply add_text_loop_appends in Hv3. destruct Hv3 as (n2 & -> & _).
  apply add_bmp_appends in Hv5. destruct Hv5 as (n3 & -> & _).
  apply add_img_appends in Hv6. destruct Hv6 as (n4 & ->).
  eexists. exists v7.
  split; [exact Hv7 |].
  split; [repeat split; reflexivity |].
  split; [exact Hlen |]. split; [exact Hsize |]. split; [exact Hmark |].
  split; [exact Hts |]. split; [exact Hcrc |]. split; [exact Hslot |].
  exact Hbody.
Qed.

(** X15: in every command returned by [send_text2_] and by [send_text_test],
    after the size field come 00 01 00, then on four bytes, low byte first,
    the count of the bytes from byte 5 to the end, then on four bytes the
    CRC-32 ([binCRC32_checksum]) of the bytes from byte 15 to the end, then
    00 at byte 13; the bytes from byte 15 on are a serialized packet.  For
    [send_text2_], byte 14 is the save slot, and the packet is the one of the
    builder made from the arguments: the number of its frames on two bytes,
    then halign, valign, animation, speed and rainbow mode, the colour, the
    background mode, the colour once more where the background colour is
    expected, and the frames; the save slot and the six numbers are between
    0 and 255 and the colour is a str of hexadecimal text.  For
    [send_text_test], byte 14 is 65 and the packet starts, after the number
    of frames, with 01 01 01 64 00, 00 00 ff, 02, 00 00 ff. *)
Theorem new_text_envelope (E : collaborators) (cmd : bytes) :
  (enveloped_command E cmd ->
   15 <= Py.len_bytes cmd
   /\ size_field cmd = Py.len_bytes cmd
   /\ firstn 3 (skipn 2 cmd) = [x00; x01; x00]
   /\ Py.from_bytes_le (firstn 4 (skipn 5 cmd)) = Py.len_bytes cmd - 5
   /\ Py.from_bytes_le (firstn 4 (skipn 9 cmd)) = binCRC32_checksum (skipn 15 cmd)
   /\ nth_error cmd 13 = Some x00
   /\ exists pkt, get_packet pkt = Ok (skipn 15 cmd))
  /\ (forall text a,
        send_text2_ E text a = Ok cmd ->
        exists col color_bytes mm pkt,
          t2_color a = VStr col
          /\ Py.fromhex col = Ok color_bytes
          /\ lookup Z.eqb (t2_matrix_height a)
               (if t2_led_type a =? 0 then minmax_width00 else minmax_width80)
             = Ok mm
          /\ text2_builder E text a col mm = Ok pkt
          /\ Forall (fun n => 0 <= n < 256)
               [t2_save_slot a; t2_halign a; t2_valign a; t2_animation a;
                t2_speed a; t2_rainbow_mode a; t2_bg_color_mode a]
          /\ firstn 2 (skipn 13 cmd) = [x00; as_byte (t2_save_slot a)]
          /\ skipn 15 cmd
             = (Py.le_bytes 2 (Z.of_nat (List.length (char_frames pkt)))
                ++ map as_byte [t2_halign a; t2_valign a; t2_animation a;
                                t2_speed a; t2_rainbow_mode a]
                ++ color_bytes ++ [as_byte (t2_bg_color_mode a)] ++ color_bytes
                ++ List.concat (char_frames pkt))%list)
  /\ (forall fs,
        send_text_test E fs = Ok cmd ->
        exists frames,
          firstn 2 (skipn 13 cmd) = [x00; x65]
          /\ skipn 15 cmd
             = (Py.le_bytes 2 (Z.of_nat (List.length frames))
                ++ [x01; x01; x01; x64; x00; x00; x00; xff; x02; x00; x00; xff]
                ++ List.concat frames)%list).
Proof.
  split; [| split].
  - intros [text a H | fs H].
    + destruct (send_text2__envelope E text a cmd H)
        as (col & mm & pkt & body & _ & _ & _ & Hbody & _ & Hlen & Hsize & Hmark
            & Hts & Hcrc & Hslot & Hskip).
      split; [unfold Py.len_bytes in *; lia |].
      split; [exact Hsize |]. split; [exact Hmark |]. split; [exact Hts |].
      split; [exact Hcrc |].
      split; [exact (proj1 (slot_bytes cmd _ _ Hslot)) |].
      exists pkt. now rewrite Hskip.
    + destruct (send_text_test_envelope E fs cmd H)
        as (pkt & body & Hbody & _ & Hlen & Hsize & Hmark & Hts & Hcrc & Hslot
            & Hskip).
      split; [unfold Py.len_bytes in *; lia |].
      split; [exact Hsize |]. split; [exact Hmark |]. split; [exact Hts |].
      split; [exact Hcrc |].
      split; [exact (proj1 (slot_bytes cmd _ _ Hslot)) |].
      exists pkt. now rewrite Hskip.
  - intros text a H.
    destruct (send_text2__envelope E text a cmd H)
      as (col & mm & pkt & body & Hcol & Hmm & Hpkt & Hbody & Rslot & _ & _ & _
          & _ & _ & Hslot & Hskip).
    pose proof Hpkt as Hnew. unfold text2_builder, add_text in Hnew.
    apply add_text_loop_appends in Hnew. destruct Hnew as (new & Hnew & _).
    apply get_packet_bytes in Hbody.
    destruct Hbody as (cb & bb & Hcb & Hbb & Rf & Hout).
    subst pkt.
    cbn [color bg_color set_frames set_renderer text_packet_init] in Hcb, Hbb.
    assert (Hsame : bb = cb) by congruence. subst bb.
    exists col, cb, mm. eexists.
    split; [exact Hcol |]. split; [exact Hcb |]. split; [exact Hmm |].
    split; [exact Hpkt |].
    split; [apply Forall_cons; [exact Rslot | exact Rf] |].
    split; [exact Hslot |].
    rewrite Hskip, Hout. reflexivity.
  - intros fs H.
    destruct (send_text_test_envelope E fs cmd H)
      as (pkt & body & Hbody & Hfields & _ & _ & _ & _ & _ & Hslot & Hskip).
    destruct Hfields as (Hha & Hva & Han & Hsp & Hcm & Hco & Hbm & Hbc).
    apply get_packet_bytes in Hbody.
    destruct Hbody as (cb & bb & Hcb & Hbb & _ & Hout).
    rewrite Hco in Hcb. rewrite Hbc in Hbb.
    assert (Hc : cb = [x00; x00; xff]) by (vm_compute in Hcb; congruence).
    assert (Hb : bb = [x00; x00; xff]) by (vm_compute in Hbb; congruence).
    subst cb bb.
    rewrite Hha, Hva, Han, Hsp, Hcm, Hbm in Hout.
    exists (char_frames pkt).
    split; [exact Hslot |].
    rewrite Hskip, Hout. reflexivity.
Qed.

Lemma new_text_envelope_witness :
  Py.from_bytes_le (firstn 4 (skipn 5 empty_text_command)) = 24
  /\ Py.from_bytes_le (firstn 4 (skipn 9 empty_text_command))
     = binCRC32_checksum (skipn 15 empty_text_command)
  /\ firstn 2 (skipn 13 empty_text_command) = [x00; x65].
Proof.
  destruct (new_text_envelope Double.tools empty_text_command)
    as (Henv & Htext2 & _).
  destruct Henv as (_ & _ & _ & Hts & Hcrc & _).
  - apply wrapped_by_send_text2_ with (text := "") (a := send_text2_defaults).
    vm_compute. reflexivity.
  - destruct (Htext2 "" send_text2_defaults)
      as (col & cb & mm & pkt & _ & _ & _ & _ & _ & Hslot & _).
    + vm_compute. reflexivity.
    + split; [exact Hts |]. split; [exact Hcrc | exact Hslot].
Defined.

(** X16: [send_text2_] makes no use of [bg_color], [font_offset_x] and
    [font_offset_y]: two calls that differ in these arguments only return
    the same result. *)
Theorem send_text2__unused_arguments (E : collaborators) (text : string)
    (a a' : send_text2_args) :
  t2_led_type a = t2_led_type a' ->
  t2_animation a = t2_animation a' ->
  t2_save_slot a = t2_save_slot a' ->
  t2_speed a = t2_speed a' ->
  t2_halign a = t2_halign a' ->
  t2_valign a = t2_valign a' ->
  t2_rainbow_mode a = t2_rainbow_mode a' ->
  t2_color a = t2_color a' ->
  t2_bg_color_mode a = t2_bg_color_mode a' ->
  t2_font a = t2_font a' ->
  t2_font_size a = t2_font_size a' ->
  t2_matrix_height a = t2_matrix_height a' ->
  send_text2_ E text a = send_text2_ E text a'.
Proof.
  destruct a, a'. cbn. intros. subst. reflexivity.
Qed.

Lemma send_text2__unused_arguments_witness :
  send_text2_ Double.tools "Hi" send_text2_defaults
  = send_text2_ Double.tools "Hi"
      {| t2_led_type := 0; t2_animation := 0; t2_save_slot := 0x65;
         t2_speed := 80; t2_halign := 0; t2_valign := 0; t2_rainbow_mode := 0;
         t2_color := VStr "ffffff"; t2_bg_color_mode := 0;
         t2_bg_color := VInt 5; t2_font := VStr "default";
         t2_font_offset_x := 3; t2_font_offset_y := -2;
         t2_font_size := 0; t2_matrix_height := 16 |}.
Proof.
  apply (send_text2__unused_arguments Double.tools "Hi"); reflexivity.
Defined.

(** X17: [send_text2_] looks the matrix height up in a table: 16, 32, 48 and
    64 for a panel of type 0, and 16, 12, 20, 24 and 32 for the others.  With
    any other height it fails with [KeyError], before anything is rendered;
    a command is returned for a height of the table only. *)
Theorem send_text2__matrix_height (E : collaborators) (text : string)
    (a : send_text2_args) :
  let heights :=
    if t2_led_type a =? 0 then [16; 32; 48; 64] else [16; 12; 20; 24; 32] in
  (~ In (t2_matrix_height a) heights -> send_text2_ E text a = Err KeyError)
  /\ (forall cmd, send_text2_ E text a = Ok cmd -> In (t2_matrix_height a) heights).
Proof.
  cbv zeta.
  assert (Hlook : forall (d : list (Z * (Z * Z * Z))) k,
            (~ In k (map fst d) -> lookup Z.eqb k d = Err KeyError)
            /\ (forall v, lookup Z.eqb k d = Ok v -> In k (map fst d))).
  { induction d as [| [k' v'] d IH]; intros k; cbn [lookup map fst In].
    - split; [reflexivity | discriminate].
    - destruct (Z.eqb_spec k k') as [-> | Hne].
      + split; [intros Hn; exfalso; apply Hn; now left | intros; now left].
      + destruct (IH k) as [IH1 IH2]. split.
        * intros Hn. apply IH1. tauto.
        * intros v Hv. right. now apply IH2 with v. }
  unfold send_text2_.
  destruct (t2_led_type a =? 0).
  - destruct (Hlook minmax_width00 (t2_matrix_height a)) as [H1 H2]. split.
    + intros Hn. now rewrite (H1 Hn).
    + intros cmd H. bind_inv H. exact (H2 _ Hv).
  - destruct (Hlook minmax_width80 (t2_matrix_height a)) as [H1 H2]. split.
    + intros Hn. now rewrite (H1 Hn).
    + intros cmd H. bind_inv H. exact (H2 _ Hv).
Qed.

Lemma send_text2__matrix_height_witness :
  send_text2_ Double.tools "Hi"
    {| t2_led_type := 0; t2_animation := 0; t2_save_slot := 0x65;
       t2_speed := 80; t2_halign := 0; t2_valign := 0; t2_rainbow_mode := 0;
       t2_color := VStr "ffffff"; t2_bg_color_mode := 0;
       t2_bg_color := VStr "000000"; t2_font := VStr "default";
       t2_font_offset_x := 0; t2_font_offset_y := 0;
       t2_font_size := 0; t2_matrix_height := 24 |}
  = Err KeyError.
Proof.
  apply (send_text2__matrix_height Double.tools "Hi").
  cbn. intros H. repeat (destruct H as [H | H]; [discriminate |]). exact H.
Defined.


(** After the conversion every integer keyword holds an integer, so the
    binding never meets another value there. *)
Lemma convert_kwargs_ints (kw kw' : kwargs) :
  convert_kwargs kw = Ok kw' ->
  Forall (fun kv => str_in (fst kv) intkeys = true -> exists z, snd kv = VInt z)
    kw'.
Proof.
  revert kw'. induction kw as [| [k v] kw IH]; intros kw' H.
  - injection H as <-. constructor.
  - cbn [convert_kwargs] in H. do 2 bind_inv H. injection H as <-.
    constructor; [| now apply IH].
    cbn [fst snd]. intros Hk. rewrite Hk in Hv. bind_inv Hv.
    injection Hv as <-. now exists v2.
Qed.









(** ** Colours *)




(** ** The glyph stream of the legacy text command *)

Lemma lower_app (a b : string) : Py.lower (a ++ b) = Py.lower a ++ Py.lower b.
Proof. induction a as [| c a IH]; cbn; [reflexivity | now rewrite IH]. Qed.

Lemma list_ascii_of_string_app (a b : string) :
  list_ascii_of_string (a ++ b)
  = (list_ascii_of_string a ++ list_ascii_of_string b)%list.
Proof. induction a as [| c a IH]; cbn; [reflexivity | now rewrite IH]. Qed.

Section EncodeTextCompose.

Variable E : collaborators.
Variables (matrix_height : Z) (color font : string) (font_offset : Z * Z)
  (font_size : Z).

Lemma encode_text_loop_acc (chars : list ascii) :
  forall acc,
    encode_text_loop E chars matrix_height color font font_offset font_size
      (Py.format_02x matrix_height) acc
    = (r <- encode_text_loop E chars matrix_height color font font_offset
              font_size (Py.format_02x matrix_height) "" ;;
       Ok (acc ++ r)).
Proof.
  induction chars as [| c chars IH]; intros acc.
  - cbn. now rewrite append_empty_r.
  - cbn [encode_text_loop].
    destruct (char_to_hex E c matrix_height (VStr font) font_offset font_size None)
      as [[char_hex w] | e]; [| reflexivity].
    cbn [bind]. destruct (convert_char_hex E char_hex) as [conv | e];
      [| reflexivity].
    cbn [bind]. rewrite IH. symmetry. rewrite IH. symmetry.
    destruct (encode_text_loop E chars _ _ _ _ _ _ "") as [r | e];
      [| reflexivity].
    cbn [bind]. destruct (negb (char_hex =? "")%string);
      rewrite ?append_assoc; reflexivity.
Qed.

Lemma encode_text_loop_app (c1 c2 : list ascii) :
  forall acc,
    encode_text_loop E (c1 ++ c2) matrix_height color font font_offset font_size
      (Py.format_02x matrix_height) acc
    = (r <- encode_text_loop E c1 matrix_height color font font_offset
              font_size (Py.format_02x matrix_height) acc ;;
       encode_text_loop E c2 matrix_height color font font_offset font_size
         (Py.format_02x matrix_height) r).
Proof.
  induction c1 as [| c c1 IH]; intros acc; [reflexivity |].
  cbn [app encode_text_loop].
  destruct (char_to_hex E c matrix_height (VStr font) font_offset font_size None)
    as [[char_hex w] | e]; [| reflexivity].
  cbn [bind]. destruct (convert_char_hex E char_hex) as [conv | e];
    [| reflexivity].
  cbn [bind]. apply IH.
Qed.

End EncodeTextCompose.

(** X20: [encode_text] works character by character: the stream of a text
    made of two parts is the stream of the first followed by the stream of
    the second, and it fails with the error of the first part that fails. *)
Theorem encode_text_concatenation (E : collaborators) (t1 t2 : string)
    (matrix_height : Z) (color font : string) (font_offset : Z * Z)
    (font_size : Z) :
  encode_text E (t1 ++ t2) matrix_height color font font_offset font_size
  = (r1 <- encode_text E t1 matrix_height color font font_offset font_size ;;
     r2 <- encode_text E t2 matrix_height color font font_offset font_size ;;
     Ok (r1 ++ r2)).
Proof.
  unfold encode_text.
  rewrite list_ascii_of_string_app, encode_text_loop_app.
  destruct (encode_text_loop E (list_ascii_of_string t1) _ _ _ _ _ _ "")
    as [r1 | e]; [| reflexivity].
  cbn [bind]. rewrite encode_text_loop_acc.
  destruct (encode_text_loop E (list_ascii_of_string t2) _ _ _ _ _ _ "")
    as [r2 | e]; [| reflexivity].
  cbn [bind]. now rewrite lower_app.
Qed.

Lemma hexval_lower (c : ascii) (v : N) :
  Py.hexval c = Some v -> Py.hexval (Py.lower_char c) = Some v.
Proof.
  destruct c as [[] [] [] [] [] [] [] []]; vm_compute; intros H;
    first [discriminate | exact H].
Qed.

Lemma hex_pairs_lower (s : string) :
  hex_pairs s = true -> hex_pairs (Py.lower s) = true.
Proof.
  induction s as [| c | c d s IH] using string_pair_ind; intros H.
  - reflexivity.
  - discriminate.
  - cbn [hex_pairs Py.lower] in *.
    destruct (Py.hexval c) as [hi |] eqn:Hc; [| discriminate].
    destruct (Py.hexval d) as [lo |] eqn:Hd; [| discriminate].
    rewrite (hexval_lower c hi Hc), (hexval_lower d lo Hd). auto.
Qed.

Lemma lower_length (s : string) : String.length (Py.lower s) = String.length s.
Proof. induction s as [| c s IH]; cbn; congruence. Qed.

Lemma append_length (a b : string) :
  String.length (a ++ b) = (String.length a + String.length b)%nat.
Proof. induction a as [| c a IH]; cbn; congruence. Qed.

Lemma format_02x_field (n : Z) :
  0 <= n < 256 -> hex_field 1 (Py.format_02x n).
Proof.
  intros Hn. destruct (int_to_hex_byte n Hn) as [Hp Hb]. split; [exact Hp |].
  pose proof (hex_bytes_length _ Hp) as Hl. unfold int_to_hex in *.
  rewrite Hb in Hl. cbn in Hl. lia.
Qed.

Lemma hex_field_app (j k : nat) (a b : string) :
  hex_field j a -> hex_field k b -> hex_field (j + k) (a ++ b).
Proof.
  intros [Pa La] [Pb Lb]. split; [now apply hex_pairs_app |].
  rewrite append_length. lia.
Qed.

Lemma glyph_stream_field (color : string) (matrix_height : Z) (glyphs : list glyph) :
  1 <= matrix_height <= 128 ->
  hex_field 3 color ->
  Forall (two_byte_rows matrix_height) glyphs ->
  hex_field (List.length glyphs * Z.to_nat (per_char_cost matrix_height))
    (join (glyph_frames color matrix_height glyphs)).
Proof.
  intros Hm Hc Hall. unfold glyph_frames.
  induction Hall as [| g glyphs (Hne & Hw & Hconv) _ IH].
  - split; reflexivity.
  - cbn [filter]. unfold visible at 1.
    destruct (String.eqb_spec (g_hex g) ""); [contradiction |].
    cbn [negb map join List.length Nat.mul].
    apply hex_field_app; [| exact IH].
    replace (Z.to_nat (per_char_cost matrix_height))
      with (1 + (3 + (1 + (1 + Z.to_nat (2 * matrix_height)))))%nat
      by (unfold per_char_cost; lia).
    unfold glyph_frame.
    apply (hex_field_app 1 _ "80"); [split; reflexivity |].
    apply hex_field_app; [exact Hc |].
    apply hex_field_app; [now apply format_02x_field |].
    apply hex_field_app; [apply format_02x_field; lia | exact Hconv].
Qed.

(** X21: what the two length fields of the legacy header count.  When every
    character has a bitmap of two bytes a row, the colour has six hexadecimal
    digits and the collaborators return well-formed fields, [send_text]
    returns a command of exactly 0x1D + textLength * perCharCost bytes, the
    number of the first field, of which the bytes from byte 15 on, the ones
    the checksum covers, are 0xE + textLength * perCharCost, the number of
    the second. *)
Theorem legacy_length_fields_count_bytes (E : collaborators) (a : send_text_args)
    (p : legacy_params) (glyphs : list glyph)
    (header_1 header_3 checksum : string) :
  let n := Py.len_str (st_text a) in
  let cost := per_char_cost (p_matrix_height p) in
  let characters :=
    Py.lower (join (glyph_frames (st_color a) (p_matrix_height p) glyphs)) in
  converted a p ->
  in_ranges (st_text a) p ->
  0 <= p_animation p <= 7 /\ p_animation p <> 3 /\ p_animation p <> 4 ->
  Forall2
    (rasterized E (p_matrix_height p) (st_font a)
       (p_font_offset_x p, p_font_offset_y p) (effective_font_size p))
    (list_ascii_of_string (st_text a)) glyphs ->
  Forall (two_byte_rows (p_matrix_height p)) glyphs ->
  hex_field 3 (st_color a) ->
  switch_endian E (four_hex_digits (0x1D + n * cost)) = Ok header_1 ->
  switch_endian E (four_hex_digits (0xE + n * cost)) = Ok header_3 ->
  CRC32_checksum E (int_to_hex n ++ properties_block p ++ characters)
  = Ok checksum ->
  hex_field 2 header_1 -> hex_field 2 header_3 -> hex_field 4 checksum ->
  exists cmd,
    send_text E a = Ok cmd
    /\ Py.len_bytes cmd = 0x1D + n * cost
    /\ Py.len_bytes (skipn 15 cmd) = 0xE + n * cost.
Proof.
  intros n cost characters Hc Hr Ha Hall Hrows Hcol Hh1 Hh3 Hcrc F1 F3 F4.
  assert (Hm : 1 <= p_matrix_height p <= 128) by (destruct Hr; tauto).
  destruct (glyph_stream_field _ _ _ Hm Hcol Hrows) as [Ps Ls].
  assert (Pl : hex_pairs characters = true)
    by (unfold characters; apply hex_pairs_lower; exact Ps).
  assert (Ll : String.length characters
               = (2 * (List.length glyphs * Z.to_nat cost))%nat)
    by (unfold characters; rewrite lower_length; exact Ls).
  pose proof (hex_bytes_length _ Pl) as Hbl.
  pose proof (Forall2_length Hall) as Hlen.
  rewrite length_list_ascii_of_string in Hlen.
  assert (Hstream : Z.of_nat (List.length (hex_bytes characters)) = n * cost).
  { assert (Hb : List.length (hex_bytes characters)
                 = (List.length glyphs * Z.to_nat cost)%nat) by lia.
    rewrite Hb, Nat2Z.inj_mul, Z2Nat.id
      by (unfold cost, per_char_cost; lia).
    unfold n, Py.len_str. now rewrite Hlen. }
  pose proof (legacy_layout a
                {| r_params := p; r_header_1 := header_1;
                   r_header_3 := header_3; r_characters := characters;
                   r_checksum := checksum |}
                Hr (proj1 Ha) F1 F3 F4) as Hlayout.
  cbn [r_params r_header_1 r_header_3 r_characters r_checksum] in Hlayout.
  rewrite (fromhex_hex_pairs _ Pl) in Hlayout. cbn [bind] in Hlayout.
  eexists. split; [| split].
  - apply send_text_runs.
    exists {| r_params := p; r_header_1 := header_1;
              r_header_3 := header_3; r_characters := characters;
              r_checksum := checksum |}.
    unfold runs. cbn [r_params r_header_1 r_header_3 r_characters r_checksum].
    split; [exact Hc |]. split; [exact Hr |]. split; [exact Ha |].
    split; [exact Hh1 |]. split; [exact Hh3 |].
    split; [now apply encode_text_glyphs |].
    split; [exact Hcrc |]. exact Hlayout.
  - name_field F1. name_field F3. name_field F4.
    unfold Py.len_bytes, properties_bytes in *. rewrite !length_app.
    cbn [List.length]. lia.
  - name_field F1. name_field F3. name_field F4.
    unfold properties_bytes. cbn [app skipn].
    unfold Py.len_bytes in *. cbn [List.length]. lia.
Qed.

Lemma legacy_length_fields_count_bytes_witness :
  exists cmd,
    send_text Double.tools (send_text_defaults "Hi") = Ok cmd
    /\ Py.len_bytes cmd = 105
    /\ Py.len_bytes (skipn 15 cmd) = 90.
Proof.
  apply (legacy_length_fields_count_bytes Double.tools (send_text_defaults "Hi")
           {| p_rainbow_mode := 0; p_animation := 0; p_save_slot := 1;
              p_speed := 80; p_font_offset_x := 0; p_font_offset_y := 0;
              p_font_size := 0; p_matrix_height := 16 |}
           [block_glyph; block_glyph] "6900" "5a00" "c4593306").
  - unfold converted. simpl. repeat split; reflexivity.
  - unfold in_ranges. simpl. repeat split; apply Z.leb_le; reflexivity.
  - simpl. repeat split; first [apply Z.leb_le; reflexivity | discriminate].
  - repeat constructor.
  - repeat constructor; first [discriminate | apply Z.leb_le; reflexivity
                              | apply Z.ltb_lt; reflexivity ].
  - split; reflexivity.
  - reflexivity.
  - reflexivity.
  - vm_compute. reflexivity.
  - split; reflexivity.
  - split; reflexivity.
  - split; reflexivity.
Defined.

(** ** Validation in the legacy text command *)

(** X22: [send_text] returns a command only for parameters that convert to
    integers with rainbow mode in 0..9, animation in 0..7 other than 3 and 4,
    save slot in 1..10, speed in 0..100, matrix height in 1..128, and a text
    of 1 to 100 characters.  With an empty text, or one longer than 100, it
    never returns a command, and fails with the "Text length" range error
    when the four parameters checked before it are in range. *)
Theorem send_text_validates (E : collaborators) (a : send_text_args) :
  (forall cmd,
     send_text E a = Ok cmd ->
     exists p,
       converted a p /\ in_ranges (st_text a) p
       /\ 0 <= p_animation p <= 7 /\ p_animation p <> 3 /\ p_animation p <> 4)
  /\ (Py.len_str (st_text a) < 1 \/ 100 < Py.len_str (st_text a) ->
      (exists e, send_text E a = Err e)
      /\ (forall p,
            converted a p ->
            0 <= p_rainbow_mode p <= 9 -> 0 <= p_animation p <= 7 ->
            1 <= p_save_slot p <= 10 -> 0 <= p_speed p <= 100 ->
            send_text E a = Err (OutOfRange "Text length" 1 100))).
Proof.
  split.
  - intros cmd H. apply send_text_ok_body in H.
    destruct H as (p & Hc & Hr & Ha & H3 & H4 & _). exists p. tauto.
  - intros Hlen. split.
    + destruct (send_text E a) as [cmd | e] eqn:Hrun; [| now exists e].
      apply send_text_ok_valid in Hrun.
      destruct Hrun as (p & _ & (_ & _ & _ & Hn & _) & _). lia.
    + intros p (Hrm & Han & Hss & Hsp & Hfx & Hfy & Hfs & Hmh) Rrm Ran Rss Rsp.
      unfold send_text.
      rewrite Hrm, Han, Hss, Hsp, Hfx, Hfy, Hfs, Hmh. cbn [bind].
      rewrite !validate_range_in by assumption. cbn [bind].
      unfold validate_range at 1.
      destruct (Z.leb_spec 1 (Py.len_str (st_text a)));
        destruct (Z.leb_spec (Py.len_str (st_text a)) 100);
        first [lia | reflexivity].
Qed.

Lemma send_text_validates_witness :
  send_text Double.tools (send_text_defaults "")
  = Err (OutOfRange "Text length" 1 100).
Proof.
  destruct (send_text_validates Double.tools (send_text_defaults "")) as [_ H].
  destruct H as [_ H]; [left; reflexivity |].
  apply (H {| p_rainbow_mode := 0; p_animation := 0; p_save_slot := 1;
              p_speed := 80; p_font_offset_x := 0; p_font_offset_y := 0;
              p_font_size := 0; p_matrix_height := 16 |}).
  - unfold converted. simpl. repeat split; reflexivity.
  - simpl. lia.
  - simpl. lia.
  - simpl. lia.
  - simpl. lia.
Defined.

(** ** Size fields *)

(** X23: patching the size into a buffer that starts with a placeholder of
    two bytes, as [update_packet_size] does, gives what [add_packet_size]
    gives on the buffer without the placeholder; the command has the size
    field of its own length, followed by the buffer. *)
Theorem update_is_add_after_placeholder (x y : byte) (b : bytes) :
  update_packet_size (x :: y :: b) = add_packet_size b
  /\ (forall cmd,
        add_packet_size b = Ok cmd ->
        size_field cmd = Py.len_bytes cmd
        /\ Py.len_bytes cmd = Py.len_bytes b + 2
        /\ skipn 2 cmd = b).
Proof.
  split.
  - unfold update_packet_size, add_packet_size, Py.len_bytes.
    cbn [List.length skipn].
    replace (Z.of_nat (S (S (List.length b)))) with (Z.of_nat (List.length b) + 2)
      by lia.
    reflexivity.
  - intros cmd H. split; [exact (add_packet_size_field b cmd H) |].
    unfold add_packet_size in H. bind_inv H.
    apply to_bytes_le_ok in Hv. destruct Hv as [_ ->].
    assert (Hc : cmd = (Py.le_bytes 2 (Py.len_bytes b + 2) ++ b)%list)
      by congruence.
    subst cmd. split; [| reflexivity].
    unfold Py.len_bytes. rewrite length_app, le_bytes_length. lia.
Qed.

Lemma update_is_add_after_placeholder_witness :
  update_packet_size [xff; xff; x02; x00; x00] = Ok [x05; x00; x02; x00; x00].
Proof.
  destruct (update_is_add_after_placeholder xff xff [x02; x00; x00]) as [H _].
  rewrite H. reflexivity.
Defined.

(** ** Media commands *)

Lemma hex_of_byte_round_trip (x : byte) :
  hex_pairs (Py2.hex_of_byte x) = true /\ hex_bytes (Py2.hex_of_byte x) = [x].
Proof.
  unfold Py2.hex_of_byte.
  pose proof (Byte.to_N_bounded x) as Hb.
  destruct (int_to_hex_byte (Z.of_N (Byte.to_N x)) ltac:(lia)) as [Hp Hx].
  unfold int_to_hex in *. split; [exact Hp |].
  rewrite Hx. unfold as_byte, Py.byte_of_N. now rewrite N2Z.id, Byte.of_to_N.
Qed.

Lemma hex_of_bytes_round_trip (b : bytes) :
  hex_pairs (Py2.hex_of_bytes b) = true /\ hex_bytes (Py2.hex_of_bytes b) = b.
Proof.
  induction b as [| x b [IHp IHb]]; [split; reflexivity |].
  destruct (hex_of_byte_round_trip x) as [Hp Hx].
  cbn [Py2.hex_of_bytes]. split.
  - now apply hex_pairs_app.
  - rewrite hex_bytes_app by exact Hp. now rewrite Hx, IHb.
Qed.

Lemma send_media_layout (E : collaborators) (M : media)
    (ext family sub arg payload_hex checksum size outer : string) :
  (if Py2.endswith arg ext
   then data <- read_file M arg ;; Ok (Py2.hex_of_bytes data)
   else Ok arg) = Ok payload_hex ->
  hex_field 3 family -> hex_field 2 sub ->
  CRC32_checksum E payload_hex = Ok checksum -> hex_field 4 checksum ->
  get_frame_size M payload_hex 8 = Ok size -> hex_field 4 size ->
  get_frame_size M ("FFFF" ++ family ++ size ++ checksum ++ sub ++ payload_hex) 4
  = Ok outer ->
  hex_field 2 outer ->
  send_media E M ext family sub arg
  = (payload <- Py.fromhex payload_hex ;;
     Ok (hex_bytes outer ++ hex_bytes family ++ hex_bytes size
         ++ hex_bytes checksum ++ hex_bytes sub ++ payload)%list).
Proof.
  intros Hpay [Pf _] [Pu _] Hcrc [Pc _] Hsize [Ps _] Houter [Po _].
  unfold send_media. rewrite Hpay. cbn [bind]. rewrite Hcrc. cbn [bind].
  rewrite Hsize. cbn [bind]. rewrite Houter. cbn [bind].
  rewrite (fromhex_app outer) by exact Po.
  rewrite (fromhex_app family) by exact Pf.
  rewrite (fromhex_app size) by exact Ps.
  rewrite (fromhex_app checksum) by exact Pc.
  rewrite (fromhex_app sub) by exact Pu.
  destruct (Py.fromhex payload_hex); reflexivity.
Qed.

(** X24: [send_png] on the name of a .png file and [send_animation] on the
    name of a .gif file.  When the file cannot be read the error of the read
    is the error of the command.  When it is read and the collaborators
    return a checksum and an inner size of four bytes and an outer size of
    two bytes in hexadecimal, the command is the outer size, 02 00 00 (03 00
    00 for an animation), the inner size, the checksum of the file in
    hexadecimal, 00 65 (02 01), and from byte 15 on the bytes of the file
    unchanged. *)
Theorem media_command_of_file (E : collaborators) (M : media) (path : string) :
  (Py2.endswith path ".png" = true ->
   (forall e, read_file M path = Err e -> send_png E M path = Err e)
   /\ (forall data checksum size outer,
         read_file M path = Ok data ->
         CRC32_checksum E (Py2.hex_of_bytes data) = Ok checksum ->
         get_frame_size M (Py2.hex_of_bytes data) 8 = Ok size ->
         get_frame_size M
           ("FFFF" ++ "020000" ++ size ++ checksum ++ "0065"
            ++ Py2.hex_of_bytes data) 4 = Ok outer ->
         hex_field 4 checksum -> hex_field 4 size -> hex_field 2 outer ->
         send_png E M path
         = Ok (hex_bytes outer ++ [x02; x00; x00] ++ hex_bytes size
               ++ hex_bytes checksum ++ [x00; x65] ++ data)%list
         /\ skipn 15 (hex_bytes outer ++ [x02; x00; x00] ++ hex_bytes size
                      ++ hex_bytes checksum ++ [x00; x65] ++ data)%list = data))
  /\ (Py2.endswith path ".gif" = true ->
      (forall e, read_file M path = Err e -> send_animation E M path = Err e)
      /\ (forall data checksum size outer,
            read_file M path = Ok data ->
            CRC32_checksum E (Py2.hex_of_bytes data) = Ok checksum ->
            get_frame_size M (Py2.hex_of_bytes data) 8 = Ok size ->
            get_frame_size M
              ("FFFF" ++ "030000" ++ size ++ checksum ++ "0201"
               ++ Py2.hex_of_bytes data) 4 = Ok outer ->
            hex_field 4 checksum -> hex_field 4 size -> hex_field 2 outer ->
            send_animation E M path
            = Ok (hex_bytes outer ++ [x03; x00; x00] ++ hex_bytes size
                  ++ hex_bytes checksum ++ [x02; x01] ++ data)%list
            /\ skipn 15 (hex_bytes outer ++ [x03; x00; x00] ++ hex_bytes size
                         ++ hex_bytes checksum ++ [x02; x01] ++ data)%list
               = data)).
Proof.
  split; intros Hext; (split;
    [ intros e He; unfold send_png, send_animation, send_media;
      rewrite Hext, He; reflexivity
    | intros data checksum size outer Hread Hcrc Hsize Houter F4 Fs Fo;
      destruct (hex_of_bytes_round_trip data) as [Pd Bd];
      split;
      [ unfold send_png, send_animation;
        erewrite send_media_layout;
          [ rewrite (fromhex_hex_pairs _ Pd), Bd; reflexivity
          | rewrite Hext, Hread; reflexivity
          | split; reflexivity
          | split; reflexivity
          | exact Hcrc | exact F4 | exact Hsize | exact Fs | exact Houter
          | exact Fo ]
      | name_field F4; name_field Fs; name_field Fo; reflexivity ] ]).
Qed.

Lemma media_command_of_file_witness :
  send_png Double.tools DoubleMedia.tools "dot.png"
  = Ok [x13; x00; x02; x00; x00; x04; x00; x00; x00; x5b; xeb; xbe; xa5; x00;
        x65; x89; x50; x4e; x47]
  /\ send_animation Double.tools DoubleMedia.tools "none.gif"
     = Err (ExternalError "FileNotFoundError").
Proof.
  destruct (media_command_of_file Double.tools DoubleMedia.tools "dot.png")
    as [Hpng _].
  destruct (media_command_of_file Double.tools DoubleMedia.tools "none.gif")
    as [_ Hgif].
  split.
  - destruct (Hpng eq_refl) as [_ Hok].
    assert (Fc : hex_field 4 "5bebbea5") by (split; reflexivity).
    assert (Fs : hex_field 4 "04000000") by (split; reflexivity).
    assert (Fo : hex_field 2 "1300") by (split; reflexivity).
    exact (proj1 (Hok [x89; x50; x4e; x47] "5bebbea5" "04000000" "1300"
                      eq_refl eq_refl eq_refl eq_refl Fc Fs Fo)).
  - destruct (Hgif eq_refl) as [Hfail _]. apply Hfail. reflexivity.
Defined.
